(** * Celeste-map: a shallow embedding of the analysis pipeline

    The development follows the Python sources file by file:

    - [py]              the Python values and built-ins the code relies on
                        (truthiness, [str] methods, [int()], [round()],
                        true division, exceptions);
    - [risk_engine]     [src/risk_engine.py]: [VPNNode], [RiskEngine];
    - [utils]           [src/utils.py]: [get_default_config], [validate_ip];
    - [geo_analyzer]    [src/geo_analyzer.py]: [GeoAnalyzer];
    - [data_processor]  [src/data_processor.py]: [clean_dataframe].

    Python [float] is IEEE binary64 and is embedded as Rocq's primitive
    [float]; Python [int] is [Z]; [str] is [string] (the embedding is exact
    on ASCII text); [Optional[T]] is [option T]; a raised exception is the
    [Raise] result. *)

From Stdlib Require Import ZArith Floats Ascii String DecimalString DecimalPos.
From stdpp Require Import gmap strings list.

Set Warnings "-inexact-float".
Local Open Scope string_scope.
Local Open Scope Z_scope.

(* ================================================================= *)
(** ** Python built-ins *)

Module py.

(** The exceptions the modelled code can raise. *)
Inductive exn : Type :=
  | KeyError (key : string)
  | ZeroDivisionError
  | ValueError (what : string)
  | TypeError (what : string)
  | AttributeError (what : string)
  | IndexingError (what : string).

(** A computation either returns or raises. *)
Inductive res (A : Type) : Type :=
  | Return (a : A)
  | Raise (e : exn).
Arguments Return {A} a.
Arguments Raise {A} e.

Definition bind {A B} (c : res A) (k : A -> res B) : res B :=
  match c with
  | Return a => k a
  | Raise e => Raise e
  end.

(** [d[k]] on a dict with string keys. *)
Definition getitem {V} (d : gmap string V) (k : string) : res V :=
  match d !! k with
  | Some v => Return v
  | None => Raise (KeyError k)
  end.

(** *** Truthiness *)

Definition truthy_str (s : string) : bool :=
  match s with EmptyString => false | String _ _ => true end.

Definition truthy_int (z : Z) : bool := negb (z =? 0).

(** [bool(x)] for a float is [x != 0.0]: both zeros are falsy, NaN is
    truthy. *)
Definition truthy_float (x : float) : bool := negb (PrimFloat.eqb x 0%float).

Definition truthy_opt {A} (t : A -> bool) (o : option A) : bool :=
  match o with Some a => t a | None => false end.

(** [a or b] on optional values: [a] when it is truthy, else [b]. *)
Definition or_else {A} (t : A -> bool) (a b : option A) : option A :=
  if truthy_opt t a then a else b.

(** *** Strings *)

Definition is_upper (c : ascii) : bool :=
  let n := nat_of_ascii c in (65 <=? n)%nat && (n <=? 90)%nat.

Definition lower_char (c : ascii) : ascii :=
  if is_upper c then ascii_of_nat (nat_of_ascii c + 32) else c.

(** [s.lower()]. *)
Fixpoint lower (s : string) : string :=
  match s with
  | EmptyString => EmptyString
  | String c r => String (lower_char c) (lower r)
  end.

(** [sub in s]. *)
Fixpoint contains (sub s : string) : bool :=
  if String.prefix sub s then true
  else match s with
       | EmptyString => false
       | String _ r => contains sub r
       end.

(** [s.split(sep)] for a one-character separator: the pieces between the
    occurrences of [sep]; never the empty list. *)
Fixpoint split (sep : ascii) (s : string) : list string :=
  match s with
  | EmptyString => [EmptyString]
  | String c r =>
      if Ascii.eqb c sep then EmptyString :: split sep r
      else match split sep r with
           | p :: ps => String c p :: ps
           | [] => [String c EmptyString]
           end
  end.

(** The ASCII characters [str.isspace] accepts. *)
Definition is_space (c : ascii) : bool :=
  let n := nat_of_ascii c in
  ((9 <=? n)%nat && (n <=? 13)%nat) || ((28 <=? n)%nat && (n <=? 32)%nat).

Fixpoint lstrip (s : string) : string :=
  match s with
  | EmptyString => EmptyString
  | String c r => if is_space c then lstrip r else s
  end.

Fixpoint rstrip (s : string) : string :=
  match s with
  | EmptyString => EmptyString
  | String c r =>
      match rstrip r with
      | EmptyString => if is_space c then EmptyString else String c EmptyString
      | r' => String c r'
      end
  end.

(** [s.strip()]. *)
Definition strip (s : string) : string := rstrip (lstrip s).

Definition digit_value (c : ascii) : option Z :=
  let n := nat_of_ascii c in
  if (48 <=? n)%nat && (n <=? 57)%nat then Some (Z.of_nat n - 48) else None.

(** The digits of an [int()] literal: decimal digits, a single underscore
    allowed between two digits.  [acc] is the value read so far and
    [after_digit] tells whether the previous character was a digit. *)
Fixpoint int_digits (acc : Z) (after_digit : bool) (s : string) : option Z :=
  match s with
  | EmptyString => if after_digit then Some acc else None
  | String c r =>
      match digit_value c with
      | Some d => int_digits (10 * acc + d) true r
      | None =>
          if Ascii.eqb c "_" && after_digit then
            match r with
            | EmptyString => None
            | String c' _ =>
                match digit_value c' with
                | Some _ => int_digits acc false r
                | None => None
                end
            end
          else None
      end
  end.

(** [int(s)] in base 10; [None] stands for [ValueError]. *)
Definition int_of_str (s : string) : option Z :=
  match strip s with
  | String "+" r => int_digits 0 false r
  | String "-" r => Z.opp <$> int_digits 0 false r
  | t => int_digits 0 false t
  end.

(** [str(n)] for an int. *)
Definition str_of_int (n : Z) : string :=
  NilEmpty.string_of_int (Z.to_int n).

(** *** Floats *)

(** The binary64 nearest to [n / d] (ties to even).  This is Python's
    [int / int], and [float(n)] when [d = 1]. *)
Definition float_of_ratio (n d : Z) : float :=
  match n, d with
  | Z0, _ => PrimFloat.zero
  | _, Z0 => PrimFloat.nan
  | _, _ =>
      let '(mz, ez, lz) := SFdiv_core_binary prec emax (Z.abs n) 0 (Z.abs d) 0 in
      SF2Prim (binary_round_aux prec emax (xorb (n <? 0) (d <? 0)) mz ez lz)
  end.

Definition float_of_int (n : Z) : float := float_of_ratio n 1.

(** [a / b] on ints. *)
Definition int_truediv (a b : Z) : res float :=
  if b =? 0 then Raise ZeroDivisionError else Return (float_of_ratio a b).

(** [x / n] for a float [x] and an int [n]. *)
Definition float_div_int (x : float) (n : Z) : res float :=
  if n =? 0 then Raise ZeroDivisionError
  else Return (PrimFloat.div x (float_of_int n)).

(** The integer nearest to [n / d], ties to even ([0 < d]). *)
Definition round_half_even (n d : Z) : Z :=
  let q := n / d in
  let r := n mod d in
  match 2 * r ?= d with
  | Lt => q
  | Gt => q + 1
  | Eq => if Z.even q then q else q + 1
  end.

(** [round(x, ndigits)] for [0 <= ndigits]: CPython rounds the exact
    binary value of [x] to [ndigits] decimals, ties to even, and returns
    the float nearest to that decimal; infinities and NaN round to
    themselves and the sign of a zero result is kept. *)
Definition round (x : float) (ndigits : Z) : float :=
  match Prim2SF x with
  | S754_finite s m e =>
      let p := 10 ^ ndigits in
      let k := if 0 <=? e then Z.pos m * 2 ^ e * p
               else round_half_even (Z.pos m * p) (2 ^ (- e)) in
      if k =? 0 then (if s then PrimFloat.neg_zero else PrimFloat.zero)
      else float_of_ratio (if s then - k else k) p
  | _ => x
  end.

(** The integer part of a finite float, towards zero ([int(x)]). *)
Definition float_trunc (x : float) : option Z :=
  match Prim2SF x with
  | S754_zero _ => Some 0
  | S754_finite s m e =>
      let n := if 0 <=? e then Z.pos m * 2 ^ e else Z.pos m / 2 ^ (- e) in
      Some (if s then - n else n)
  | _ => None
  end.

(** The integer a float is exactly equal to, if any. *)
Definition float_exact_int (x : float) : option Z :=
  match Prim2SF x with
  | S754_zero _ => Some 0
  | S754_finite s m e =>
      if 0 <=? e then Some (if s then - (Z.pos m * 2 ^ e) else Z.pos m * 2 ^ e)
      else if Z.pos m mod 2 ^ (- e) =? 0
           then Some (if s then - (Z.pos m / 2 ^ (- e)) else Z.pos m / 2 ^ (- e))
           else None
  | _ => None
  end.

(** [x >= y] and [x > y] on floats. *)
Definition float_ge (x y : float) : bool := PrimFloat.leb y x.
Definition float_gt (x y : float) : bool := PrimFloat.ltb y x.


(** *** Objects *)

(** A Python scalar as a table cell can hold it.  NaN is the float
    [OFloat nan]. *)
Inductive obj : Type :=
  | ONone
  | OStr (s : string)
  | OInt (n : Z)
  | OFloat (x : float)
  | OBool (b : bool).

(** [for each of] a loop body that may raise. *)
Fixpoint foldM {A B} (f : A -> B -> res A) (a : A) (l : list B) : res A :=
  match l with
  | [] => Return a
  | b :: r => bind (f a b) (fun a' => foldM f a' r)
  end.

End py.

(** [res] with stdpp's monad notation: [x ← c; k]. *)
#[global] Instance res_ret : MRet py.res := @py.Return.
#[global] Instance res_bind : MBind py.res := fun A B k c => py.bind c k.

(* ================================================================= *)
(** ** src/risk_engine.py *)

Module risk_engine.

(** [class RiskLevel(Enum)]. *)
Inductive RiskLevel : Type := LOW | MEDIUM | HIGH | UNKNOWN.

#[global] Instance RiskLevel_eq_dec : EqDecision RiskLevel.
Proof. solve_decision. Defined.

Definition RiskLevel_code (l : RiskLevel) : nat :=
  match l with LOW => 0 | MEDIUM => 1 | HIGH => 2 | UNKNOWN => 3 end%nat.

Definition RiskLevel_of_code (n : nat) : RiskLevel :=
  match n with O => LOW | 1 => MEDIUM | 2 => HIGH | _ => UNKNOWN end%nat.

#[global] Instance RiskLevel_countable : Countable RiskLevel.
Proof.
  apply (inj_countable' RiskLevel_code RiskLevel_of_code).
  intros []; reflexivity.
Defined.

(** [RiskLevel.value]. *)
Definition RiskLevel_value (l : RiskLevel) : string :=
  match l with
  | LOW => "Low" | MEDIUM => "Medium" | HIGH => "High" | UNKNOWN => "Unknown"
  end.

(** [@dataclass class VPNNode].  [risk_factors] is the list that
    [__post_init__] installs. *)
Record VPNNode : Type := mkVPNNode {
  ip : string;
  port : option Z;
  country : option string;
  region : option string;
  city : option string;
  asn : option string;
  isp : option string;
  first_seen : option string;
  last_seen : option string;
  latitude : option float;
  longitude : option float;
  risk_score : float;
  risk_level : RiskLevel;
  risk_factors : list string
}.

(** [VPNNode(ip=...)]: every other field at its default. *)
Definition VPNNode_new (ip : string) : VPNNode :=
  mkVPNNode ip None None None None None None None None None None
            0%float UNKNOWN [].

(** Attribute assignment, [node.f = v]. *)
Definition set_country (v : option string) (n : VPNNode) : VPNNode :=
  mkVPNNode n.(ip) n.(port) v n.(region) n.(city) n.(asn) n.(isp)
            n.(first_seen) n.(last_seen) n.(latitude) n.(longitude)
            n.(risk_score) n.(risk_level) n.(risk_factors).
Definition set_region (v : option string) (n : VPNNode) : VPNNode :=
  mkVPNNode n.(ip) n.(port) n.(country) v n.(city) n.(asn) n.(isp)
            n.(first_seen) n.(last_seen) n.(latitude) n.(longitude)
            n.(risk_score) n.(risk_level) n.(risk_factors).
Definition set_city (v : option string) (n : VPNNode) : VPNNode :=
  mkVPNNode n.(ip) n.(port) n.(country) n.(region) v n.(asn) n.(isp)
            n.(first_seen) n.(last_seen) n.(latitude) n.(longitude)
            n.(risk_score) n.(risk_level) n.(risk_factors).
Definition set_asn (v : option string) (n : VPNNode) : VPNNode :=
  mkVPNNode n.(ip) n.(port) n.(country) n.(region) n.(city) v n.(isp)
            n.(first_seen) n.(last_seen) n.(latitude) n.(longitude)
            n.(risk_score) n.(risk_level) n.(risk_factors).
Definition set_isp (v : option string) (n : VPNNode) : VPNNode :=
  mkVPNNode n.(ip) n.(port) n.(country) n.(region) n.(city) n.(asn) v
            n.(first_seen) n.(last_seen) n.(latitude) n.(longitude)
            n.(risk_score) n.(risk_level) n.(risk_factors).
Definition set_latitude (v : option float) (n : VPNNode) : VPNNode :=
  mkVPNNode n.(ip) n.(port) n.(country) n.(region) n.(city) n.(asn) n.(isp)
            n.(first_seen) n.(last_seen) v n.(longitude)
            n.(risk_score) n.(risk_level) n.(risk_factors).
Definition set_longitude (v : option float) (n : VPNNode) : VPNNode :=
  mkVPNNode n.(ip) n.(port) n.(country) n.(region) n.(city) n.(asn) n.(isp)
            n.(first_seen) n.(last_seen) n.(latitude) v
            n.(risk_score) n.(risk_level) n.(risk_factors).
Definition set_risk (score : float) (level : RiskLevel)
    (factors : list string) (n : VPNNode) : VPNNode :=
  mkVPNNode n.(ip) n.(port) n.(country) n.(region) n.(city) n.(asn) n.(isp)
            n.(first_seen) n.(last_seen) n.(latitude) n.(longitude)
            score level factors.

(** The [config] dict handed to [RiskEngine.__init__]; a key may be
    missing. *)
Record Config : Type := mkConfig {
  cfg_high_risk_ports : option (list Z);
  cfg_medium_risk_ports : option (list Z);
  cfg_datacenter_asn_keywords : option (list string);
  cfg_thresholds : option (gmap string float)
}.

(** The attributes [__init__] sets. *)
Record RiskEngine : Type := mkRiskEngine {
  high_risk_ports : gset Z;
  medium_risk_ports : gset Z;
  datacenter_keywords : list string;
  thresholds : gmap string float
}.

(** The literal default of [config.get('thresholds', {...})]. *)
Definition builtin_thresholds : gmap string float :=
  <["high" := 7.0%float]> (<["medium" := 4.0%float]> (<["low" := 0.0%float]> ∅)).

(** [RiskEngine.__init__]. *)
Definition init (config : Config) : RiskEngine :=
  {| high_risk_ports := list_to_set (default [] config.(cfg_high_risk_ports));
     medium_risk_ports := list_to_set (default [] config.(cfg_medium_risk_ports));
     datacenter_keywords :=
       map py.lower (default [] config.(cfg_datacenter_asn_keywords));
     thresholds := default builtin_thresholds config.(cfg_thresholds) |}.

(** [any(keyword in text for keyword in self.datacenter_keywords)]. *)
Definition any_keyword_in (self : RiskEngine) (text : string) : bool :=
  existsb (fun keyword => py.contains keyword text) self.(datacenter_keywords).

(** The running pair [(risk_score, risk_factors)] of [assess_node]. *)
Definition acc : Type := (float * list string)%type.

(** [risk_score += w; risk_factors.append(msg)]. *)
Definition fire (w : float) (msg : string) (a : acc) : acc :=
  (PrimFloat.add (fst a) w, (snd a ++ [msg])%list).

(** Lines 100-107: port-based risk. *)
Definition port_rule (self : RiskEngine) (node : VPNNode) (a : acc) : acc :=
  match node.(port) with
  | Some p =>
      if py.truthy_int p then
        if bool_decide (p ∈ self.(high_risk_ports)) then
          fire 3.0 ("High-risk port (" ++ py.str_of_int p ++ ")") a
        else if bool_decide (p ∈ self.(medium_risk_ports)) then
          fire 1.5 ("Medium-risk port (" ++ py.str_of_int p ++ ")") a
        else a
      else a
  | None => a
  end.

(** Lines 110-114: datacenter keyword in the ISP. *)
Definition isp_rule (self : RiskEngine) (node : VPNNode) (a : acc) : acc :=
  match node.(isp) with
  | Some s =>
      if py.truthy_str s then
        let isp_lower := py.lower s in
        if any_keyword_in self isp_lower
        then fire 2.0 "Datacenter/hosting provider" a else a
      else a
  | None => a
  end.

(** Lines 116-120: datacenter keyword in the ASN. *)
Definition asn_rule (self : RiskEngine) (node : VPNNode) (a : acc) : acc :=
  match node.(asn) with
  | Some s =>
      if py.truthy_str s then
        let asn_lower := py.lower s in
        if any_keyword_in self asn_lower
        then fire 1.5 "Datacenter ASN pattern" a else a
      else a
  | None => a
  end.

(** Lines 126-128: [if node.isp and 'vpn' in node.isp.lower()]. *)
Definition vpn_rule (node : VPNNode) (a : acc) : acc :=
  match node.(isp) with
  | Some s =>
      if py.truthy_str s && py.contains "vpn" (py.lower s)
      then fire 1.0 "Known VPN provider" a else a
  | None => a
  end.

(** Lines 131-137: the count of missing metadata fields. *)
Definition missing_fields (node : VPNNode) : Z :=
  (if py.truthy_opt py.truthy_str node.(country) then 0 else 1) +
  (if py.truthy_opt py.truthy_str node.(isp) then 0 else 1) +
  (if py.truthy_opt py.truthy_str node.(asn) then 0 else 1).

(** Lines 139-141. *)
Definition metadata_rule (node : VPNNode) (a : acc) : acc :=
  if 2 <=? missing_fields node then fire 0.5 "Insufficient metadata" a else a.

(** Lines 144-151: the level of a score under the engine's thresholds.
    ['medium'] is looked up only when the ['high'] test fails. *)
Definition level_of (thresholds : gmap string float) (risk_score : float)
    : py.res RiskLevel :=
  high ← py.getitem thresholds "high";
  if py.float_ge risk_score high then mret HIGH
  else
    medium ← py.getitem thresholds "medium";
    if py.float_ge risk_score medium then mret MEDIUM
    else if py.float_gt risk_score 0 then mret LOW
    else mret UNKNOWN.

(** [RiskEngine.assess_node]. *)
Definition assess_node (self : RiskEngine) (node : VPNNode) : py.res VPNNode :=
  let a : acc := (0.0%float, []) in
  let a := port_rule self node a in
  let a := isp_rule self node a in
  let a := asn_rule self node a in
  let a := vpn_rule node a in
  let a := metadata_rule node a in
  let '(risk_score, risk_factors) := a in
  risk_level ← level_of self.(thresholds) risk_score;
  mret (set_risk (py.round risk_score 2) risk_level risk_factors node).

(** [RiskEngine.assess_nodes]: the list comprehension stops at the first
    node whose assessment raises. *)
Fixpoint assess_nodes (self : RiskEngine) (nodes : list VPNNode)
    : py.res (list VPNNode) :=
  match nodes with
  | [] => mret []
  | node :: rest =>
      n ← assess_node self node;
      ns ← assess_nodes self rest;
      mret (n :: ns)
  end.

(** A value of the statistics dict. *)
Inductive stat : Type :=
  | SInt (n : Z)
  | SFloat (x : float).

(** The initial [risk_counts] dict. *)
Definition risk_counts0 : gmap RiskLevel Z :=
  <[HIGH := 0]> (<[MEDIUM := 0]> (<[LOW := 0]> (<[UNKNOWN := 0]> ∅))).

Definition getcount (risk_counts : gmap RiskLevel Z) (l : RiskLevel) : py.res Z :=
  match risk_counts !! l with
  | Some c => mret c
  | None => py.Raise (py.KeyError (RiskLevel_value l))
  end.

(** The body of the loop at lines 202-204. *)
Definition tally (st : gmap RiskLevel Z * float) (node : VPNNode)
    : py.res (gmap RiskLevel Z * float) :=
  let '(risk_counts, total_score) := st in
  c ← getcount risk_counts node.(risk_level);
  mret (<[node.(risk_level) := c + 1]> risk_counts,
        PrimFloat.add total_score node.(risk_score)).

Fixpoint tally_all (st : gmap RiskLevel Z * float) (nodes : list VPNNode)
    : py.res (gmap RiskLevel Z * float) :=
  match nodes with
  | [] => mret st
  | node :: rest => st' ← tally st node; tally_all st' rest
  end.

(** [round(risk_counts[level] / total * 100, 1)]. *)
Definition pct (risk_counts : gmap RiskLevel Z) (l : RiskLevel) (total : Z)
    : py.res float :=
  c ← getcount risk_counts l;
  q ← py.int_truediv c total;
  mret (py.round (PrimFloat.mul q (py.float_of_int 100)) 1).

(** [RiskEngine.get_statistics]. *)
Definition get_statistics (nodes : list VPNNode) : py.res (gmap string stat) :=
  let total := Z.of_nat (length nodes) in
  if total =? 0 then
    mret (<["total" := SInt 0]> (<["high_risk" := SInt 0]>
         (<["medium_risk" := SInt 0]> (<["low_risk" := SInt 0]>
         (<["unknown" := SInt 0]> (<["average_score" := SFloat 0.0]> ∅))))))
  else
    '(risk_counts, total_score) ← tally_all (risk_counts0, 0.0%float) nodes;
    high ← getcount risk_counts HIGH;
    medium ← getcount risk_counts MEDIUM;
    low ← getcount risk_counts LOW;
    unknown ← getcount risk_counts UNKNOWN;
    average ← (if 0 <? total
               then q ← py.float_div_int total_score total; mret (py.round q 2)
               else mret 0.0%float);
    high_pct ← pct risk_counts HIGH total;
    medium_pct ← pct risk_counts MEDIUM total;
    low_pct ← pct risk_counts LOW total;
    unknown_pct ← pct risk_counts UNKNOWN total;
    mret (<["total" := SInt total]> (<["high_risk" := SInt high]>
         (<["medium_risk" := SInt medium]> (<["low_risk" := SInt low]>
         (<["unknown" := SInt unknown]> (<["average_score" := SFloat average]>
         (<["high_risk_pct" := SFloat high_pct]>
         (<["medium_risk_pct" := SFloat medium_pct]>
         (<["low_risk_pct" := SFloat low_pct]>
         (<["unknown_pct" := SFloat unknown_pct]> ∅)))))))))).

End risk_engine.

(* ================================================================= *)
(** ** src/utils.py *)

Module utils.

(** [get_default_config()['risk_engine']]. *)
Definition default_risk_config : risk_engine.Config :=
  {| risk_engine.cfg_high_risk_ports := Some [22; 23; 3389; 4444; 5555; 8080; 8888];
     risk_engine.cfg_medium_risk_ports := Some [80; 443; 8000; 8443];
     risk_engine.cfg_datacenter_asn_keywords :=
       Some ["hosting"; "datacenter"; "cloud"; "virtual"; "vpn"; "proxy"];
     risk_engine.cfg_thresholds :=
       Some (<["high" := 7.0%float]> (<["medium" := 4.0%float]>
            (<["low" := 0.0%float]> ∅))) |}.

(** *** [validate_ip]

    [validate_ip(ip)] is [True] when [ipaddress.ip_address(ip)] returns and
    [False] when it raises [ValueError].  The definitions below follow
    CPython's [ipaddress] module: [IPv4Address] is tried first, then
    [IPv6Address]. *)

Definition is_digit (c : ascii) : bool :=
  let n := nat_of_ascii c in (48 <=? n)%nat && (n <=? 57)%nat.

Definition is_hex_digit (c : ascii) : bool :=
  let n := nat_of_ascii c in
  is_digit c || ((65 <=? n)%nat && (n <=? 70)%nat)
             || ((97 <=? n)%nat && (n <=? 102)%nat).

Definition hex_value (c : ascii) : Z :=
  let n := Z.of_nat (nat_of_ascii c) in
  if is_digit c then n - 48 else if n <? 97 then n - 55 else n - 87.

Fixpoint forallb_str (p : ascii -> bool) (s : string) : bool :=
  match s with
  | EmptyString => true
  | String c r => p c && forallb_str p r
  end.

Fixpoint number_in_base (base acc : Z) (s : string) : Z :=
  match s with
  | EmptyString => acc
  | String c r => number_in_base base (base * acc + hex_value c) r
  end.

(** [IPv4Address._parse_octet]. *)
Definition _parse_octet (octet_str : string) : option Z :=
  if negb (py.truthy_str octet_str) then None
  else if negb (forallb_str is_digit octet_str) then None
  else if (3 <? String.length octet_str)%nat then None
  else if negb (String.eqb octet_str "0") && String.prefix "0" octet_str then None
  else
    let octet_int := number_in_base 10 0 octet_str in
    if 255 <? octet_int then None else Some octet_int.

(** [IPv4Address._ip_int_from_string]. *)
Definition ipv4_int_from_string (ip_str : string) : option Z :=
  if negb (py.truthy_str ip_str) then None
  else
    match py.split "." ip_str with
    | [a; b; c; d] =>
        a ← _parse_octet a; b ← _parse_octet b;
        c ← _parse_octet c; d ← _parse_octet d;
        Some (((a * 256 + b) * 256 + c) * 256 + d)
    | _ => None
    end.

(** [IPv4Address(address)] for a [str]. *)
Definition IPv4Address (addr_str : string) : option Z :=
  if py.contains "/" addr_str then None else ipv4_int_from_string addr_str.

(** [IPv6Address._parse_hextet]; [int('', 16)] raises. *)
Definition _parse_hextet (hextet_str : string) : option Z :=
  if negb (forallb_str is_hex_digit hextet_str) then None
  else if (4 <? String.length hextet_str)%nat then None
  else if negb (py.truthy_str hextet_str) then None
  else Some (number_in_base 16 0 hextet_str).

(** A part of an IPv6 literal between two colons: its text, or the value
    of one half of an IPv4-style suffix. *)
Inductive part : Type :=
  | Text (s : string)
  | Half (v : Z).

Definition part_empty (p : part) : bool :=
  match p with Text s => negb (py.truthy_str s) | Half _ => false end.

Definition part_value (p : part) : option Z :=
  match p with Text s => _parse_hextet s | Half v => Some v end.

(** The hextets [parts] read from the left, shifted in 16 bits at a time. *)
Fixpoint shift_in (ip_int : Z) (parts : list part) : option Z :=
  match parts with
  | [] => Some ip_int
  | p :: r => v ← part_value p; shift_in (Z.lor (Z.shiftl ip_int 16) v) r
  end.

(** The index of the single empty part strictly between the endpoints;
    [None] when a second one is met, [Some None] when there is none. *)
Fixpoint find_skip (i : nat) (inner : list part) (found : option nat)
    : option (option nat) :=
  match inner with
  | [] => Some found
  | p :: r =>
      if part_empty p then
        match found with
        | Some _ => None
        | None => find_skip (S i) r (Some i)
        end
      else find_skip (S i) r found
  end.

(** [IPv6Address._ip_int_from_string]. *)
Definition ipv6_int_from_string (ip_str : string) : option Z :=
  if negb (py.truthy_str ip_str) then None
  else
    let parts := py.split ":" ip_str in
    if (length parts <? 3)%nat then None
    else
      parts ←
        (let last_part := List.last parts "" in
         if py.contains "." last_part then
           ipv4_int ← IPv4Address last_part;
           Some (map Text (removelast parts)
                 ++ [Half (Z.land (Z.shiftr ipv4_int 16) 65535);
                     Half (Z.land ipv4_int 65535)])%list
         else Some (map Text parts));
      if (9 <? length parts)%nat then None
      else
        skip_index ← find_skip 1 (removelast (tl parts)) None;
        let first_empty := part_empty (hd (Text "") parts) in
        let last_empty := part_empty (List.last parts (Text "")) in
        match skip_index with
        | Some skip_index =>
            let parts_hi := Z.of_nat skip_index in
            let parts_lo := Z.of_nat (length parts) - Z.of_nat skip_index - 1 in
            parts_hi ←
              (if first_empty then
                 if parts_hi - 1 =? 0 then Some (parts_hi - 1) else None
               else Some parts_hi);
            parts_lo ←
              (if last_empty then
                 if parts_lo - 1 =? 0 then Some (parts_lo - 1) else None
               else Some parts_lo);
            let parts_skipped := 8 - (parts_hi + parts_lo) in
            if parts_skipped <? 1 then None
            else
              hi ← shift_in 0 (take (Z.to_nat parts_hi) parts);
              shift_in (Z.shiftl hi (16 * parts_skipped))
                       (drop (length parts - Z.to_nat parts_lo) parts)
        | None =>
            if negb (length parts =? 8)%nat then None
            else if first_empty then None
            else if last_empty then None
            else shift_in 0 parts
        end.

(** [str.partition('%')]: the text before the first percent sign and,
    when there is one, the text after it. *)
Fixpoint partition_percent (s : string) : string * option string :=
  match s with
  | EmptyString => (EmptyString, None)
  | String c r =>
      if Ascii.eqb c "%" then (EmptyString, Some r)
      else let '(a, b) := partition_percent r in (String c a, b)
  end.

(** [IPv6Address._split_scope_id]. *)
Definition _split_scope_id (ip_str : string) : option string :=
  match partition_percent ip_str with
  | (addr, None) => Some addr
  | (addr, Some scope_id) =>
      if negb (py.truthy_str scope_id) || py.contains "%" scope_id then None
      else Some addr
  end.

(** [IPv6Address(address)] for a [str]. *)
Definition IPv6Address (addr_str : string) : option Z :=
  if py.contains "/" addr_str then None
  else addr_str ← _split_scope_id addr_str; ipv6_int_from_string addr_str.

(** [ipaddress.ip_address(address)] for a [str]; [None] is [ValueError]. *)
Definition ip_address (address : string) : option Z :=
  match IPv4Address address with
  | Some n => Some n
  | None => IPv6Address address
  end.

(** [validate_ip].  An [int] (a [bool] is one) goes through
    [_check_int_address]: it is an address when it lies in [0, 2**128).
    Anything else is read through [str()]; the text of a float and the
    text ["None"] are never addresses. *)
Definition validate_ip (ip : py.obj) : bool :=
  match ip with
  | py.OStr s => match ip_address s with Some _ => true | None => false end
  | py.OInt n => (0 <=? n) && (n <=? 2 ^ 128 - 1)
  | py.OBool _ => true
  | py.OFloat _ => false
  | py.ONone => false
  end.

(** *** The application configuration

    The [config] dict, as far as the modelled code reads it.  At every
    level a key may be missing: [.get(key, default)] then yields the
    default. *)

(** [config['api']]. *)
Record ApiConfig : Type := mkApiConfig {
  api_ipinfo_token : option string
}.

(** [config['visualization']]. *)
Record VisualizationConfig : Type := mkVisualizationConfig {
  viz_colors : option (gmap string string)
}.

(** [config['data']]. *)
Record DataConfig : Type := mkDataConfig {
  data_max_records : option Z;
  data_required_columns : option (list string)
}.

Record AppConfig : Type := mkAppConfig {
  cfg_api : option ApiConfig;
  cfg_risk_engine : option risk_engine.Config;
  cfg_visualization : option VisualizationConfig;
  cfg_data : option DataConfig
}.

(** [get_default_config()], on the keys above. *)
Definition get_default_config : AppConfig :=
  {| cfg_api := Some {| api_ipinfo_token := Some "" |};
     cfg_risk_engine := Some default_risk_config;
     cfg_visualization :=
       Some {| viz_colors :=
                 Some (<["high_risk" := "#FF4444"]> (<["medium_risk" := "#FFA500"]>
                      (<["low_risk" := "#44FF44"]> (<["unknown" := "#CCCCCC"]> ∅)))) |};
     cfg_data :=
       Some {| data_max_records := Some 10000;
               data_required_columns := Some ["ip"] |} |}.

(** *** [format_number] *)

(** The digits [s] with a comma after each digit that is followed by a
    positive multiple of three digits. *)
Fixpoint group_thousands (s : string) : string :=
  match s with
  | EmptyString => EmptyString
  | String c r =>
      let n := String.length r in
      if (0 <? n)%nat && (n mod 3 =? 0)%nat
      then String c (String "," (group_thousands r))
      else String c (group_thousands r)
  end.

(** [format_number]: [f"{num:,}"] for an int, the sign first. *)
Definition format_number (num : Z) : string :=
  if num <? 0 then String "-" (group_thousands (py.str_of_int (- num)))
  else group_thousands (py.str_of_int num).

(** *** [truncate_text] *)

(** [text[:stop]]: a negative [stop] counts from the end. *)
Definition slice_to (stop : Z) (text : string) : string :=
  let n := Z.of_nat (String.length text) in
  let stop := if stop <? 0 then Z.max 0 (n + stop) else Z.min stop n in
  String.substring 0 (Z.to_nat stop) text.

(** [truncate_text]. *)
Definition truncate_text (text : string) (max_length : Z) : string :=
  if negb (py.truthy_str text) then ""
  else if Z.of_nat (String.length text) <=? max_length then text
  else slice_to (max_length - 3) text ++ "...".

(** *** [get_risk_color] *)

Definition get_risk_color (risk_level : string) (config : AppConfig) : string :=
  let colors : gmap string string :=
    match config.(cfg_visualization) with
    | Some visualization => default ∅ visualization.(viz_colors)
    | None => ∅
    end in
  let risk_level_lower := py.lower risk_level in
  if py.contains "high" risk_level_lower then
    default "#FF4444" (colors !! "high_risk")
  else if py.contains "medium" risk_level_lower then
    default "#FFA500" (colors !! "medium_risk")
  else if py.contains "low" risk_level_lower then
    default "#44FF44" (colors !! "low_risk")
  else default "#CCCCCC" (colors !! "unknown").

End utils.

(* ================================================================= *)
(** ** src/geo_analyzer.py *)

Module geo_analyzer.
Import risk_engine.

(** The dict a lookup returns on success; [.get] of a key yields [None]
    when the provider left the field out. *)
Record IpData : Type := mkIpData {
  d_country : option string;
  d_region : option string;
  d_city : option string;
  d_latitude : option float;
  d_longitude : option float;
  d_asn : option string;
  d_isp : option string
}.

(** The two HTTP endpoints. *)
Inductive endpoint : Type := IPInfo | FreeAPI.

(** One HTTP request: the endpoint and the address asked about. *)
Definition request : Type := (endpoint * string)%type.

(** The world outside the process: what a lookup gets back for a request,
    given the requests sent before it.  [None] covers every way a lookup
    returns [None]: a status other than 200, a body without
    [status == 'success'], and any exception (time-out, malformed body),
    which both lookup functions catch. *)
Definition Network : Type := list request -> request -> option IpData.

(** The mutable attributes of a [GeoAnalyzer].  [sent] is the trace of the
    [requests.get] calls, oldest first; the wall-clock attribute
    [last_request_time] only decides how long [_respect_rate_limit] sleeps
    and is left out. *)
Record GeoAnalyzer : Type := mkGeoAnalyzer {
  ipinfo_token : string;
  requests_count : Z;
  sent : list request
}.

Section with_network.
Variable net : Network.

(** [GeoAnalyzer._respect_rate_limit]. *)
Definition _respect_rate_limit (self : GeoAnalyzer) : GeoAnalyzer :=
  mkGeoAnalyzer self.(ipinfo_token) (self.(requests_count) + 1) self.(sent).

(** [requests.get(url, ...)] followed by the decoding of the answer. *)
Definition http_get (self : GeoAnalyzer) (r : request)
    : option IpData * GeoAnalyzer :=
  (net self.(sent) r,
   mkGeoAnalyzer self.(ipinfo_token) self.(requests_count) (self.(sent) ++ [r])%list).

(** [GeoAnalyzer.lookup_ip_ipinfo]. *)
Definition lookup_ip_ipinfo (self : GeoAnalyzer) (ip : string)
    : option IpData * GeoAnalyzer :=
  if negb (py.truthy_str self.(ipinfo_token)) then (None, self)
  else
    let self := _respect_rate_limit self in
    http_get self (IPInfo, ip).

(** [GeoAnalyzer.lookup_ip_free_api]. *)
Definition lookup_ip_free_api (self : GeoAnalyzer) (ip : string)
    : option IpData * GeoAnalyzer :=
  let self := _respect_rate_limit self in
  http_get self (FreeAPI, ip).

(** The table of [_get_country_coordinates]. *)
Definition coordinates : list (string * (float * float)) :=
  [ ("US", (37.0902, -95.7129)%float);
    ("GB", (55.3781, -3.4360)%float);
    ("DE", (51.1657, 10.4515)%float);
    ("FR", (46.2276, 2.2137)%float);
    ("NL", (52.1326, 5.2913)%float);
    ("CA", (56.1304, -106.3468)%float);
    ("AU", (-25.2744, 133.7751)%float);
    ("JP", (36.2048, 138.2529)%float);
    ("CN", (35.8617, 104.1954)%float);
    ("IN", (20.5937, 78.9629)%float);
    ("BR", (-14.2350, -51.9253)%float);
    ("RU", (61.5240, 105.3188)%float);
    ("SG", (1.3521, 103.8198)%float);
    ("EU", (50.8503, 4.3517)%float) ].

Fixpoint assoc {V} (k : string) (l : list (string * V)) : option V :=
  match l with
  | [] => None
  | (k', v) :: r => if String.eqb k k' then Some v else assoc k r
  end.

(** [GeoAnalyzer._get_country_coordinates]: [coordinates.get(code, (0, 0))].
    The default pair holds the ints [0]; as coordinates they are the float
    zero, which Python treats alike ([0 == 0.0], both falsy). *)
Definition _get_country_coordinates (country_code : option string)
    : float * float :=
  match country_code with
  | Some c => default (0, 0)%float (assoc c coordinates)
  | None => (0, 0)%float
  end.

(** Lines 197-204: the country guessed from the first octet. *)
Definition guess_country (first_octet : Z) : string :=
  if first_octet <? 50 then "US"
  else if first_octet <? 100 then "EU"
  else if first_octet <? 150 then "CN"
  else "Unknown".

(** [GeoAnalyzer._apply_fallback_data].  [int(...)] is the first statement
    of the [try] block, so when it raises the node has not been touched. *)
Definition _apply_fallback_data (node : VPNNode) : VPNNode :=
  match py.int_of_str (hd "" (py.split "." node.(ip))) with
  | None => node
  | Some first_octet =>
      let node :=
        if negb (py.truthy_opt py.truthy_str node.(country))
        then set_country (Some (guess_country first_octet)) node
        else node in
      if negb (py.truthy_opt py.truthy_float node.(latitude))
         || negb (py.truthy_opt py.truthy_float node.(longitude))
      then
        let coords := _get_country_coordinates node.(country) in
        set_longitude (Some (snd coords)) (set_latitude (Some (fst coords)) node)
      else node
  end.

(** Line 150: [node.latitude and node.longitude and node.country]. *)
Definition has_all_fields (node : VPNNode) : bool :=
  py.truthy_opt py.truthy_float node.(latitude)
  && py.truthy_opt py.truthy_float node.(longitude)
  && py.truthy_opt py.truthy_str node.(country).

(** Lines 167-173: the seven [node.f = node.f or ip_data.get('f')]. *)
Definition merge_ip_data (node : VPNNode) (ip_data : IpData) : VPNNode :=
  let node := set_country (py.or_else py.truthy_str node.(country) ip_data.(d_country)) node in
  let node := set_region (py.or_else py.truthy_str node.(region) ip_data.(d_region)) node in
  let node := set_city (py.or_else py.truthy_str node.(city) ip_data.(d_city)) node in
  let node := set_latitude (py.or_else py.truthy_float node.(latitude) ip_data.(d_latitude)) node in
  let node := set_longitude (py.or_else py.truthy_float node.(longitude) ip_data.(d_longitude)) node in
  let node := set_asn (py.or_else py.truthy_str node.(asn) ip_data.(d_asn)) node in
  set_isp (py.or_else py.truthy_str node.(isp) ip_data.(d_isp)) node.

(** Lines 158-164: the primary provider when a token is configured, then
    the free one when that gave nothing. *)
Definition api_lookup (self : GeoAnalyzer) (ip : string)
    : option IpData * GeoAnalyzer :=
  let '(ip_data, self) :=
    if py.truthy_str self.(ipinfo_token) then lookup_ip_ipinfo self ip
    else (None, self) in
  match ip_data with
  | Some _ => (ip_data, self)
  | None => lookup_ip_free_api self ip
  end.

(** [GeoAnalyzer.enrich_node]. *)
Definition enrich_node (self : GeoAnalyzer) (node : VPNNode) (use_api : bool)
    : VPNNode * GeoAnalyzer :=
  if has_all_fields node then (node, self)
  else if negb use_api then (_apply_fallback_data node, self)
  else
    let '(ip_data, self) := api_lookup self node.(ip) in
    match ip_data with
    | Some d => (merge_ip_data node d, self)
    | None => (_apply_fallback_data node, self)
    end.

(** The loop of [enrich_nodes] (lines 263-271), from a given value of
    [api_calls_made]; it returns the enriched nodes, the final counter and
    the analyzer.  The nodes of the list are distinct objects, as
    [dataframe_to_nodes] builds them: each is updated in place and appended,
    which is rendered by returning its new value. *)
Fixpoint enrich_loop (self : GeoAnalyzer) (nodes : list VPNNode)
    (use_api : bool) (max_api_calls api_calls_made : Z)
    : list VPNNode * Z * GeoAnalyzer :=
  match nodes with
  | [] => ([], api_calls_made, self)
  | node :: rest =>
      let should_use_api := use_api && (api_calls_made <? max_api_calls) in
      let '(enriched_node, self) := enrich_node self node should_use_api in
      let api_calls_made :=
        if should_use_api && py.truthy_opt py.truthy_float enriched_node.(latitude)
        then api_calls_made + 1 else api_calls_made in
      let '(enriched_nodes, n, self) :=
        enrich_loop self rest use_api max_api_calls api_calls_made in
      (enriched_node :: enriched_nodes, n, self)
  end.

(** [GeoAnalyzer.enrich_nodes]. *)
Definition enrich_nodes (self : GeoAnalyzer) (nodes : list VPNNode)
    (use_api : bool) (max_api_calls : Z) : list VPNNode * GeoAnalyzer :=
  let '(enriched_nodes, _, self) :=
    enrich_loop self nodes use_api max_api_calls 0 in
  (enriched_nodes, self).

End with_network.

(** [GeoAnalyzer.__init__]: the token is read from [config['api']]; no
    request has been sent. *)
Definition init (config : utils.AppConfig) : GeoAnalyzer :=
  let api_config := default (utils.mkApiConfig None) config.(utils.cfg_api) in
  mkGeoAnalyzer (default "" api_config.(utils.api_ipinfo_token)) 0 [].

End geo_analyzer.

(* ================================================================= *)
(** ** src/data_processor.py *)

Module data_processor.
Import py.

(** *** The part of pandas the cleaner uses

    A [DataFrame] is a list of labelled columns over a shared row index.
    A column is of dtype [object] (any Python scalar per cell), numeric
    ([int64] or [float64]) or [bool].  A numeric cell keeps its value: the
    embedding does not follow the widening of an [int64] column to
    [float64] when a NaN is stored into it, which leaves integers below
    2**53 unchanged. *)

Inductive num : Type :=
  | NInt (n : Z)
  | NFloat (x : float).

Inductive values : Type :=
  | ObjectCol (cells : list obj)
  | NumCol (cells : list num)
  | BoolCol (cells : list bool).

Record DataFrame : Type := mkDataFrame {
  index : list Z;
  columns : list (string * values)
}.

(** What [pd.to_numeric] returns: numbers or bools. *)
Inductive numeric : Type :=
  | Nums (cells : list num)
  | Bools (cells : list bool).

Definition of_numeric (v : numeric) : values :=
  match v with Nums l => NumCol l | Bools l => BoolCol l end.

Definition is_object (v : values) : bool :=
  match v with ObjectCol _ => true | _ => false end.

(** [len(series)]. *)
Definition size (v : values) : nat :=
  match v with
  | ObjectCol l => length l
  | NumCol l => length l
  | BoolCol l => length l
  end.

(** The Python objects a column hands to [Series.apply]. *)
Definition as_objects (v : values) : list obj :=
  match v with
  | ObjectCol l => l
  | NumCol l => map (fun c => match c with NInt n => OInt n | NFloat x => OFloat x end) l
  | BoolCol l => map OBool l
  end.

(** [df.columns]. *)
Definition labels (df : DataFrame) : list string := map fst df.(columns).

(** [name in df.columns]. *)
Definition has_column (name : string) (df : DataFrame) : bool :=
  bool_decide (name ∈ labels df).

(** [df[name]] as a Series.  A missing label raises [KeyError]; under a
    duplicated label [df[name]] is a DataFrame, and each use the cleaner
    makes of it then raises: [dup] is the exception of the calling line. *)
Definition series (name : string) (dup : exn) (df : DataFrame) : res values :=
  match filter (fun c => c.1 = name) df.(columns) with
  | [] => Raise (KeyError name)
  | [c] => Return c.2
  | _ => Raise dup
  end.

(** [df[name] = v]. *)
Definition assign (name : string) (v : values) (df : DataFrame) : DataFrame :=
  mkDataFrame df.(index)
    (map (fun c => if decide (c.1 = name) then (c.1, v) else c) df.(columns)).

(** Selection by a boolean mask. *)
Fixpoint mask {A} (m : list bool) (l : list A) : list A :=
  match m, l with
  | b :: m', x :: l' => if b then x :: mask m' l' else mask m' l'
  | _, _ => []
  end.

Definition mask_values (m : list bool) (v : values) : values :=
  match v with
  | ObjectCol l => ObjectCol (mask m l)
  | NumCol l => NumCol (mask m l)
  | BoolCol l => BoolCol (mask m l)
  end.

(** [df[m]] for a boolean Series [m] aligned with the rows. *)
Definition filter_rows (m : list bool) (df : DataFrame) : DataFrame :=
  mkDataFrame (mask m df.(index))
              (map (fun c => (c.1, mask_values m c.2)) df.(columns)).

(** [df[ips.apply(validate_ip)]].  On a column without rows [apply]
    returns an empty Series of the column's own dtype; unless that dtype
    is bool, pandas then reads the key as an empty list of column labels
    and the result has no column left. *)
Definition keep_valid (ips : values) (df : DataFrame) : DataFrame :=
  match ips with
  | ObjectCol [] | NumCol [] => mkDataFrame df.(index) []
  | _ => filter_rows (map utils.validate_ip (as_objects ips)) df
  end.

(** What [drop_duplicates] compares: text by content, numbers by value
    ([True] is 1, [1.0] is 1), and every missing value alike. *)
Inductive key : Type :=
  | KNull
  | KStr (s : string)
  | KInt (n : Z)
  | KFloat (x : float).

Definition dup_key (o : obj) : key :=
  match o with
  | ONone => KNull
  | OStr s => KStr s
  | OInt n => KInt n
  | OBool b => KInt (if b then 1 else 0)
  | OFloat x =>
      if PrimFloat.is_nan x then KNull
      else match float_exact_int x with Some n => KInt n | None => KFloat x end
  end.

Definition key_eqb (a b : key) : bool :=
  match a, b with
  | KNull, KNull => true
  | KStr s, KStr t => String.eqb s t
  | KInt m, KInt n => m =? n
  | KFloat x, KFloat y => PrimFloat.eqb x y
  | _, _ => false
  end.

(** [keep='first']: a row is kept unless its key equals the key of a row
    kept before it. *)
Fixpoint first_mask (seen : list key) (keys : list key) : list bool :=
  match keys with
  | [] => []
  | k :: r =>
      if existsb (key_eqb k) seen then false :: first_mask seen r
      else true :: first_mask (seen ++ [k])%list r
  end.

(** [df.empty]: no row or no column. *)
Definition empty (df : DataFrame) : bool :=
  match df.(index), df.(columns) with
  | [], _ => true
  | _, [] => true
  | _, _ => false
  end.

(** [df.drop_duplicates(subset=['ip'], keep='first')].  An empty frame is
    returned as it is, before the subset is looked at.  A duplicated
    ['ip'] label cannot reach the comparison: the filter before it
    raised. *)
Definition drop_duplicates_ip (df : DataFrame) : res DataFrame :=
  if empty df then mret df
  else
    ips ← series "ip" (IndexingError "ip") df;
    mret (filter_rows (first_mask [] (map dup_key (as_objects ips))) df).

(** [df.rename(columns={old: new})]. *)
Definition rename (old new : string) (df : DataFrame) : DataFrame :=
  mkDataFrame df.(index)
    (map (fun c => (if decide (c.1 = old) then new else c.1, c.2)) df.(columns)).

(** [Series.fillna(0)] then [.astype(int)] on one cell: NaN becomes 0, a
    float loses its fraction, an infinity cannot be converted. *)
Definition int_of_num (c : num) : res Z :=
  match c with
  | NInt n => Return n
  | NFloat x =>
      if PrimFloat.is_nan x then Return 0
      else match float_trunc x with
           | Some n => Return n
           | None => Raise (ValueError "Cannot convert non-finite values (NA or inf) to integer")
           end
  end.

Fixpoint mapM {A B} (f : A -> res B) (l : list A) : res (list B) :=
  match l with
  | [] => Return []
  | a :: r => b ← f a; bs ← mapM f r; mret (b :: bs)
  end.

(** [df.loc[df['port'] == 0, 'port'] = None] on one cell. *)
Definition zero_to_nan (n : Z) : num :=
  if n =? 0 then NFloat PrimFloat.nan else NInt n.

Definition isna (o : obj) : bool :=
  match o with
  | ONone => true
  | OFloat x => PrimFloat.is_nan x
  | _ => false
  end.

Definition is_str (o : obj) : bool :=
  match o with OStr _ => true | _ => false end.
Definition is_int (o : obj) : bool :=
  match o with OInt _ => true | _ => false end.
Definition is_float (o : obj) : bool :=
  match o with OFloat _ => true | _ => false end.
Definition is_bool (o : obj) : bool :=
  match o with OBool _ => true | _ => false end.

(** The [.str] accessor checks [infer_dtype(values, skipna=True)]: it
    refuses a column whose non-missing cells are all ints, all floats, ints
    and floats, or all bools, and accepts text, no value at all, and any
    other mixture. *)
Definition str_accessor_ok (cells : list obj) : bool :=
  match filter (fun o => negb (isna o)) cells with
  | [] => true
  | OStr _ :: _ => true
  | OBool _ :: r => negb (forallb is_bool r)
  | _ :: _ =>
      negb (forallb (fun o => is_int o || is_float o)
                    (filter (fun o => negb (isna o)) cells))
  end.

(** [x.strip()] under [Series.str]: text is stripped, a missing value is
    kept, any other object becomes NaN. *)
Definition strip_cell (o : obj) : obj :=
  match o with
  | OStr s => OStr (strip s)
  | ONone => ONone
  | OFloat x => if PrimFloat.is_nan x then o else OFloat PrimFloat.nan
  | _ => OFloat PrimFloat.nan
  end.

(** [series.str.strip()].  The result is converted back from objects: it
    stays an object column when it holds text or only missing values, and
    is the float column of NaN otherwise. *)
Definition str_strip (cells : list obj) : res values :=
  if str_accessor_ok cells then
    if existsb is_str cells || forallb isna cells
    then Return (ObjectCol (map strip_cell cells))
    else Return (NumCol (map (fun _ => NFloat PrimFloat.nan) cells))
  else Raise (AttributeError "Can only use .str accessor with string values!").

(** The known alternate spellings, in the order of the dict. *)
Definition column_mapping : list (string * string) :=
  [ ("IP", "ip"); ("Port", "port"); ("Country", "country"); ("ASN", "asn");
    ("ISP", "isp"); ("First Seen", "first_seen"); ("Last Seen", "last_seen");
    ("Latitude", "latitude"); ("Longitude", "longitude") ].

(** The body of the loop at lines 188-190. *)
Definition rename_known (df : DataFrame) (m : string * string) : DataFrame :=
  if has_column m.1 df then rename m.1 m.2 df else df.

(** [df.select_dtypes(include=['object']).columns]. *)
Definition string_columns (df : DataFrame) : list string :=
  map fst (filter (fun c => is_object c.2) df.(columns)).

Section with_parser.

(** How [pd.to_numeric] reads a piece of text: the number it denotes, or
    [None] when it denotes none (and [errors='coerce'] gives NaN). *)
Variable parse_number : string -> option num.

(** [pd.to_numeric(..., errors='coerce')] on one object. *)
Definition coerce (o : obj) : num :=
  match o with
  | OStr s => default (NFloat PrimFloat.nan) (parse_number s)
  | OInt n => NInt n
  | OFloat x => NFloat x
  | OBool b => NInt (if b then 1 else 0)
  | ONone => NFloat PrimFloat.nan
  end.

(** [pd.to_numeric(series, errors='coerce')]: a numeric or bool column is
    returned as it is; an object column is converted cell by cell, and
    comes out as bools when it has cells and bools are all it holds. *)
Definition to_numeric (v : values) : numeric :=
  match v with
  | ObjectCol [] => Nums []
  | ObjectCol l =>
      if forallb is_bool l
      then Bools (map (fun o => match o with OBool b => b | _ => false end) l)
      else Nums (map coerce l)
  | NumCol l => Nums l
  | BoolCol l => Bools l
  end.

(** Lines 194-195 on the port column: [to_numeric], [fillna(0)],
    [astype(int)], then zeros set to missing. *)
Definition port_clean (v : values) : res values :=
  ints ←
    match to_numeric v with
    | Nums l => mapM int_of_num l
    | Bools l => Return (map (fun b : bool => if b then 1 else 0) l)
    end;
  mret (NumCol (map zero_to_nan ints)).

(** Lines 198-200 for one of the two coordinate labels. *)
Definition coordinate_clean (df : DataFrame) (col : string) : res DataFrame :=
  if has_column col df then
    v ← series col (TypeError "arg must be a list, tuple, 1-d array, or Series") df;
    mret (assign col (of_numeric (to_numeric v)) df)
  else mret df.

(** Lines 204-205 for one label of [string_columns]. *)
Definition strip_column (df : DataFrame) (col : string) : res DataFrame :=
  v ← series col (AttributeError "'DataFrame' object has no attribute 'dtype'") df;
  match v with
  | ObjectCol cells => v' ← str_strip cells; mret (assign col v' df)
  | _ => mret (assign col v df)
  end.

(** [DataProcessor.clean_dataframe]. *)
Definition clean_dataframe (df : DataFrame) : res DataFrame :=
  df ← (if has_column "ip" df then
          ips ← series "ip" (IndexingError "Unalignable boolean Series provided as indexer") df;
          mret (keep_valid ips df)
        else mret df);
  df ← drop_duplicates_ip df;
  let df := fold_left rename_known column_mapping df in
  df ← (if has_column "port" df then
          v ← series "port" (TypeError "arg must be a list, tuple, 1-d array, or Series") df;
          v' ← port_clean v;
          mret (assign "port" v' df)
        else mret df);
  df ← foldM coordinate_clean df ["latitude"; "longitude"];
  foldM strip_column df (string_columns df).

End with_parser.

(** *** [DataProcessor] *)

(** The attributes [DataProcessor.__init__] sets. *)
Record DataProcessor : Type := mkDataProcessor {
  max_records : Z;
  required_columns : list string
}.

(** [DataProcessor.__init__]. *)
Definition init (config : utils.AppConfig) : DataProcessor :=
  let data_config :=
    default (utils.mkDataConfig None None) config.(utils.cfg_data) in
  {| max_records := default 10000 data_config.(utils.data_max_records);
     required_columns :=
       default ["ip"] data_config.(utils.data_required_columns) |}.

(** [df[~ips.apply(validate_ip)]]: the rows whose address is not valid.
    As in [keep_valid], a column without rows that is not of dtype bool
    gives a key pandas reads as an empty list of labels. *)
Definition drop_valid (ips : values) (df : DataFrame) : DataFrame :=
  match ips with
  | ObjectCol [] | NumCol [] => mkDataFrame df.(index) []
  | _ => filter_rows (map (fun o => negb (utils.validate_ip o)) (as_objects ips)) df
  end.

(** [DataProcessor.validate_dataframe]. *)
Definition validate_dataframe (self : DataProcessor) (df : DataFrame)
    : res (bool * list string) :=
  let errors : list string := [] in
  let missing_columns :=
    List.filter (fun col => negb (has_column col df)) self.(required_columns) in
  let errors :=
    match missing_columns with
    | [] => errors
    | _ => (errors ++ [("Missing required columns: "
                        ++ String.concat ", " missing_columns)%string])%list
    end in
  let errors :=
    if empty df then (errors ++ ["DataFrame is empty"])%list else errors in
  errors ←
    (if has_column "ip" df then
       ips ← series "ip" (IndexingError "Unalignable boolean Series provided as indexer") df;
       let invalid_ips := drop_valid ips df in
       if negb (empty invalid_ips)
       then mret (errors ++ [("Found " ++ str_of_int (Z.of_nat (length invalid_ips.(index)))
                              ++ " invalid IP addresses")%string])%list
       else mret errors
     else mret errors);
  let is_valid := match errors with [] => true | _ => false end in
  mret (is_valid, errors).

End data_processor.


(* ================================================================= *)
(** ** src/visualizations.py *)

Module visualizations.
Import risk_engine.

(** A marker of the world map: where it stands, its colour and icon, and
    its tooltip.  (The popup, a block of HTML built from the same node, is
    not represented.) *)
Record Marker : Type := mkMarker {
  location : float * float;
  color : string;
  icon : string;
  tooltip : string
}.

(** Lines 74-85: colour and icon by risk level. *)
Definition marker_style (risk_level : RiskLevel) : string * string :=
  match risk_level with
  | HIGH => ("red", "exclamation-triangle")
  | MEDIUM => ("orange", "exclamation-circle")
  | LOW => ("green", "info-circle")
  | UNKNOWN => ("gray", "question-circle")
  end.

(** An optional text inside an f-string: [None] prints as "None". *)
Definition str_of_opt (o : option string) : string := default "None" o.

(** [folium]'s [validate_location], which [folium.Marker] and [HeatMap]
    run on each location they are given: the two coordinates are
    converted with [float()], and a NaN among them raises [ValueError]. *)
Definition validate_location (lat lon : float) : py.res (float * float) :=
  if PrimFloat.is_nan lat || PrimFloat.is_nan lon
  then py.Raise (py.ValueError "Location values cannot contain NaNs.")
  else py.Return (lat, lon).

(** The markers [create_world_map] adds, in the order of the nodes (lines
    69-118): a node is skipped when a coordinate [is None]; building the
    marker of a node raises when a coordinate is NaN, and the exception
    leaves [create_world_map]. *)
Fixpoint world_map_markers (nodes : list VPNNode) : py.res (list Marker) :=
  match nodes with
  | [] => py.Return []
  | node :: rest =>
      match node.(latitude), node.(longitude) with
      | Some lat, Some lon =>
          let '(color, icon) := marker_style node.(risk_level) in
          match validate_location lat lon with
          | py.Raise e => py.Raise e
          | py.Return location =>
              match world_map_markers rest with
              | py.Raise e => py.Raise e
              | py.Return markers =>
                  py.Return
                    (mkMarker location color icon
                       (node.(ip) ++ " (" ++ str_of_opt node.(country) ++ ")")
                     :: markers)
              end
          end
      | _, _ => world_map_markers rest
      end
  end.

(** [heat_data] of [create_heatmap] (lines 146-151): a node is taken when
    [node.latitude and node.longitude] is truthy, with its score as
    weight, or 1.0 when the score is not above zero. *)
Fixpoint heat_data (nodes : list VPNNode) : list (float * float * float) :=
  match nodes with
  | [] => []
  | node :: rest =>
      match node.(latitude), node.(longitude) with
      | Some lat, Some lon =>
          if py.truthy_float lat && py.truthy_float lon then
            let weight :=
              if py.float_gt node.(risk_score) 0 then node.(risk_score)
              else 1.0%float in
            (lat, lon, weight) :: heat_data rest
          else heat_data rest
      | _, _ => heat_data rest
      end
  end.

(** The points of the layer [HeatMap(heat_data, ...)] (lines 153-167):
    the location of each point is validated in turn. *)
Fixpoint heat_layer (data : list (float * float * float))
    : py.res (list (float * float * float)) :=
  match data with
  | [] => py.Return []
  | (lat, lon, weight) :: rest =>
      match validate_location lat lon with
      | py.Raise e => py.Raise e
      | py.Return (lat, lon) =>
          match heat_layer rest with
          | py.Raise e => py.Raise e
          | py.Return points => py.Return ((lat, lon, weight) :: points)
          end
      end
  end.

(** The points [create_heatmap] puts on its map: no layer is made for an
    empty [heat_data]. *)
Definition create_heatmap (nodes : list VPNNode)
    : py.res (list (float * float * float)) :=
  heat_layer (heat_data nodes).

End visualizations.

(* ================================================================= *)
(** ** src/app.py *)

(** The part of Python's [re] the application uses. *)
Module re.

(** A pattern: a class of characters ([\d], [\.]), a sequence, a bounded
    repetition [p{lo,lo+extra}] and the anchor [$].  (The anchor [^] at
    the head of a pattern given to [re.match] always holds and is left
    out.) *)
Inductive pattern : Type :=
  | Class (accepts : ascii -> bool)
  | Seq (p q : pattern)
  | Repeat (p : pattern) (lo extra : nat)
  | Dollar.

(** Between zero and [extra] rounds of [step], the longest first. *)
Fixpoint upto (step : string -> list string) (extra : nat) (s : string)
    : list string :=
  match extra with
  | O => [s]
  | S extra' => ((step s ≫= upto step extra') ++ [s])%list
  end.

(** [lo] rounds of [step], then [k]. *)
Fixpoint exactly (step : string -> list string) (lo : nat)
    (k : string -> list string) (s : string) : list string :=
  match lo with
  | O => k s
  | S lo' => step s ≫= exactly step lo' k
  end.

(** The texts left after [p] has matched at the head of [s], one for
    each way of matching, in the order the backtracking matcher tries
    them.  [$] holds at the end of the text and before a newline that
    ends it. *)
Fixpoint leftovers (p : pattern) (s : string) : list string :=
  match p with
  | Class accepts =>
      match s with
      | String c r => if accepts c then [r] else []
      | EmptyString => []
      end
  | Seq p q => leftovers p s ≫= leftovers q
  | Repeat p lo extra => exactly (leftovers p) lo (upto (leftovers p) extra) s
  | Dollar =>
      if String.eqb s "" || String.eqb s (String (ascii_of_nat 10) "")
      then [s] else []
  end.

(** [re.match(p, s)] as a truth value: a match object or [None]. *)
Definition match_ (p : pattern) (s : string) : bool :=
  match leftovers p s with [] => false | _ :: _ => true end.

End re.

Module app.

(** [\d{1,3}], on ASCII text. *)
Definition octet_pattern : re.pattern := re.Repeat (re.Class utils.is_digit) 1 2.

(** [ip_pattern = r'^(\d{1,3}\.){3}\d{1,3}$']. *)
Definition ip_pattern : re.pattern :=
  re.Seq (re.Repeat (re.Seq octet_pattern (re.Class (Ascii.eqb "."))) 3 0)
         (re.Seq octet_pattern re.Dollar).

(** The loop over [parts]: the first part above 255 ends it with
    [False]; [int(part)] may raise. *)
Fixpoint octets_in_range (parts : list string) : py.res bool :=
  match parts with
  | [] => py.Return true
  | part :: rest =>
      match py.int_of_str part with
      | None => py.Raise (py.ValueError "invalid literal for int() with base 10")
      | Some n => if 255 <? n then py.Return false else octets_in_range rest
      end
  end.

(** [validate_ip] of [app.py], the check of the IP Lookup page. *)
Definition validate_ip (ip : string) : py.res bool :=
  if negb (re.match_ ip_pattern ip) then py.Return false
  else octets_in_range (py.split "." ip).

End app.

(* ================================================================= *)
(** * The vocabulary of the statements

    Definitions the theorems are stated with: views of the code above that
    its proofs go through, and the concrete inputs of the examples. *)

(** ** Risk scoring and statistics *)

Module risk_spec.
Import risk_engine.

(** Which branch of the port rule a node takes. *)
Inductive port_kind : Type := PortQuiet | PortHigh (p : Z) | PortMedium (p : Z).

(** The rules of [assess_node] that fire on a node. *)
Record firing : Type := mkFiring {
  f_port : port_kind;
  f_isp : bool;
  f_asn : bool;
  f_vpn : bool;
  f_meta : bool
}.

Definition firing_of (self : RiskEngine) (node : VPNNode) : firing :=
  {| f_port :=
       match node.(port) with
       | Some p =>
           if py.truthy_int p then
             if bool_decide (p ∈ self.(high_risk_ports)) then PortHigh p
             else if bool_decide (p ∈ self.(medium_risk_ports)) then PortMedium p
             else PortQuiet
           else PortQuiet
       | None => PortQuiet
       end;
     f_isp := match node.(isp) with
              | Some s => py.truthy_str s && any_keyword_in self (py.lower s)
              | None => false
              end;
     f_asn := match node.(asn) with
              | Some s => py.truthy_str s && any_keyword_in self (py.lower s)
              | None => false
              end;
     f_vpn := match node.(isp) with
              | Some s => py.truthy_str s && py.contains "vpn" (py.lower s)
              | None => false
              end;
     f_meta := 2 <=? missing_fields node |}.

(** The accumulator the fired rules build, in the order of the code. *)
Definition run (f : firing) : acc :=
  let a : acc := (0.0%float, []) in
  let a := match f.(f_port) with
           | PortHigh p => fire 3.0 ("High-risk port (" ++ py.str_of_int p ++ ")") a
           | PortMedium p => fire 1.5 ("Medium-risk port (" ++ py.str_of_int p ++ ")") a
           | PortQuiet => a
           end in
  let a := if f.(f_isp) then fire 2.0 "Datacenter/hosting provider" a else a in
  let a := if f.(f_asn) then fire 1.5 "Datacenter ASN pattern" a else a in
  let a := if f.(f_vpn) then fire 1.0 "Known VPN provider" a else a in
  if f.(f_meta) then fire 0.5 "Insufficient metadata" a else a.

(** The score a firing pattern yields does not depend on the port number. *)
Definition forget_port (f : firing) : firing :=
  mkFiring (match f.(f_port) with
            | PortHigh _ => PortHigh 0 | PortMedium _ => PortMedium 0
            | PortQuiet => PortQuiet end)
           f.(f_isp) f.(f_asn) f.(f_vpn) f.(f_meta).

(** The engine [RiskEngine(get_default_config()['risk_engine'])]. *)
Definition default_engine : RiskEngine := init utils.default_risk_config.

(** The node of the worked example: [VPNNode(ip, port=22, isp=...)]. *)
Definition example_node (ip0 : string) : VPNNode :=
  mkVPNNode ip0 (Some 22) None None None None (Some "Acme Hosting Cloud")
            None None None None 0%float UNKNOWN [].

(** How many nodes of a collection carry a given level. *)
Definition count_level (l : RiskLevel) (nodes : list VPNNode) : Z :=
  Z.of_nat (length (filter (fun n => n.(risk_level) = l) nodes)).

(** The running float sum of the loop, from [s]. *)
Definition sum_scores (s : float) (nodes : list VPNNode) : float :=
  fold_left (fun s n => PrimFloat.add s n.(risk_score)) nodes s.

(** The dict [get_statistics] builds for a non-empty collection. *)
Definition stats_of (nodes : list VPNNode) : gmap string stat :=
  let total := Z.of_nat (length nodes) in
  let share l :=
    SFloat (py.round (PrimFloat.mul (py.float_of_ratio (count_level l nodes) total)
                                    (py.float_of_int 100)) 1) in
  <["total" := SInt total]> (<["high_risk" := SInt (count_level HIGH nodes)]>
  (<["medium_risk" := SInt (count_level MEDIUM nodes)]>
  (<["low_risk" := SInt (count_level LOW nodes)]>
  (<["unknown" := SInt (count_level UNKNOWN nodes)]>
  (<["average_score" :=
      SFloat (py.round (PrimFloat.div (sum_scores 0 nodes) (py.float_of_int total)) 2)]>
  (<["high_risk_pct" := share HIGH]> (<["medium_risk_pct" := share MEDIUM]>
  (<["low_risk_pct" := share LOW]> (<["unknown_pct" := share UNKNOWN]> ∅))))))))).

(** The dict of the empty collection. *)
Definition empty_stats : gmap string stat :=
  <["total" := SInt 0]> (<["high_risk" := SInt 0]>
  (<["medium_risk" := SInt 0]> (<["low_risk" := SInt 0]>
  (<["unknown" := SInt 0]> (<["average_score" := SFloat 0.0]> ∅))))).

(** A node that carries every signal: a high-risk port, a datacenter
    keyword in the ISP and in the ASN, and "vpn" in the ISP. *)
Definition loud_node : VPNNode :=
  mkVPNNode "203.0.113.7" (Some 22) (Some "US") None None
            (Some "AS1 Cloud Net") (Some "Fast VPN Hosting")
            None None None None 0%float UNKNOWN [].

(** The configuration [{}], as [app.py] hands it to [RiskEngine] when the
    application configuration has no ['risk_engine'] section. *)
Definition empty_config : Config := mkConfig None None None None.

End risk_spec.

(** ** Enrichment *)

Module geo_spec.
Import risk_engine geo_analyzer.

(** A network on which every lookup fails. *)
Definition net_down : Network := fun _ _ => None.

(** A network whose lookups all answer with the same record. *)
Definition net_const (d : IpData) : Network := fun _ _ => Some d.

(** A fresh analyzer without an IPInfo token. *)
Definition fresh_analyzer : GeoAnalyzer := mkGeoAnalyzer "" 0 [].

(** [enrich_node] with the network switched off. *)
Definition enrich_offline (node : VPNNode) : VPNNode :=
  if has_all_fields node then node else _apply_fallback_data node.

(** A node whose three geo fields are all populated, two of them with 0.0. *)
Definition null_island : VPNNode :=
  mkVPNNode "8.8.8.8" None (Some "US") None None None None None None
            (Some 0.0%float) (Some 0.0%float) 0%float UNKNOWN [].

(** The same fields at an IPv6 address. *)
Definition v6_null_island : VPNNode :=
  mkVPNNode "2001:db8::1" None (Some "US") None None None None None None
            (Some 0.0%float) (Some 0.0%float) 0%float UNKNOWN [].

(** A fully located node. *)
Definition located : VPNNode :=
  mkVPNNode "8.8.8.8" None (Some "US") None None None None None None
            (Some 37.4%float) (Some (-122.1)%float) 0%float UNKNOWN [].

(** A node that lacks a country: its country is the empty string. *)
Definition blank_country : VPNNode :=
  mkVPNNode "8.8.8.8" None (Some "") None None None None None None
            (Some 37.4%float) (Some (-122.1)%float) 0%float UNKNOWN [].

(** A provider answer naming Germany. *)
Definition answer_de : IpData :=
  mkIpData (Some "DE") None (Some "Berlin") (Some 52.52%float) (Some 13.4%float)
           None (Some "Example ISP").

(** Three bare nodes from the last address bucket. *)
Definition far_nodes : list VPNNode :=
  [VPNNode_new "200.0.0.1"; VPNNode_new "200.0.0.2"; VPNNode_new "200.0.0.3"].

(** A network on which every lookup is answered, with a latitude other
    than zero. *)
Definition always_located (net : Network) : Prop :=
  forall trace r, exists d,
    net trace r = Some d /\ py.truthy_opt py.truthy_float d.(d_latitude) = true.

(** The fields enrichment has no business with. *)
Definition same_identity (n n' : VPNNode) : Prop :=
  n'.(ip) = n.(ip) /\ n'.(port) = n.(port)
  /\ n'.(first_seen) = n.(first_seen) /\ n'.(last_seen) = n.(last_seen)
  /\ n'.(risk_score) = n.(risk_score) /\ n'.(risk_level) = n.(risk_level)
  /\ n'.(risk_factors) = n.(risk_factors).

(** The two steps of the [try] block of [_apply_fallback_data], once
    [int(...)] has returned [first_octet]: the country guess (lines
    196-204) and the coordinates (lines 207-210). *)
Definition guess_missing_country (first_octet : Z) (node : VPNNode) : VPNNode :=
  if negb (py.truthy_opt py.truthy_str node.(country))
  then set_country (Some (guess_country first_octet)) node
  else node.

Definition place_on_map (node : VPNNode) : VPNNode :=
  if negb (py.truthy_opt py.truthy_float node.(latitude))
     || negb (py.truthy_opt py.truthy_float node.(longitude))
  then
    let coords := _get_country_coordinates node.(country) in
    set_longitude (Some (snd coords)) (set_latitude (Some (fst coords)) node)
  else node.

End geo_spec.

(** ** Tables *)

Module table_spec.
Import py data_processor.

(** Every column has one cell per row. *)
Definition rectangular (df : DataFrame) : Prop :=
  Forall (fun c => size c.2 = length df.(index)) df.(columns).

(** The valid cells of an ['ip'] column of objects are left as they are by
    the whitespace strip. *)
Definition ip_cells_stable (df : DataFrame) : Prop :=
  forall cells, ("ip", ObjectCol cells) ∈ df.(columns) ->
    Forall (fun o => utils.validate_ip o = true -> strip_cell o = o) cells.

(** The canonical spelling of a label. *)
Definition canon (name : string) : string :=
  default name (geo_analyzer.assoc name column_mapping).

(** A cell [Series.str.strip] does not change. *)
Definition cell_fixed (o : obj) : bool :=
  match o with
  | OStr s => String.eqb (strip s) s
  | ONone => true
  | OFloat x => PrimFloat.is_nan x
  | _ => false
  end.

(** What [str_strip] returns when the accessor accepts the column. *)
Definition strip_result (cells : list obj) : values :=
  if existsb is_str cells || forallb isna cells
  then ObjectCol (map strip_cell cells)
  else NumCol (map (fun _ => NFloat PrimFloat.nan) cells).

(** A text that is empty or starts with a visible character. *)
Definition left_clean (s : string) : bool :=
  match s with EmptyString => true | String c _ => negb (is_space c) end.

(** What the cleaner guarantees of a column, by its label and dtype. *)
Definition col_fixed (c : string * values) : Prop :=
  canon c.1 = c.1
  /\ (c.1 = "port" -> exists ints, c.2 = NumCol (map zero_to_nan ints))
  /\ (c.1 = "latitude" \/ c.1 = "longitude" -> is_object c.2 = false)
  /\ (forall cells, c.2 = ObjectCol cells ->
        Forall (fun o => cell_fixed o = true) cells)
  /\ (c.1 = "ip" ->
        Forall (fun o => utils.validate_ip o = true) (as_objects c.2)
        /\ Forall (fun b => b = true)
                  (first_mask [] (map dup_key (as_objects c.2)))).

Record cleaned (df : DataFrame) : Prop := mkCleaned {
  cleaned_labels : NoDup (labels df);
  cleaned_rect : rectangular df;
  cleaned_rows : df.(index) <> [];
  cleaned_ip : has_column "ip" df = true;
  cleaned_cols : Forall col_fixed df.(columns)
}.

(** The whitespace step on one column. *)
Definition stripv (v : values) : values :=
  match v with ObjectCol cells => strip_result cells | _ => v end.

Definition stripcol (c : string * values) : string * values := (c.1, stripv c.2).

Section with_parser.
Variable parse_number : string -> option num.

(** The port step on one column. *)
Definition port_result (v : values) : values :=
  match port_clean parse_number v with Return v' => v' | Raise _ => v end.

Definition portf (c : string * values) : string * values :=
  if decide (c.1 = "port") then (c.1, port_result c.2) else c.

(** A coordinate step on one column. *)
Definition coordf (col : string) (c : string * values) : string * values :=
  if decide (c.1 = col) then (c.1, of_numeric (to_numeric parse_number c.2)) else c.

End with_parser.

(** The steps after the duplicate drop: renaming, port, coordinates,
    whitespace. *)
Definition finish_table (parse_number : string -> option num)
    (df : DataFrame) : res DataFrame :=
  let df := fold_left rename_known column_mapping df in
  df ← (if has_column "port" df then
          v ← series "port" (TypeError "arg must be a list, tuple, 1-d array, or Series") df;
          v' ← port_clean parse_number v;
          mret (assign "port" v' df)
        else mret df);
  df ← foldM (coordinate_clean parse_number) df ["latitude"; "longitude"];
  foldM strip_column df (string_columns df).

(** What the steps after the duplicate drop do to one column. *)
Definition finish (parse_number : string -> option num)
    (c : string * values) : string * values :=
  stripcol (coordf parse_number "longitude"
             (coordf parse_number "latitude"
               (portf parse_number (canon c.1, c.2)))).

(** A raw table whose ['ip'] column holds a text and an int. *)
Definition mixed_ips : DataFrame :=
  mkDataFrame [0; 1] [("ip", ObjectCol [OStr "1.2.3.4"; OInt 5])].

(** A reading of text for the worked examples: a string of decimal digits
    is the integer it spells, any other text is not a number.  (pandas
    reads more spellings; the examples use none of them.) *)
Definition digits_only (s : string) : option num :=
  if truthy_str s && utils.forallb_str utils.is_digit s
  then Some (NInt (utils.number_in_base 10 0 s))
  else None.

(** A raw table: an invalid address, a repeated address, an alternate
    spelling, text to strip and ports of several kinds. *)
Definition raw_sample : DataFrame :=
  mkDataFrame [0; 1; 2; 3]
    [ ("ip", ObjectCol [OStr "1.2.3.4"; OStr "bad"; OStr "1.2.3.4"; OStr "::1"]);
      ("Country", ObjectCol [OStr " US "; OStr "x"; OStr "DE"; ONone]);
      ("port", ObjectCol [OStr "22"; OInt 1; OFloat 0.0; OFloat 80.7]);
      ("Latitude", NumCol [NInt 1; NInt 2; NInt 3; NFloat 4.5]) ].

(** What cleaning makes of it. *)
Definition cleaned_sample : DataFrame :=
  mkDataFrame [0; 3]
    [ ("ip", ObjectCol [OStr "1.2.3.4"; OStr "::1"]);
      ("country", ObjectCol [OStr "US"; ONone]);
      ("port", NumCol [NInt 22; NInt 80]);
      ("latitude", NumCol [NInt 1; NFloat 4.5]) ].

(** A table whose address column is spelled ["IP"]. *)
Definition upper_ip_table : DataFrame :=
  mkDataFrame [0] [("IP", ObjectCol [OStr "1.2.3.4"])].

(** The same table under the canonical spelling. *)
Definition lower_ip_table : DataFrame :=
  mkDataFrame [0] [("ip", ObjectCol [OStr "1.2.3.4"])].

End table_spec.


(** ** Text *)

Module text_spec.

(** [s.replace(',', '')]. *)
Fixpoint without_commas (s : string) : string :=
  match s with
  | EmptyString => EmptyString
  | String c r =>
      if Ascii.eqb c "," then without_commas r else String c (without_commas r)
  end.

(** The sign [format_number] writes. *)
Definition sign_of (num : Z) : string := if num <? 0 then "-" else "".

(** The colour key and the built-in colour [get_risk_color] has for each
    level. *)
Definition color_key (l : risk_engine.RiskLevel) : string :=
  match l with
  | risk_engine.HIGH => "high_risk"
  | risk_engine.MEDIUM => "medium_risk"
  | risk_engine.LOW => "low_risk"
  | risk_engine.UNKNOWN => "unknown"
  end.

Definition builtin_color (l : risk_engine.RiskLevel) : string :=
  match l with
  | risk_engine.HIGH => "#FF4444"
  | risk_engine.MEDIUM => "#FFA500"
  | risk_engine.LOW => "#44FF44"
  | risk_engine.UNKNOWN => "#CCCCCC"
  end.

(** [config.get('visualization', {}).get('colors', {})]. *)
Definition colors_of (config : utils.AppConfig) : gmap string string :=
  match config.(utils.cfg_visualization) with
  | Some visualization => default ∅ visualization.(utils.viz_colors)
  | None => ∅
  end.

(** The dotted quad [a.b.c.d], each number written by [str]. *)
Definition dotted_quad (a b c d : Z) : string :=
  py.str_of_int a ++ "." ++ py.str_of_int b ++ "."
  ++ py.str_of_int c ++ "." ++ py.str_of_int d.

(** One to three decimal digits. *)
Definition octet_text (w : string) : Prop :=
  utils.forallb_str utils.is_digit w = true
  /\ (1 <= String.length w <= 3)%nat.

(** The newline character as a text. *)
Definition newline : string := String (ascii_of_nat 10) "".

(** A configuration without any key. *)
Definition no_config : utils.AppConfig := utils.mkAppConfig None None None None.

(** A node with both coordinates set, one of them NaN. *)
Definition nan_located (node : risk_engine.VPNNode) : bool :=
  match node.(risk_engine.latitude), node.(risk_engine.longitude) with
  | Some lat, Some lon => PrimFloat.is_nan lat || PrimFloat.is_nan lon
  | _, _ => false
  end.

(** The error [folium] raises on a location with a NaN. *)
Definition nan_location_error : py.exn :=
  py.ValueError "Location values cannot contain NaNs.".

End text_spec.

(* ================================================================= *)
(** * The built-ins at work *)

(** [round] follows the binary value, not the decimal spelling: 2.675 is
    stored just below the tie and 0.125 sits on it. *)
Example round_below_tie : py.round 2.675 2 = 2.67%float.
Proof. vm_compute. reflexivity. Qed.

Example round_half_even_tie : py.round 0.125 2 = 0.12%float.
Proof. vm_compute. reflexivity. Qed.

Example round_one_decimal : py.round 66.66666666666667 1 = 66.7%float.
Proof. vm_compute. reflexivity. Qed.

Example true_division : py.int_truediv 1 3 = py.Return 0.3333333333333333%float.
Proof. vm_compute. reflexivity. Qed.

Example division_by_zero : py.int_truediv 1 0 = py.Raise py.ZeroDivisionError.
Proof. reflexivity. Qed.

Example int_of_first_octet :
  py.int_of_str (hd "" (py.split "." "203.0.113.7")) = Some 203
  /\ py.int_of_str (hd "" (py.split "." "2001:db8::1")) = None
  /\ py.int_of_str " 1_0 " = Some 10.
Proof. repeat split; reflexivity. Qed.

Example keyword_match :
  py.contains "hosting" (py.lower "Acme Hosting Cloud") = true
  /\ py.contains "vpn" (py.lower "Acme Hosting Cloud") = false
  /\ py.contains "" "" = true.
Proof. repeat split; reflexivity. Qed.

Example strip_whitespace : py.strip "  US " = "US".
Proof. reflexivity. Qed.

Example valid_addresses :
  map utils.validate_ip
      [py.OStr "1.2.3.4"; py.OStr "::ffff:1.2.3.4"; py.OStr "fe80::1%eth0";
       py.OInt 5; py.OBool true]
  = [true; true; true; true; true].
Proof. vm_compute. reflexivity. Qed.

Example invalid_addresses :
  map utils.validate_ip
      [py.OStr "256.1.1.1"; py.OStr "01.2.3.4"; py.OStr " 1.2.3.4"; py.OStr "1::2::3";
       py.OStr "1.2.3.4/32"; py.OInt (-1); py.OFloat 5.0; py.ONone]
  = [false; false; false; false; false; false; false; false].
Proof. vm_compute. reflexivity. Qed.

(* ================================================================= *)
(** * Risk scoring: C2, C4, C6, C7 *)

Import risk_engine risk_spec.

Lemma rules_run (self : RiskEngine) (node : VPNNode) :
  metadata_rule node (vpn_rule node (asn_rule self node
    (isp_rule self node (port_rule self node (0.0%float, [])))))
  = run (firing_of self node).
Proof.
  unfold run, firing_of, metadata_rule, vpn_rule, asn_rule, isp_rule, port_rule; simpl.
  destruct (port node) as [p|]; [destruct (py.truthy_int p);
    [destruct (bool_decide (p ∈ high_risk_ports self));
      [|destruct (bool_decide (p ∈ medium_risk_ports self))]|]|];
  (destruct (isp node) as [s|]; [destruct (py.truthy_str s); simpl;
     [destruct (any_keyword_in self (py.lower s)); destruct (py.contains "vpn" (py.lower s))|]|]);
  (destruct (asn node) as [s'|]; [destruct (py.truthy_str s'); simpl;
     [destruct (any_keyword_in self (py.lower s'))|]|]);
  destruct (2 <=? missing_fields node); reflexivity.
Qed.

Lemma assess_node_run (self : RiskEngine) (node : VPNNode) :
  assess_node self node =
    (risk_level ← level_of self.(thresholds) (fst (run (firing_of self node)));
     mret (set_risk (py.round (fst (run (firing_of self node))) 2) risk_level
                    (snd (run (firing_of self node))) node)).
Proof.
  unfold assess_node. rewrite rules_run.
  destruct (run (firing_of self node)); reflexivity.
Qed.

Lemma run_score_forget (f : firing) : fst (run f) = fst (run (forget_port f)).
Proof. destruct f as [[|p|p] [] [] [] []]; reflexivity. Qed.

Lemma run_factors_nil (f : firing) :
  snd (run f) = [] <-> PrimFloat.ltb 0 (py.round (fst (run f)) 2) = false.
Proof.
  rewrite run_score_forget.
  destruct f as [[|p|p] [] [] [] []]; vm_compute; split; intros H; try reflexivity; discriminate H.
Qed.

(** C2 (as stated) fails: the node with only [port=22] and
    [isp="Acme Hosting Cloud"] lacks both country and ASN, so the
    sparse-metadata rule fires too; the score is not 5.00 and the factor
    list is not the two-element one. *)
Lemma C2_counterexample :
  exists n',
    assess_node default_engine (example_node "203.0.113.7") = py.Return n'
    /\ PrimFloat.eqb n'.(risk_score) 5.0 = false
    /\ n'.(risk_factors) <> ["High-risk port (22)"; "Datacenter/hosting provider"].
Proof.
  eexists. split; [vm_compute; reflexivity|]. split; [reflexivity|].
  simpl. discriminate.
Qed.

(** C2 (amended): under the default configuration, scoring a node whose
    populated optional fields are exactly [port=22] and
    [isp="Acme Hosting Cloud"] yields risk_score 5.50, risk_level Medium
    and the three factors "High-risk port (22)",
    "Datacenter/hosting provider", "Insufficient metadata". *)
Theorem C2_default_example (ip0 : string) :
  assess_node default_engine (example_node ip0)
  = py.Return (set_risk 5.5 MEDIUM
      ["High-risk port (22)"; "Datacenter/hosting provider"; "Insufficient metadata"]
      (example_node ip0)).
Proof. vm_compute. reflexivity. Qed.

(** C4: the default configuration carries the thresholds high 7.0 and
    medium 4.0; with them the level [assess_node] stores is the threshold
    function [level_of] applied to the rounded score it stores, whatever
    the ports and keywords are; and that function sends 7.0 to High, 6.99
    to Medium, 4.0 to Medium, 3.99 to Low and 0 to Unknown. *)
Theorem C4_level_is_threshold_function :
  default_engine.(thresholds) = builtin_thresholds
  /\ (forall (hp mp : gset Z) (kw : list string) (node : VPNNode),
     exists n',
       assess_node (mkRiskEngine hp mp kw builtin_thresholds) node = py.Return n'
       /\ level_of builtin_thresholds n'.(risk_score) = py.Return n'.(risk_level))
  /\ level_of builtin_thresholds 7.0 = py.Return HIGH
  /\ level_of builtin_thresholds 6.99 = py.Return MEDIUM
  /\ level_of builtin_thresholds 4.0 = py.Return MEDIUM
  /\ level_of builtin_thresholds 3.99 = py.Return LOW
  /\ level_of builtin_thresholds 0 = py.Return UNKNOWN.
Proof.
  split; [reflexivity|].
  split; [|repeat split; vm_compute; reflexivity].
  intros hp mp kw node. rewrite assess_node_run. simpl thresholds.
  rewrite run_score_forget.
  set (f := firing_of _ node).
  assert (H : exists l, level_of builtin_thresholds (fst (run (forget_port f))) = py.Return l
            /\ level_of builtin_thresholds (py.round (fst (run (forget_port f))) 2) = py.Return l).
  { destruct f as [[|p|p] [] [] [] []]; eexists; split; vm_compute; reflexivity. }
  destruct H as (l & H1 & H2). rewrite H1. eexists. split; [reflexivity|].
  simpl. exact H2.
Qed.

(** C6: whenever [assess_node] returns, under any engine, the stored
    risk_factors list is non-empty exactly when the stored risk_score is
    greater than 0, and a stored score of 0 comes with an empty list; it
    returns whenever the thresholds dict has the keys it reads. *)
Theorem C6_factors_iff_positive_score (self : RiskEngine) (node : VPNNode) :
  (forall n', assess_node self node = py.Return n' ->
     (n'.(risk_factors) <> [] <-> py.float_gt n'.(risk_score) 0 = true)
     /\ (PrimFloat.eqb n'.(risk_score) 0 = true -> n'.(risk_factors) = []))
  /\ (is_Some (self.(thresholds) !! "high") ->
      is_Some (self.(thresholds) !! "medium") ->
      exists n', assess_node self node = py.Return n').
Proof.
  rewrite assess_node_run. set (f := firing_of self node). split.
  - intros n' H.
    destruct (level_of (thresholds self) (fst (run f))) as [l|e]; [|discriminate H].
    injection H as <-. simpl. unfold py.float_gt. split.
    + rewrite (run_factors_nil f).
      destruct (PrimFloat.ltb 0 (py.round (fst (run f)) 2)); split; congruence.
    + intros Hz. apply run_factors_nil.
      revert Hz. rewrite run_score_forget.
      destruct f as [[|p|p] [] [] [] []]; vm_compute; congruence.
  - intros [h Hh] [m Hm]. unfold level_of, py.getitem. rewrite Hh, Hm. simpl.
    destruct (py.float_ge _ h); [eexists; reflexivity|].
    destruct (py.float_ge _ m); [eexists; reflexivity|].
    destruct (py.float_gt _ 0); eexists; reflexivity.
Qed.

(** C6 on the worked example node under the default engine. *)
Lemma C6_witness :
  exists n', assess_node default_engine (example_node "203.0.113.7") = py.Return n'
    /\ (n'.(risk_factors) <> [] <-> py.float_gt n'.(risk_score) 0 = true).
Proof.
  eexists. split; [vm_compute; reflexivity|].
  apply (proj1 (C6_factors_iff_positive_score default_engine (example_node "203.0.113.7"))).
  vm_compute. reflexivity.
Defined.

Lemma count_level_cons (l : RiskLevel) (n : VPNNode) (nodes : list VPNNode) :
  count_level l (n :: nodes)
  = (if decide (n.(risk_level) = l) then 1 else 0) + count_level l nodes.
Proof.
  unfold count_level. rewrite filter_cons.
  destruct (decide (risk_level n = l)); simpl length; lia.
Qed.

(** The loop never meets a missing key, and adds to each counter the number
    of nodes of its level. *)
Lemma tally_all_counts (nodes : list VPNNode) :
  forall (rc : gmap RiskLevel Z) (s : float) (c : RiskLevel -> Z),
    (forall l, rc !! l = Some (c l)) ->
    exists rc',
      tally_all (rc, s) nodes = py.Return (rc', sum_scores s nodes)
      /\ forall l, rc' !! l = Some (c l + count_level l nodes).
Proof.
  induction nodes as [|n nodes IH]; intros rc s c Hrc.
  - exists rc. split; [reflexivity|]. intros l. rewrite Hrc. f_equal.
    unfold count_level. simpl. lia.
  - simpl. unfold getcount. rewrite (Hrc (risk_level n)). simpl.
    destruct (IH (<[risk_level n := c (risk_level n) + 1]> rc)
                 (PrimFloat.add s (risk_score n))
                 (fun l => c l + (if decide (risk_level n = l) then 1 else 0)))
      as (rc' & Hrun & Hrc').
    + intros l. destruct (decide (risk_level n = l)) as [->|Hne].
      * rewrite lookup_insert_eq. reflexivity.
      * rewrite lookup_insert_ne by exact Hne. rewrite Hrc. f_equal. lia.
    + exists rc'. split; [exact Hrun|].
      intros l. rewrite Hrc', count_level_cons. f_equal. lia.
Qed.

Lemma risk_counts0_lookup (l : RiskLevel) : risk_counts0 !! l = Some 0.
Proof. destruct l; reflexivity. Qed.

(** C7 (as stated) fails on the empty collection: the mapping returned for
    it holds no percentage at all. *)
Lemma C7_counterexample :
  exists m, get_statistics [] = py.Return m
    /\ m !! "high_risk_pct" = None /\ m !! "medium_risk_pct" = None
    /\ m !! "low_risk_pct" = None /\ m !! "unknown_pct" = None.
Proof. eexists. split; [reflexivity|]. repeat split; reflexivity. Qed.

(** C7 (amended): for every non-empty collection [get_statistics] returns
    the mapping with the total, the count per level, the average score
    (float sum of the scores divided by the total, rounded to 2 decimals)
    and the percentage per level (count / total * 100 rounded to 1
    decimal); for the empty collection it returns, without raising, the
    mapping with total 0, the four counts 0 and average_score 0.0, and no
    percentage key. *)
Theorem C7_statistics :
  get_statistics [] = py.Return empty_stats
  /\ forall (node : VPNNode) (rest : list VPNNode),
       get_statistics (node :: rest) = py.Return (stats_of (node :: rest)).
Proof.
  split; [reflexivity|]. intros node rest.
  set (nodes := node :: rest).
  assert (Hpos : 0 < Z.of_nat (length nodes)) by (unfold nodes; simpl length; lia).
  unfold get_statistics.
  destruct (Z.eqb_spec (Z.of_nat (length nodes)) 0) as [H0|_]; [lia|].
  destruct (tally_all_counts nodes risk_counts0 0%float (fun _ => 0) risk_counts0_lookup)
    as (rc' & Hrun & Hrc').
  rewrite Hrun. simpl.
  unfold pct, getcount. rewrite !Hrc'. simpl.
  destruct (Z.ltb_spec 0 (Z.of_nat (length nodes))) as [_|Hle]; [|lia].
  unfold py.float_div_int, py.int_truediv.
  destruct (Z.eqb_spec (Z.of_nat (length nodes)) 0) as [H0|_]; [lia|].
  simpl. reflexivity.
Qed.

(* ================================================================= *)
(** * Enrichment: C1, C10, C9, C3 *)

Import geo_analyzer geo_spec.

(** *** The fields the fallback leaves alone *)






(** [enrich_node] takes one of three roads. *)
Lemma enrich_node_cases (net : Network) (self : GeoAnalyzer) (node : VPNNode)
    (use_api : bool) :
  (has_all_fields node = true /\ enrich_node net self node use_api = (node, self))
  \/ (has_all_fields node = false /\
      fst (enrich_node net self node use_api) = _apply_fallback_data node)
  \/ (has_all_fields node = false /\ use_api = true /\
      exists d, fst (api_lookup net self node.(ip)) = Some d
        /\ fst (enrich_node net self node use_api) = merge_ip_data node d).
Proof.
  unfold enrich_node. destruct (has_all_fields node); [left; split; reflexivity|].
  destruct use_api; simpl; [|right; left; split; reflexivity].
  destruct (api_lookup net self (ip node)) as [[d|] self']; simpl.
  - right; right. repeat split. exists d. split; reflexivity.
  - right; left. split; reflexivity.
Qed.




(** *** C10 *)

(** Every entry of the table of coordinates has a code that is not empty
    and two coordinates other than zero. *)
Lemma coordinates_truthy (c : string) (p : float * float) :
  assoc c coordinates = Some p ->
  py.truthy_str c = true
  /\ py.truthy_float (fst p) = true /\ py.truthy_float (snd p) = true.
Proof.
  unfold coordinates. cbn [assoc].
  repeat match goal with
         | |- context [String.eqb c ?k] =>
             destruct (String.eqb_spec c k) as [->|_];
             [intros [= <-]; repeat split; vm_compute; reflexivity|]
         end.
  discriminate.
Qed.

Lemma zero_is_falsy (x : float) :
  PrimFloat.eqb x 0 = true -> py.truthy_opt py.truthy_float (Some x) = false.
Proof. intros H. cbn. unfold py.truthy_float. rewrite H. reflexivity. Qed.

(** What the fallback does once [int()] has read the first octet. *)
Lemma fallback_read (node : VPNNode) (first_octet : Z) :
  py.int_of_str (hd "" (py.split "." node.(ip))) = Some first_octet ->
  _apply_fallback_data node = place_on_map (guess_missing_country first_octet node).
Proof. intros H. unfold _apply_fallback_data. rewrite H. reflexivity. Qed.

Lemma zero_pair_is_placed (node : VPNNode) :
  (exists x, node.(latitude) = Some x /\ PrimFloat.eqb x 0 = true)
  \/ (exists x, node.(longitude) = Some x /\ PrimFloat.eqb x 0 = true) ->
  place_on_map node
  = set_longitude (Some (snd (_get_country_coordinates node.(country))))
      (set_latitude (Some (fst (_get_country_coordinates node.(country)))) node).
Proof.
  intros H. unfold place_on_map.
  destruct H as [(x & -> & Hx) | (x & -> & Hx)]; rewrite (zero_is_falsy x Hx).
  - reflexivity.
  - rewrite orb_true_r. reflexivity.
Qed.

(** C10 (as stated) fails: the node with country "US", latitude 0.0 and
    longitude 0.0 at an IPv6 address has all three fields populated and
    fails the all-fields test, yet [enrich_node] returns it unchanged,
    without the API and with the API when the lookup fails: [int()] cannot
    read the text before the first dot of the address, and the fallback
    gives the node back as it was. *)
Lemma C10_counterexample :
  v6_null_island.(latitude) = Some 0.0%float
  /\ v6_null_island.(longitude) = Some 0.0%float
  /\ v6_null_island.(country) = Some "US"
  /\ has_all_fields v6_null_island = false
  /\ enrich_node net_down fresh_analyzer v6_null_island false
     = (v6_null_island, fresh_analyzer)
  /\ fst (enrich_node net_down fresh_analyzer v6_null_island true) = v6_null_island.
Proof. repeat split; vm_compute; reflexivity. Qed.

(** C10 (amended): [enrich_node] tests the geo fields by truthiness.  A
    node whose latitude or longitude compares equal to 0.0, or whose
    country is the empty string, fails the all-fields test and is sent
    down the enrichment road (fallback without the API, lookup then merge
    or fallback with it) even when the three fields are populated.  A
    successful lookup replaces an empty country and a zero coordinate by
    what the provider gave.  The fallback, when [int()] reads the text
    before the first dot of the ip, replaces an empty country by the
    guess from that number, which changes the node, and a coordinate pair
    with a zero by the table entry of the node's country, which for a
    country of the table makes the three fields present.  When [int()]
    does not read that text, the fallback returns the node as it was. *)
Theorem C10_presence_is_truthiness :
  (forall (net : Network) (self : GeoAnalyzer) (node : VPNNode) (use_api : bool),
     (exists x, node.(latitude) = Some x /\ PrimFloat.eqb x 0 = true)
     \/ (exists x, node.(longitude) = Some x /\ PrimFloat.eqb x 0 = true)
     \/ node.(country) = Some "" ->
     has_all_fields node = false
     /\ enrich_node net self node use_api =
        if use_api then
          match api_lookup net self node.(ip) with
          | (Some d, self') => (merge_ip_data node d, self')
          | (None, self') => (_apply_fallback_data node, self')
          end
        else (_apply_fallback_data node, self))
  /\ (forall (node : VPNNode) (d : IpData),
        (node.(country) = Some "" ->
         (merge_ip_data node d).(country) = d.(d_country))
        /\ (forall x, node.(latitude) = Some x -> PrimFloat.eqb x 0 = true ->
            (merge_ip_data node d).(latitude) = d.(d_latitude))
        /\ (forall x, node.(longitude) = Some x -> PrimFloat.eqb x 0 = true ->
            (merge_ip_data node d).(longitude) = d.(d_longitude)))
  /\ (forall (node : VPNNode) (first_octet : Z),
        py.int_of_str (hd "" (py.split "." node.(ip))) = Some first_octet ->
        (node.(country) = Some "" ->
         (_apply_fallback_data node).(country) = Some (guess_country first_octet)
         /\ _apply_fallback_data node <> node)
        /\ ((exists x, node.(latitude) = Some x /\ PrimFloat.eqb x 0 = true)
            \/ (exists x, node.(longitude) = Some x /\ PrimFloat.eqb x 0 = true) ->
            (_apply_fallback_data node).(latitude)
            = Some (fst (_get_country_coordinates
                           (_apply_fallback_data node).(country)))
            /\ (_apply_fallback_data node).(longitude)
               = Some (snd (_get_country_coordinates
                              (_apply_fallback_data node).(country)))
            /\ (forall c, node.(country) = Some c ->
                          is_Some (assoc c coordinates) ->
                has_all_fields (_apply_fallback_data node) = true
                /\ _apply_fallback_data node <> node)))
  /\ (forall node : VPNNode,
        py.int_of_str (hd "" (py.split "." node.(ip))) = None ->
        _apply_fallback_data node = node)
  /\ (fst (enrich_node net_down fresh_analyzer null_island false)).(latitude)
       = Some 37.0902%float
  /\ (fst (enrich_node net_down fresh_analyzer null_island false)).(longitude)
       = Some (-95.7129)%float
  /\ (fst (enrich_node net_down fresh_analyzer blank_country false)).(country)
       = Some "US"
  /\ (fst (enrich_node (net_const answer_de) fresh_analyzer blank_country true)).(country)
       = Some "DE".
Proof.
  assert (Hfalse : forall node : VPNNode,
             (exists x, node.(latitude) = Some x /\ PrimFloat.eqb x 0 = true)
             \/ (exists x, node.(longitude) = Some x /\ PrimFloat.eqb x 0 = true)
             \/ node.(country) = Some "" ->
             has_all_fields node = false).
  { intros node H. unfold has_all_fields.
    destruct H as [(x & -> & Hx) | [(x & -> & Hx) | -> ]].
    - rewrite (zero_is_falsy x Hx). reflexivity.
    - rewrite (zero_is_falsy x Hx), andb_false_r. reflexivity.
    - cbn. apply andb_false_r. }
  split; [|split; [|split; [|split; [|repeat split; vm_compute; reflexivity]]]].
  - intros net self node use_api H. split; [exact (Hfalse node H)|].
    unfold enrich_node. rewrite (Hfalse node H). destruct use_api; simpl; [|reflexivity].
    destruct (api_lookup net self (ip node)) as [[d|] self']; reflexivity.
  - intros node d. split; [|split].
    + intros Hc. destruct node; cbn in Hc |- *. rewrite Hc. reflexivity.
    + intros x Hlat Hx. destruct node; cbn in Hlat |- *. rewrite Hlat.
      unfold py.or_else. rewrite (zero_is_falsy x Hx). reflexivity.
    + intros x Hlon Hx. destruct node; cbn in Hlon |- *. rewrite Hlon.
      unfold py.or_else. rewrite (zero_is_falsy x Hx). reflexivity.
  - intros node first_octet Hint. rewrite (fallback_read node first_octet Hint).
    split.
    + intros Hc.
      assert (Hcountry : country (place_on_map (guess_missing_country first_octet node))
                         = Some (guess_country first_octet)).
      { unfold guess_missing_country. rewrite Hc. cbn [py.truthy_opt py.truthy_str negb].
        change (py.truthy_str "") with false. cbv iota.
        unfold place_on_map. destruct (_ || _); destruct node; reflexivity. }
      split; [exact Hcountry|]. intros E. rewrite E, Hc in Hcountry.
      injection Hcountry as Hg. unfold guess_country in Hg.
      destruct (first_octet <? 50); [discriminate Hg|].
      destruct (first_octet <? 100); [discriminate Hg|].
      destruct (first_octet <? 150); discriminate Hg.
    + intros Hzero.
      assert (Hg : (exists x, latitude (guess_missing_country first_octet node) = Some x
                              /\ PrimFloat.eqb x 0 = true)
                   \/ (exists x, longitude (guess_missing_country first_octet node) = Some x
                                 /\ PrimFloat.eqb x 0 = true)).
      { unfold guess_missing_country. destruct (negb _); [|exact Hzero].
        destruct node; exact Hzero. }
      rewrite (zero_pair_is_placed _ Hg).
      set (g := guess_missing_country first_octet node).
      assert (Hc : country (set_longitude (Some (snd (_get_country_coordinates (country g))))
                      (set_latitude (Some (fst (_get_country_coordinates (country g)))) g))
                   = country g) by (destruct g; reflexivity).
      rewrite Hc.
      split; [destruct g; reflexivity|]. split; [destruct g; reflexivity|].
      intros c Hcountry [p Hp].
      destruct (coordinates_truthy c p Hp) as (Hct & Hla & Hlo).
      assert (Hgc : country g = Some c).
      { unfold g, guess_missing_country. rewrite Hcountry. cbn [py.truthy_opt].
        rewrite Hct. exact Hcountry. }
      assert (Hall : has_all_fields
                       (set_longitude (Some (snd (_get_country_coordinates (country g))))
                          (set_latitude (Some (fst (_get_country_coordinates (country g)))) g))
                     = true).
      { rewrite Hgc. unfold _get_country_coordinates. rewrite Hp. cbn [default from_option id].
        unfold has_all_fields. destruct g; cbn in Hgc |- *. rewrite Hgc. cbn.
        rewrite Hla, Hlo, Hct. reflexivity. }
      split; [exact Hall|]. intros E. rewrite E in Hall.
      rewrite (Hfalse node) in Hall; [discriminate Hall|].
      destruct Hzero as [H|H]; [left; exact H|right; left; exact H].
  - intros node Hint. unfold _apply_fallback_data. rewrite Hint. reflexivity.
Qed.

(** C10 on the node at latitude 0.0, longitude 0.0. *)
Lemma C10_witness :
  has_all_fields null_island = false
  /\ enrich_node net_down fresh_analyzer null_island false
     = (_apply_fallback_data null_island, fresh_analyzer).
Proof.
  apply (proj1 C10_presence_is_truthiness net_down fresh_analyzer null_island false).
  left. exists 0.0%float. split; reflexivity.
Defined.

(** *** C9 and C3 *)

Lemma enrich_loop_no_api (net : Network) (nodes : list VPNNode) :
  forall (self : GeoAnalyzer) (use_api : bool) (max_api_calls made : Z),
    use_api && (made <? max_api_calls) = false ->
    enrich_loop net self nodes use_api max_api_calls made
    = (map enrich_offline nodes, made, self).
Proof.
  induction nodes as [|node rest IH]; intros self use_api cap made Hoff;
    [reflexivity|].
  simpl. rewrite Hoff. simpl.
  replace (enrich_node net self node false) with (enrich_offline node, self)
    by (unfold enrich_node, enrich_offline; destruct (has_all_fields node); reflexivity).
  rewrite (IH self use_api cap made Hoff). reflexivity.
Qed.

(** C9: with [max_api_calls = 0], whatever [use_api] is, [enrich_nodes]
    sends no request (the analyzer, with its request counter and its trace
    of requests, comes back as it was) and every node is enriched by the
    offline road alone, so the result does not depend on the network. *)
Theorem C9_zero_budget_is_offline (net : Network) (self : GeoAnalyzer)
    (nodes : list VPNNode) (use_api : bool) :
  enrich_nodes net self nodes use_api 0 = (map enrich_offline nodes, self).
Proof.
  unfold enrich_nodes. rewrite enrich_loop_no_api; [reflexivity|].
  apply andb_false_r.
Qed.

(** C3 at its failing input: the provider is down, the cap is 1, and all
    three nodes are looked up over the network; the counter of "API calls
    made" stays at 0 because it only counts nodes that end with a truthy
    latitude. *)
Theorem C3_cap_exceeded :
  enrich_loop net_down fresh_analyzer far_nodes true 1 0
  = (map _apply_fallback_data far_nodes, 0,
     mkGeoAnalyzer "" 3
       [(FreeAPI, "200.0.0.1"); (FreeAPI, "200.0.0.2"); (FreeAPI, "200.0.0.3")])
  /\ snd (enrich_nodes net_down fresh_analyzer far_nodes true 1)
     = mkGeoAnalyzer "" 3
       [(FreeAPI, "200.0.0.1"); (FreeAPI, "200.0.0.2"); (FreeAPI, "200.0.0.3")].
Proof. split; vm_compute; reflexivity. Qed.

(* ================================================================= *)
(** * Cleaning: C5, C8 *)

Import py data_processor table_spec.

(** *** Masks *)

Lemma mask_map {A B} (f : A -> B) (m : list bool) (l : list A) :
  mask m (map f l) = map f (mask m l).
Proof.
  revert l. induction m as [|b m IH]; intros [|x l]; simpl; try reflexivity.
  destruct b; simpl; rewrite IH; reflexivity.
Qed.

Lemma mask_length {A B} (m : list bool) (l1 : list A) (l2 : list B) :
  length l1 = length l2 -> length (mask m l1) = length (mask m l2).
Proof.
  revert l1 l2. induction m as [|b m IH]; intros [|x l1] [|y l2] H;
    simpl in *; try reflexivity; try discriminate.
  injection H as H. destruct b; simpl; rewrite (IH l1 l2 H); reflexivity.
Qed.

Lemma mask_all_true {A} (m : list bool) (l : list A) :
  (length l <= length m)%nat -> Forall (fun b => b = true) m -> mask m l = l.
Proof.
  revert l. induction m as [|b m IH]; intros [|x l] Hlen Hall; simpl in *;
    try reflexivity; try lia.
  inversion Hall as [|? ? Hb Hm]; subst. rewrite IH; [reflexivity|lia|assumption].
Qed.

Lemma Forall_mask {A} (P : A -> Prop) (m : list bool) (l : list A) :
  Forall P l -> Forall P (mask m l).
Proof.
  revert l. induction m as [|b m IH]; intros [|x l] H; simpl; try constructor.
  inversion H; subst. destruct b; [constructor; [assumption|]|]; apply IH; assumption.
Qed.

Lemma mask_by_test {A} (p : A -> bool) (l : list A) :
  Forall (fun x => p x = true) (mask (map p l) l).
Proof.
  induction l as [|x l IH]; simpl; [constructor|].
  destruct (p x) eqn:E; [constructor; assumption|assumption].
Qed.

Lemma all_true_map {A} (p : A -> bool) (l : list A) :
  Forall (fun x => p x = true) l -> Forall (fun b => b = true) (map p l).
Proof. induction 1; simpl; constructor; assumption. Qed.

(** Rows kept by [keep='first'] are all kept on a second run. *)
Lemma first_mask_kept (keys : list key) :
  forall seen,
    Forall (fun b => b = true) (first_mask seen (mask (first_mask seen keys) keys)).
Proof.
  induction keys as [|k keys IH]; intros seen; simpl; [constructor|].
  destruct (existsb (key_eqb k) seen) eqn:E; simpl.
  - apply IH.
  - rewrite E. constructor; [reflexivity|apply IH].
Qed.

Lemma first_mask_length (keys : list key) :
  forall seen, length (first_mask seen keys) = length keys.
Proof.
  induction keys as [|k keys IH]; intros seen; simpl; [reflexivity|].
  destruct (existsb (key_eqb k) seen); simpl; rewrite IH; reflexivity.
Qed.

(** *** Columns by label *)

Lemma series_elem (name : string) (e : exn) (df : DataFrame) (v : values) :
  series name e df = Return v ->
  (name, v) ∈ df.(columns)
  /\ forall v', (name, v') ∈ df.(columns) -> v' = v.
Proof.
  unfold series. intros H.
  destruct (filter (fun c => c.1 = name) (columns df)) as [|c [|c' r]] eqn:E;
    try discriminate H.
  injection H as <-.
  assert (Hc : c ∈ filter (fun c => c.1 = name) (columns df))
    by (rewrite E; apply list_elem_of_singleton; reflexivity).
  apply list_elem_of_filter in Hc as [Hn Hc]. split.
  - destruct c as [n v]; simpl in *; subst; assumption.
  - intros v' Hv'.
    assert (H' : (name, v') ∈ filter (fun c => c.1 = name) (columns df))
      by (apply list_elem_of_filter; split; [reflexivity|assumption]).
    rewrite E in H'. apply list_elem_of_singleton in H'. subst c. reflexivity.
Qed.

Lemma filter_none {A} (P : A -> Prop) `{forall x, Decision (P x)} (l : list A) :
  (forall x, x ∈ l -> ~ P x) -> filter P l = [].
Proof.
  induction l as [|x l IH]; intros H'; [reflexivity|].
  rewrite filter_cons_False by (apply H'; left).
  apply IH. intros y Hy. apply H'. right. exact Hy.
Qed.

Lemma filter_label_NoDup (name : string) (cols : list (string * values)) :
  NoDup (map fst cols) ->
  forall v, (name, v) ∈ cols -> filter (fun c => c.1 = name) cols = [(name, v)].
Proof.
  induction cols as [|[n w] cols IH]; intros Hnd v Hin.
  - inversion Hin.
  - simpl in Hnd. apply NoDup_cons in Hnd as [Hn Hnd].
    destruct (decide (n = name)) as [->|Hne].
    + rewrite filter_cons_True by reflexivity.
      assert (Hno : forall x, x ∈ cols -> ~ x.1 = name).
      { intros [n' w'] Hx Heq. simpl in Heq. subst n'. apply Hn.
        apply (list_elem_of_fmap_2 fst) in Hx. exact Hx. }
      rewrite (filter_none _ _ Hno).
      apply elem_of_cons in Hin as [Heq|Hin].
      * injection Heq as ->. reflexivity.
      * exfalso. exact (Hno _ Hin eq_refl).
    + rewrite filter_cons_False by exact Hne.
      apply elem_of_cons in Hin as [Heq|Hin]; [congruence|].
      apply IH; assumption.
Qed.

Lemma series_NoDup (name : string) (e : exn) (df : DataFrame) (v : values) :
  NoDup (labels df) -> (name, v) ∈ df.(columns) -> series name e df = Return v.
Proof.
  intros Hnd Hin. unfold series.
  rewrite (filter_label_NoDup name _ Hnd v Hin). reflexivity.
Qed.

Lemma series_missing (name : string) (e : exn) (df : DataFrame) :
  has_column name df = false -> series name e df = Raise (KeyError name).
Proof.
  unfold has_column, series. intros H. apply bool_decide_eq_false in H.
  rewrite filter_none; [reflexivity|].
  intros [n w] Hx Heq. simpl in Heq. subst n. apply H.
  apply (list_elem_of_fmap_2 fst) in Hx. exact Hx.
Qed.

Lemma has_column_elem (name : string) (df : DataFrame) :
  has_column name df = true <-> exists v, (name, v) ∈ df.(columns).
Proof.
  unfold has_column, labels. rewrite bool_decide_eq_true, list_elem_of_fmap. split.
  - intros ([n v] & Heq & Hin). simpl in Heq. subst. eauto.
  - intros [v Hin]. exists (name, v). split; [reflexivity|assumption].
Qed.

(** Storing back the column a label denotes changes nothing. *)
Lemma assign_same (name : string) (v : values) (df : DataFrame) :
  (forall v', (name, v') ∈ df.(columns) -> v' = v) -> assign name v df = df.
Proof.
  destruct df as [idx cols]. unfold assign. simpl. intros H. f_equal.
  induction cols as [|[n w] cols IH]; [reflexivity|]. simpl.
  rewrite IH by (intros v' Hv'; apply H; right; exact Hv').
  destruct (decide (n = name)) as [->|Hne]; [|reflexivity].
  rewrite (H w) by left. reflexivity.
Qed.

(** *** Whitespace *)

Lemma rstrip_idem (s : string) : rstrip (rstrip s) = rstrip s.
Proof.
  induction s as [|c r IH]; [reflexivity|]. simpl.
  destruct (rstrip r) as [|c' r'] eqn:E.
  - destruct (is_space c) eqn:Ec; simpl; [reflexivity|]. rewrite Ec. reflexivity.
  - simpl. simpl in IH. rewrite IH. reflexivity.
Qed.

Lemma lstrip_left_clean (s : string) : left_clean (lstrip s) = true.
Proof.
  induction s as [|c r IH]; [reflexivity|]. simpl.
  destruct (is_space c) eqn:E; [exact IH|]. simpl. rewrite E. reflexivity.
Qed.

Lemma lstrip_fixed (s : string) : left_clean s = true -> lstrip s = s.
Proof.
  destruct s as [|c r]; [reflexivity|]. simpl.
  destruct (is_space c); [discriminate|reflexivity].
Qed.

Lemma rstrip_left_clean (s : string) :
  left_clean s = true -> left_clean (rstrip s) = true.
Proof.
  destruct s as [|c r]; [reflexivity|]. simpl. intros H.
  destruct (rstrip r); [|exact H].
  destruct (is_space c) eqn:E; [discriminate H|]. simpl. rewrite E. reflexivity.
Qed.

Lemma strip_idem (s : string) : strip (strip s) = strip s.
Proof.
  unfold strip.
  rewrite (lstrip_fixed (rstrip (lstrip s)))
    by (apply rstrip_left_clean, lstrip_left_clean).
  apply rstrip_idem.
Qed.

Lemma cell_fixed_strip (o : obj) : cell_fixed (strip_cell o) = true.
Proof.
  destruct o as [|s|n|x|b]; simpl; try reflexivity.
  - rewrite strip_idem. apply String.eqb_refl.
  - destruct (PrimFloat.is_nan x) eqn:E; simpl; [exact E|reflexivity].
Qed.

Lemma strip_cell_fixed (o : obj) : cell_fixed o = true -> strip_cell o = o.
Proof.
  destruct o as [|s|n|x|b]; simpl; try reflexivity; try discriminate.
  - intros H. apply String.eqb_eq in H. rewrite H. reflexivity.
  - intros ->. reflexivity.
Qed.

Lemma cells_fixed_map (cells : list obj) :
  Forall (fun o => cell_fixed o = true) cells -> map strip_cell cells = cells.
Proof.
  induction 1 as [|o l Ho Hl IH]; [reflexivity|]. simpl.
  rewrite (strip_cell_fixed o Ho), IH. reflexivity.
Qed.

Lemma cells_fixed_kind (cells : list obj) :
  Forall (fun o => cell_fixed o = true) cells ->
  existsb is_str cells || forallb isna cells = true.
Proof.
  induction 1 as [|o l Ho Hl IH]; [reflexivity|].
  destruct o as [|s|n|x|b]; simpl in *; try discriminate Ho; try reflexivity.
  - destruct (existsb is_str l); [reflexivity|exact IH].
  - rewrite Ho. destruct (existsb is_str l); [reflexivity|exact IH].
Qed.

Lemma cells_fixed_accessor (cells : list obj) :
  Forall (fun o => cell_fixed o = true) cells -> str_accessor_ok cells = true.
Proof.
  intros H. unfold str_accessor_ok.
  assert (Hf : Forall (fun o => is_str o = true)
                      (filter (fun o => negb (isna o)) cells)).
  { induction H as [|o l Ho Hl IH]; [constructor|].
    rewrite filter_cons. destruct (decide (negb (isna o))) as [Hn|Hn]; [|exact IH].
    constructor; [|exact IH].
    destruct o as [|s|n|x|b]; simpl in *; try discriminate Ho; try reflexivity.
    - exfalso. exact Hn.
    - rewrite Ho in Hn. exfalso. exact Hn. }
  destruct (filter (fun o => negb (isna o)) cells) as [|o r]; [reflexivity|].
  inversion Hf as [|? ? Ho _]; subst.
  destruct o; try discriminate Ho. reflexivity.
Qed.

Lemma str_strip_fixed (cells : list obj) :
  Forall (fun o => cell_fixed o = true) cells ->
  str_strip cells = Return (ObjectCol cells).
Proof.
  intros H. unfold str_strip.
  rewrite (cells_fixed_accessor cells H), (cells_fixed_kind cells H),
          (cells_fixed_map cells H). reflexivity.
Qed.

Lemma str_strip_result (cells : list obj) (v : values) :
  str_strip cells = Return v -> v = strip_result cells.
Proof.
  unfold str_strip, strip_result. destruct (str_accessor_ok cells); [|discriminate].
  destruct (existsb is_str cells || forallb isna cells); intros H; injection H as <-;
    reflexivity.
Qed.

(** *** Renaming *)

Lemma rename_known_rename (df : DataFrame) (m : string * string) :
  rename_known df m = rename m.1 m.2 df.
Proof.
  unfold rename_known. destruct (has_column m.1 df) eqn:E; [reflexivity|].
  apply bool_decide_eq_false in E. destruct df as [idx cols].
  unfold rename, labels in *. simpl in *. f_equal.
  induction cols as [|[n v] cols IH]; [reflexivity|]. simpl in *.
  rewrite <- IH by (intros H; apply E; right; exact H).
  destruct (decide (n = m.1)) as [->|_]; [|reflexivity].
  exfalso. apply E. left.
Qed.

Lemma assoc_elem {V} (k : string) (v : V) (l : list (string * V)) :
  geo_analyzer.assoc k l = Some v -> (k, v) ∈ l.
Proof.
  induction l as [|[k' v'] l IH]; [discriminate|]. cbn [geo_analyzer.assoc].
  destruct (String.eqb_spec k k') as [->|_].
  - intros H. injection H as ->. left.
  - intros H. right. apply IH, H.
Qed.

(** No canonical name is itself an alternate spelling. *)
Lemma targets_fresh (p : string * string) :
  p ∈ column_mapping -> geo_analyzer.assoc p.2 column_mapping = None.
Proof.
  intros H. unfold column_mapping in H.
  repeat (apply elem_of_cons in H as [->|H]; [vm_compute; reflexivity|]).
  inversion H.
Qed.

Lemma rename_fold (m : list (string * string)) :
  (forall p, p ∈ m -> geo_analyzer.assoc p.2 m = None) ->
  forall df,
    fold_left rename_known m df
    = mkDataFrame df.(index)
        (map (fun c => (default c.1 (geo_analyzer.assoc c.1 m), c.2)) df.(columns)).
Proof.
  induction m as [|[o nw] m IH]; intros Hfresh df.
  - destruct df as [idx cols]. cbn [fold_left index columns geo_analyzer.assoc default].
    f_equal. induction cols as [|[n v] cols IHc]; [reflexivity|].
    cbn [map fst snd]. rewrite <- IHc. reflexivity.
  - cbn [fold_left]. rewrite rename_known_rename. cbn [fst snd].
    assert (Hnw : geo_analyzer.assoc nw ((o, nw) :: m) = None)
      by (apply (Hfresh (o, nw)); left).
    cbn [geo_analyzer.assoc] in Hnw.
    destruct (String.eqb_spec nw o) as [|Hne]; [discriminate Hnw|].
    rewrite IH.
    + unfold rename. cbn [index columns]. f_equal. rewrite map_map.
      apply map_ext. intros [n v]. cbn [fst snd geo_analyzer.assoc]. f_equal.
      destruct (decide (n = o)) as [->|Hno].
      * rewrite String.eqb_refl, Hnw. reflexivity.
      * destruct (String.eqb_spec n o) as [|_]; [contradiction|reflexivity].
    + intros p Hp. pose proof (Hfresh p (proj2 (elem_of_cons _ _ _) (or_intror Hp))) as H.
      cbn [geo_analyzer.assoc] in H.
      destruct (String.eqb p.2 o); [discriminate H|exact H].
Qed.

Lemma rename_all (df : DataFrame) :
  fold_left rename_known column_mapping df
  = mkDataFrame df.(index) (map (fun c => (canon c.1, c.2)) df.(columns)).
Proof. apply rename_fold. exact targets_fresh. Qed.

Lemma canon_idem (n : string) : canon (canon n) = canon n.
Proof.
  unfold canon at 2 3.
  destruct (geo_analyzer.assoc n column_mapping) as [nw|] eqn:E;
    [|change (canon n = n); unfold canon; rewrite E; reflexivity].
  change (canon nw = nw). unfold canon.
  pose proof (targets_fresh (n, nw) (assoc_elem _ _ _ E)) as H. cbn [snd] in H.
  rewrite H. reflexivity.
Qed.

(** *** Tables the cleaner leaves alone *)

Lemma filter_rows_all (m : list bool) (df : DataFrame) :
  rectangular df -> (length df.(index) <= length m)%nat ->
  Forall (fun b => b = true) m -> filter_rows m df = df.
Proof.
  destruct df as [idx cols]. unfold rectangular, filter_rows. simpl.
  intros Hrect Hlen Hall. f_equal; [apply mask_all_true; assumption|].
  induction Hrect as [|[n v] cols Hc _ IH]; [reflexivity|]. simpl in *.
  rewrite IH. f_equal. f_equal.
  destruct v as [l|l|l]; simpl in *; rewrite mask_all_true; try reflexivity;
    try assumption; lia.
Qed.

Lemma size_as_objects (v : values) : length (as_objects v) = size v.
Proof. destruct v; simpl; rewrite ?length_map; reflexivity. Qed.

Lemma mapM_zero_to_nan (ints : list Z) :
  mapM int_of_num (map zero_to_nan ints) = Return ints.
Proof.
  induction ints as [|n ints IH]; [reflexivity|]. simpl. rewrite IH.
  unfold zero_to_nan. destruct (Z.eqb_spec n 0) as [->|_]; reflexivity.
Qed.

Lemma bind_Return {A B} (a : A) (k : A -> res B) : (Return a ≫= k) = k a.
Proof. reflexivity. Qed.

Lemma bind_mret {A B} (a : A) (k : A -> res B) : (mret a ≫= k) = k a.
Proof. reflexivity. Qed.

Lemma foldM_same {A B} (f : A -> B -> res A) (a : A) (l : list B) :
  (forall b, b ∈ l -> f a b = Return a) -> foldM f a l = Return a.
Proof.
  induction l as [|b l IH]; intros H; [reflexivity|]. simpl.
  rewrite (H b) by left. simpl. apply IH. intros b' Hb'. apply H. right. exact Hb'.
Qed.

Section fixpoint.
Variable parse_number : string -> option num.

(** A cleaned table is returned as it is. *)
Lemma cleaned_fixpoint (df : DataFrame) :
  cleaned df -> clean_dataframe parse_number df = Return df.
Proof.
  intros [Hnd Hrect Hrows Hip Hcols].
  assert (Hcol : forall n v, (n, v) ∈ df.(columns) -> col_fixed (n, v)).
  { intros n v Hin. rewrite Forall_forall in Hcols. apply Hcols, Hin. }
  assert (Hser : forall e n v, (n, v) ∈ df.(columns) -> series n e df = Return v).
  { intros e n v Hin. apply series_NoDup; assumption. }
  assert (Huniq : forall n v v', (n, v) ∈ df.(columns) -> (n, v') ∈ df.(columns) -> v' = v).
  { intros n v v' Hv Hv'.
    pose proof (Hser (KeyError "") n v Hv) as H1.
    exact (proj2 (series_elem _ _ _ _ H1) v' Hv'). }
  unfold clean_dataframe. rewrite Hip.
  apply has_column_elem in Hip as [ips Hips].
  destruct (Hcol _ _ Hips) as (_ & _ & _ & _ & Hipcol).
  destruct (Hipcol eq_refl) as [Hvalid Hfirst]. cbn [fst snd] in Hvalid, Hfirst.
  assert (Hsize : size ips = length df.(index)).
  { unfold rectangular in Hrect. rewrite Forall_forall in Hrect.
    exact (Hrect _ Hips). }
  rewrite (Hser _ _ _ Hips), bind_Return.
  assert (Hkeep : keep_valid ips df = df).
  { assert (Hf : filter_rows (map utils.validate_ip (as_objects ips)) df = df).
    { apply filter_rows_all; [assumption| |apply all_true_map; assumption].
      rewrite length_map, size_as_objects. lia. }
    unfold keep_valid.
    destruct ips as [[|o l]|[|c l]|l]; try exact Hf;
      cbn [size length] in Hsize; destruct (index df); try discriminate Hsize;
      exfalso; apply Hrows; reflexivity. }
  assert (Hempty : empty df = false).
  { unfold empty. destruct (index df); [exfalso; apply Hrows; reflexivity|].
    destruct (columns df); [inversion Hips|reflexivity]. }
  rewrite Hkeep, bind_mret. unfold drop_duplicates_ip.
  rewrite Hempty, (Hser _ _ _ Hips), bind_Return.
  rewrite filter_rows_all; [|assumption| |assumption];
    [|rewrite first_mask_length, length_map, size_as_objects; lia].
  rewrite bind_mret.
  (* the renaming loop *)
  rewrite rename_all.
  assert (Hren : mkDataFrame (index df) (map (fun c => (canon c.1, c.2)) (columns df)) = df).
  { destruct df as [idx cols]. cbn [index columns] in *. f_equal.
    clear -Hcol. induction cols as [|[n v] cols IH]; [reflexivity|]. cbn [map fst snd].
    rewrite IH by (intros n' v' H; apply Hcol; right; exact H).
    destruct (Hcol n v) as [Hc _]; [left|]. cbn [fst] in Hc. rewrite Hc. reflexivity. }
  rewrite Hren.
  (* the port column *)
  assert (Hport : (if has_column "port" df
                   then v ← series "port" (TypeError "arg must be a list, tuple, 1-d array, or Series") df;
                        v' ← port_clean parse_number v; mret (assign "port" v' df)
                   else mret df) = Return df).
  { destruct (has_column "port" df) eqn:E; [|reflexivity].
    apply has_column_elem in E as [v Hv]. rewrite (Hser _ _ _ Hv), bind_Return.
    destruct (Hcol _ _ Hv) as (_ & Hp & _). destruct (Hp eq_refl) as [ints Hints].
    cbn [snd] in Hints. subst v. unfold port_clean. cbn [to_numeric].
    rewrite mapM_zero_to_nan, bind_Return, bind_mret. unfold mret, res_ret. f_equal.
    apply assign_same.
    intros v' Hv'. exact (Huniq _ _ _ Hv Hv'). }
  rewrite Hport, bind_Return.
  (* the coordinates *)
  assert (Hcoord : forall col, col = "latitude" \/ col = "longitude" ->
            coordinate_clean parse_number df col = Return df).
  { intros col Hc. unfold coordinate_clean.
    destruct (has_column col df) eqn:E; [|reflexivity].
    apply has_column_elem in E as [v Hv]. rewrite (Hser _ _ _ Hv), bind_Return.
    destruct (Hcol _ _ Hv) as (_ & _ & Hn & _). specialize (Hn Hc). cbn [snd] in Hn.
    unfold mret, res_ret. f_equal.
    apply assign_same. intros v' Hv'. rewrite (Huniq _ _ _ Hv Hv').
    destruct v; [discriminate Hn|reflexivity|reflexivity]. }
  cbn [foldM].
  rewrite (Hcoord "latitude") by (left; reflexivity). unfold py.bind at 1.
  rewrite (Hcoord "longitude") by (right; reflexivity). unfold py.bind at 1.
  rewrite bind_Return.
  (* the whitespace loop *)
  apply foldM_same. intros col Hin. unfold string_columns in Hin.
  apply list_elem_of_fmap in Hin as ([n v] & -> & Hin).
  apply list_elem_of_filter in Hin as [Hobj Hin]. cbn [fst snd] in *.
  unfold strip_column. rewrite (Hser _ _ _ Hin), bind_Return.
  destruct v as [cells|l|l]; try (exfalso; exact Hobj).
  destruct (Hcol _ _ Hin) as (_ & _ & _ & Hs & _).
  rewrite (str_strip_fixed cells (Hs cells eq_refl)), bind_Return.
  unfold mret, res_ret. f_equal.
  apply assign_same. intros v' Hv'. exact (Huniq _ _ _ Hin Hv').
Qed.

End fixpoint.

(** *** Row selection *)

Lemma size_mask_values (m : list bool) (v : values) (idx : list Z) :
  size v = length idx -> size (mask_values m v) = length (mask m idx).
Proof. destruct v; cbn [size mask_values]; apply mask_length. Qed.

Lemma filter_rows_rect (m : list bool) (df : DataFrame) :
  rectangular df -> rectangular (filter_rows m df).
Proof.
  unfold rectangular, filter_rows. cbn [index columns]. intros H.
  apply Forall_fmap. eapply Forall_impl; [exact H|].
  intros [n v] Hc. cbn [fst snd compose] in *. apply size_mask_values, Hc.
Qed.

Lemma filter_label_map (name : string) (h : values -> values)
    (cols : list (string * values)) :
  filter (fun c => c.1 = name) (map (fun c => (c.1, h c.2)) cols)
  = map (fun c => (c.1, h c.2)) (filter (fun c => c.1 = name) cols).
Proof.
  induction cols as [|[n v] cols IH]; [reflexivity|]. cbn [map fst snd].
  rewrite !filter_cons. cbn [fst]. rewrite IH.
  destruct (decide (n = name)); reflexivity.
Qed.

Lemma series_filter_rows (name : string) (e : exn) (m : list bool)
    (df : DataFrame) (v : values) :
  series name e df = Return v ->
  series name e (filter_rows m df) = Return (mask_values m v).
Proof.
  unfold series, filter_rows. cbn [columns]. rewrite filter_label_map.
  destruct (filter (fun c => c.1 = name) (columns df)) as [|c [|c' r]];
    try discriminate.
  intros H. injection H as <-. reflexivity.
Qed.

Lemma as_objects_mask (m : list bool) (v : values) :
  as_objects (mask_values m v) = mask m (as_objects v).
Proof. destruct v; cbn [as_objects mask_values]; rewrite ?mask_map; reflexivity. Qed.

(** *** The port column *)

Lemma mapM_length {A B} (f : A -> res B) (l : list A) (r : list B) :
  mapM f l = Return r -> length r = length l.
Proof.
  revert r. induction l as [|a l IH]; intros r H.
  - injection H as <-. reflexivity.
  - cbn [mapM] in H. destruct (f a) as [b|]; [|discriminate H].
    rewrite bind_Return in H.
    destruct (mapM f l) as [bs|]; [|discriminate H].
    rewrite bind_Return in H. injection H as <-. cbn [length]. rewrite (IH bs eq_refl).
    reflexivity.
Qed.

Section shape.
Variable parse_number : string -> option num.

Lemma size_to_numeric (v : values) :
  size (of_numeric (to_numeric parse_number v)) = size v.
Proof.
  destruct v as [[|o l]|l|l]; try reflexivity.
  cbn [to_numeric]. destruct (forallb is_bool (o :: l)); cbn [of_numeric size];
    rewrite length_map; reflexivity.
Qed.

Lemma port_clean_shape (v v' : values) :
  port_clean parse_number v = Return v' ->
  exists ints, v' = NumCol (map zero_to_nan ints) /\ length ints = size v.
Proof.
  unfold port_clean. intros H.
  pose proof (size_to_numeric v) as Hsz.
  destruct (to_numeric parse_number v) as [l|l].
  - destruct (mapM int_of_num l) as [ints|] eqn:E; [|discriminate H].
    rewrite bind_Return in H. injection H as <-. exists ints. split; [reflexivity|].
    rewrite (mapM_length _ _ _ E). exact Hsz.
  - rewrite bind_Return in H. injection H as <-. eexists. split; [reflexivity|].
    rewrite length_map. exact Hsz.
Qed.

(** *** Each step as a map over the columns *)

Lemma assign_as_map (name : string) (e : exn) (df : DataFrame) (v : values)
    (h : values -> values) :
  series name e df = Return v ->
  assign name (h v) df
  = mkDataFrame df.(index)
      (map (fun c => if decide (c.1 = name) then (c.1, h c.2) else c) df.(columns)).
Proof.
  intros Hs. apply series_elem in Hs as [_ Huniq].
  unfold assign. f_equal. apply map_ext_in. intros [n w] Hin. cbn [fst snd].
  destruct (decide (n = name)) as [->|]; [|reflexivity].
  apply list_elem_of_In in Hin. rewrite (Huniq w Hin). reflexivity.
Qed.

Lemma map_absent (name : string) (h : values -> values) (df : DataFrame) :
  has_column name df = false ->
  df = mkDataFrame df.(index)
      (map (fun c => if decide (c.1 = name) then (c.1, h c.2) else c) df.(columns)).
Proof.
  intros H. apply bool_decide_eq_false in H. destruct df as [idx cols].
  cbn [index columns]. f_equal. unfold labels in H. cbn [columns] in H.
  induction cols as [|[n w] cols IH]; [reflexivity|]. cbn [map fst snd].
  rewrite <- IH by (intros Hin; apply H; right; exact Hin).
  destruct (decide (n = name)) as [->|]; [|reflexivity].
  exfalso. apply H. left.
Qed.

Lemma port_step (df df' : DataFrame) :
  (if has_column "port" df
   then v ← series "port" (TypeError "arg must be a list, tuple, 1-d array, or Series") df;
        v' ← port_clean parse_number v; mret (assign "port" v' df)
   else mret df) = Return df' ->
  df' = mkDataFrame df.(index) (map (portf parse_number) df.(columns))
  /\ forall v, ("port", v) ∈ df.(columns) ->
       exists ints, (port_result parse_number) v = NumCol (map zero_to_nan ints)
                    /\ length ints = size v.
Proof.
  destruct (has_column "port" df) eqn:E.
  - destruct (series "port" _ df) as [v|] eqn:Hs; [|discriminate].
    rewrite bind_Return.
    destruct (port_clean parse_number v) as [v'|] eqn:Hp; [|discriminate].
    rewrite bind_Return. intros H. injection H as <-. split.
    + assert (Hv' : v' = (port_result parse_number) v) by (unfold port_result; rewrite Hp; reflexivity).
      rewrite Hv'. apply (assign_as_map _ _ _ _ (port_result parse_number) Hs).
    + intros w Hw. apply series_elem in Hs as [_ Huniq]. rewrite (Huniq w Hw).
      unfold port_result. rewrite Hp. apply port_clean_shape, Hp.
  - intros H. injection H as <-. split.
    + apply (map_absent "port" (port_result parse_number) df E).
    + intros v Hv. exfalso. apply bool_decide_eq_false in E. apply E.
      apply (list_elem_of_fmap_2 fst) in Hv. exact Hv.
Qed.

Lemma coordinate_step (col : string) (df df' : DataFrame) :
  coordinate_clean parse_number df col = Return df' ->
  df' = mkDataFrame df.(index) (map (coordf parse_number col) df.(columns)).
Proof.
  unfold coordinate_clean. destruct (has_column col df) eqn:E.
  - destruct (series col _ df) as [v|] eqn:Hs; [|discriminate].
    rewrite bind_Return. intros H. injection H as <-.
    apply (assign_as_map _ _ _ _ (fun v => of_numeric (to_numeric parse_number v)) Hs).
  - intros H. injection H as <-.
    apply (map_absent col (fun v => of_numeric (to_numeric parse_number v)) df E).
Qed.

Lemma stripv_idem (v : values) : stripv (stripv v) = stripv v.
Proof.
  destruct v as [cells|l|l]; try reflexivity. cbn [stripv].
  unfold strip_result.
  destruct (existsb is_str cells || forallb isna cells); [|reflexivity].
  cbn [stripv]. unfold strip_result.
  assert (H : Forall (fun o => cell_fixed o = true) (map strip_cell cells)).
  { apply Forall_fmap, Forall_forall. intros o _. apply cell_fixed_strip. }
  rewrite (cells_fixed_kind _ H), (cells_fixed_map _ H). reflexivity.
Qed.

Lemma strip_column_step (col : string) (df df' : DataFrame) :
  strip_column df col = Return df' ->
  df' = mkDataFrame df.(index)
      (map (fun c => if decide (c.1 = col) then stripcol c else c) df.(columns)).
Proof.
  unfold strip_column. destruct (series col _ df) as [v|] eqn:Hs; [|discriminate].
  rewrite bind_Return. intros H.
  assert (Hd : df' = assign col (stripv v) df).
  { destruct v as [cells|l|l].
    - destruct (str_strip cells) as [v'|] eqn:Hv; [|discriminate H].
      rewrite bind_Return in H. injection H as <-.
      rewrite (str_strip_result _ _ Hv). reflexivity.
    - injection H as <-. reflexivity.
    - injection H as <-. reflexivity. }
  rewrite Hd. apply (assign_as_map _ _ _ _ stripv Hs).
Qed.

Lemma strip_loop (ls : list string) :
  forall df df',
    foldM strip_column df ls = Return df' ->
    df' = mkDataFrame df.(index)
        (map (fun c => if bool_decide (c.1 ∈ ls) then stripcol c else c) df.(columns)).
Proof.
  induction ls as [|col ls IH]; intros df df' H.
  - injection H as <-. destruct df as [idx cols]. cbn [index columns]. f_equal.
    induction cols as [|c cols IHc]; [reflexivity|]. cbn [map].
    rewrite <- IHc. rewrite bool_decide_eq_false_2 by (apply not_elem_of_nil).
    reflexivity.
  - cbn [foldM] in H. destruct (strip_column df col) as [df1|] eqn:E; [|discriminate H].
    unfold py.bind in H. apply IH in H. apply strip_column_step in E.
    rewrite H, E. cbn [index columns]. f_equal. rewrite map_map.
    apply map_ext. intros [n v].
    destruct (decide ((n, v).1 = col)) as [Heq|Hne].
    + cbn [fst] in Heq. subst n. unfold stripcol. cbn [fst snd].
      rewrite (bool_decide_eq_true_2 (col ∈ col :: ls)) by left.
      destruct (bool_decide (col ∈ ls)); [|reflexivity].
      rewrite stripv_idem. reflexivity.
    + cbn [fst] in *.
      destruct (bool_decide (n ∈ ls)) eqn:Hin.
      * apply bool_decide_eq_true in Hin.
        rewrite (bool_decide_eq_true_2 (n ∈ col :: ls)) by (right; exact Hin).
        reflexivity.
      * apply bool_decide_eq_false in Hin.
        rewrite (bool_decide_eq_false_2 (n ∈ col :: ls)); [reflexivity|].
        intros Hc. apply elem_of_cons in Hc as [->|Hc]; [apply Hne; reflexivity|].
        exact (Hin Hc).
Qed.

Lemma strip_all (df df' : DataFrame) :
  foldM strip_column df (string_columns df) = Return df' ->
  df' = mkDataFrame df.(index) (map stripcol df.(columns)).
Proof.
  intros H. apply strip_loop in H. rewrite H. f_equal.
  apply map_ext_in. intros [n v] Hin. cbn [fst].
  destruct (bool_decide (n ∈ string_columns df)) eqn:E; [reflexivity|].
  apply bool_decide_eq_false in E.
  destruct v as [cells|l|l]; try reflexivity.
  exfalso. apply E. unfold string_columns.
  apply (list_elem_of_fmap_2' fst _ (n, ObjectCol cells)); [|reflexivity].
  apply list_elem_of_filter. split; [exact I|]. apply list_elem_of_In. exact Hin.
Qed.

End shape.

(** *** The rows that survive *)

Lemma valid_stable_fixed (o : obj) :
  utils.validate_ip o = true -> strip_cell o = o -> cell_fixed o = true.
Proof.
  destruct o as [|s|n|x|b]; cbn [utils.validate_ip strip_cell cell_fixed];
    try discriminate.
  intros _ H. assert (Hs : strip s = s) by congruence. rewrite Hs.
  apply String.eqb_refl.
Qed.

Lemma stripv_stable (v : values) :
  Forall (fun o => utils.validate_ip o = true) (as_objects v) ->
  (forall cells, v = ObjectCol cells ->
     Forall (fun o => utils.validate_ip o = true -> strip_cell o = o) cells) ->
  stripv v = v.
Proof.
  destruct v as [cells|l|l]; try reflexivity. cbn [as_objects stripv].
  intros Hv Hs. specialize (Hs cells eq_refl).
  assert (H : Forall (fun o => cell_fixed o = true) cells).
  { rewrite Forall_forall in Hv, Hs. apply Forall_forall. intros o Ho.
    apply valid_stable_fixed; [apply Hv, Ho|apply Hs; [exact Ho|apply Hv, Ho]]. }
  unfold strip_result. rewrite (cells_fixed_kind _ H), (cells_fixed_map _ H).
  reflexivity.
Qed.

Lemma keep_valid_cases (ips : values) (df : DataFrame) :
  keep_valid ips df = filter_rows (map utils.validate_ip (as_objects ips)) df
  \/ (size ips = 0%nat /\ keep_valid ips df = mkDataFrame df.(index) []).
Proof. destruct ips as [[|o l]|[|c l]|l]; cbn [keep_valid]; auto. Qed.

Lemma empty_cases (df : DataFrame) :
  empty df = true -> df.(index) = [] \/ df.(columns) = [].
Proof. unfold empty. destruct (index df), (columns df); auto; discriminate. Qed.

(** The rows kept by the two drops, when any is. *)
Lemma front_facts (e : exn) (t tb : DataFrame) (v0 : values) :
  rectangular t -> ip_cells_stable t ->
  series "ip" e t = Return v0 ->
  drop_duplicates_ip (keep_valid v0 t) = Return tb ->
  tb.(index) <> [] ->
  rectangular tb
  /\ exists vb,
       ("ip", vb) ∈ tb.(columns)
       /\ Forall (fun o => utils.validate_ip o = true) (as_objects vb)
       /\ Forall (fun b => b = true) (first_mask [] (map dup_key (as_objects vb)))
       /\ stripv vb = vb.
Proof.
  intros Hrect Hstable Hs0 Hd Hrows. unfold drop_duplicates_ip in Hd.
  pose proof (series_elem _ _ _ _ Hs0) as [Hin0 _].
  assert (Hsize : size v0 = length t.(index)).
  { unfold rectangular in Hrect. rewrite Forall_forall in Hrect. exact (Hrect _ Hin0). }
  destruct (keep_valid_cases v0 t) as [Hk|[Hz Hk]].
  2:{ exfalso. rewrite Hk in Hd. unfold empty in Hd. cbn [index columns] in Hd.
      rewrite Hz in Hsize. destruct (index t) eqn:Hi; [|discriminate Hsize].
      injection Hd as <-. apply Hrows. reflexivity. }
  rewrite Hk in Hd. set (m1 := map utils.validate_ip (as_objects v0)) in *.
  destruct (empty (filter_rows m1 t)) eqn:He.
  { exfalso. injection Hd as <-. apply empty_cases in He as [He|He];
      [exact (Hrows He)|].
    cbn [filter_rows columns] in He. apply fmap_nil_inv in He.
    rewrite He in Hin0. inversion Hin0. }
  assert (Hsa : series "ip" (IndexingError "ip") (filter_rows m1 t)
                = Return (mask_values m1 v0)).
  { apply series_filter_rows. unfold series in *.
    destruct (filter (fun c => c.1 = "ip") (columns t)) as [|c [|c' r]];
      try discriminate Hs0. exact Hs0. }
  rewrite Hsa, bind_Return in Hd. injection Hd as <-.
  set (va := mask_values m1 v0) in *.
  set (m2 := first_mask [] (map dup_key (as_objects va))).
  split; [apply filter_rows_rect, filter_rows_rect, Hrect|].
  exists (mask_values m2 va).
  assert (Hva : Forall (fun o => utils.validate_ip o = true) (as_objects va)).
  { unfold va. rewrite as_objects_mask. apply mask_by_test. }
  split; [|split; [|split]].
  - apply (series_elem "ip" (IndexingError "ip")).
    apply series_filter_rows. exact Hsa.
  - rewrite as_objects_mask. apply Forall_mask, Hva.
  - rewrite as_objects_mask, <- mask_map. apply first_mask_kept.
  - apply stripv_stable.
    + rewrite as_objects_mask. apply Forall_mask, Hva.
    + intros cells Hcells.
      destruct v0 as [cells0|l|l]; try discriminate Hcells.
      cbn [va mask_values] in Hcells. injection Hcells as <-.
      apply Forall_mask, Forall_mask. apply Hstable. exact Hin0.
Qed.

(** *** The cleaned table as an image of the surviving rows *)

Section image.
Variable parse_number : string -> option num.

Lemma clean_dataframe_split (df : DataFrame) :
  clean_dataframe parse_number df
  = (df ← (if has_column "ip" df then
             ips ← series "ip" (IndexingError "Unalignable boolean Series provided as indexer") df;
             mret (keep_valid ips df)
           else mret df);
     df ← drop_duplicates_ip df;
     finish_table parse_number df).
Proof. unfold clean_dataframe, finish_table. reflexivity. Qed.

Lemma finish_label (c : string * values) : (finish parse_number c).1 = canon c.1.
Proof.
  unfold finish, stripcol, coordf, portf. cbn [fst snd].
  repeat match goal with
  | |- context [decide (?a = ?b)] => destruct (decide (a = b)); cbn [fst snd]
  end; reflexivity.
Qed.

Lemma finish_table_image (df t1 : DataFrame) :
  finish_table parse_number df = Return t1 ->
  t1 = mkDataFrame df.(index) (map (finish parse_number) df.(columns))
  /\ (forall c, c ∈ df.(columns) -> canon c.1 = "port" ->
       exists ints, port_result parse_number c.2 = NumCol (map zero_to_nan ints)
                    /\ length ints = size c.2).
Proof.
  unfold finish_table. intros H. rewrite rename_all in H.
  set (tc := mkDataFrame (index df) (map (fun c => (canon c.1, c.2)) (columns df))) in *.
  match type of H with (?step ≫= _) = _ => destruct step as [td|] eqn:Hp end;
    [|discriminate H].
  rewrite bind_Return in H. apply port_step in Hp as [Htd Hports].
  cbn [foldM] in H.
  destruct (coordinate_clean parse_number td "latitude") as [te1|] eqn:Hlat;
    [|discriminate H].
  unfold py.bind at 1 in H.
  destruct (coordinate_clean parse_number te1 "longitude") as [te|] eqn:Hlon;
    [|discriminate H].
  unfold py.bind at 1 in H. rewrite bind_Return in H.
  apply coordinate_step in Hlat, Hlon. apply strip_all in H. split.
  - rewrite H, Hlon, Hlat, Htd. unfold tc. cbn [index columns]. f_equal.
    rewrite !map_map. reflexivity.
  - intros [n v] Hin Hn. cbn [fst snd] in *. apply Hports.
    unfold tc. cbn [columns]. rewrite <- Hn.
    apply (list_elem_of_fmap_2 (fun c => (canon c.1, c.2)) _ (n, v)). exact Hin.
Qed.

(** A table without columns goes through the cleaner untouched. *)
Lemma clean_no_columns (idx : list Z) :
  clean_dataframe parse_number (mkDataFrame idx []) = Return (mkDataFrame idx []).
Proof. destruct idx; reflexivity. Qed.

Lemma clean_image (t t1 : DataFrame) :
  rectangular t -> ip_cells_stable t ->
  clean_dataframe parse_number t = Return t1 ->
  t1.(index) <> [] -> t.(columns) <> [] ->
  exists tb,
    t1 = mkDataFrame tb.(index) (map (finish parse_number) tb.(columns))
    /\ rectangular tb
    /\ (exists vb,
         ("ip", vb) ∈ tb.(columns)
         /\ Forall (fun o => utils.validate_ip o = true) (as_objects vb)
         /\ Forall (fun b => b = true) (first_mask [] (map dup_key (as_objects vb)))
         /\ stripv vb = vb)
    /\ (forall c, c ∈ tb.(columns) -> canon c.1 = "port" ->
         exists ints, port_result parse_number c.2 = NumCol (map zero_to_nan ints)
                      /\ length ints = size c.2).
Proof.
  intros Hrect Hstable H Hrows Hcols. rewrite clean_dataframe_split in H.
  destruct (has_column "ip" t) eqn:Hip.
  - destruct (series "ip" _ t) as [v0|] eqn:Hs0; [|discriminate H].
    rewrite bind_Return, bind_mret in H.
    destruct (drop_duplicates_ip (keep_valid v0 t)) as [tb|] eqn:Hd; [|discriminate H].
    rewrite bind_Return in H. apply finish_table_image in H as [-> Hports].
    cbn [index] in Hrows.
    destruct (front_facts _ _ _ _ Hrect Hstable Hs0 Hd Hrows) as [Hrb Hipb].
    exists tb. repeat split; assumption.
  - exfalso. rewrite bind_mret in H. unfold drop_duplicates_ip in H.
    destruct (empty t) eqn:He.
    + rewrite bind_mret in H. apply finish_table_image in H as [-> _].
      cbn [index] in Hrows. apply empty_cases in He as [He|He]; contradiction.
    + rewrite (series_missing _ _ _ Hip) in H. discriminate H.
Qed.

End image.

Lemma NoDup_map_elem_inj {A B} (f : A -> B) (l : list A) (x y : A) :
  NoDup (map f l) -> x ∈ l -> y ∈ l -> f x = f y -> x = y.
Proof.
  induction l as [|a l IH]; intros Hnd Hx Hy Hf; [inversion Hx|].
  cbn [map] in Hnd. apply NoDup_cons in Hnd as [Ha Hnd].
  apply elem_of_cons in Hx as [->|Hx]; apply elem_of_cons in Hy as [->|Hy].
  - reflexivity.
  - exfalso. apply Ha. rewrite Hf. apply (list_elem_of_fmap_2 f), Hy.
  - exfalso. apply Ha. rewrite <- Hf. apply (list_elem_of_fmap_2 f), Hx.
  - apply IH; assumption.
Qed.

Lemma size_stripv (v : values) : size (stripv v) = size v.
Proof.
  destruct v as [cells|l|l]; try reflexivity. cbn [stripv]. unfold strip_result.
  destruct (existsb is_str cells || forallb isna cells); cbn [size];
    apply length_map.
Qed.

Lemma stripv_numeric (v : values) : is_object v = false -> stripv v = v.
Proof. destruct v; [discriminate|reflexivity|reflexivity]. Qed.

Lemma stripv_object (v : values) (cells : list obj) :
  stripv v = ObjectCol cells -> Forall (fun o => cell_fixed o = true) cells.
Proof.
  destruct v as [cells0|l|l]; try discriminate. cbn [stripv]. unfold strip_result.
  destruct (existsb is_str cells0 || forallb isna cells0); [|discriminate].
  intros H. injection H as <-. apply Forall_fmap, Forall_forall.
  intros o _. apply cell_fixed_strip.
Qed.

Section established.
Variable parse_number : string -> option num.

Lemma of_numeric_not_object (v : values) :
  is_object (of_numeric (to_numeric parse_number v)) = false.
Proof. destruct (to_numeric parse_number v); reflexivity. Qed.

(** The data [finish] leaves in a column, by its canonical label. *)
Lemma finish_data (c : string * values) :
  (finish parse_number c).2
  = stripv
      (if decide (canon c.1 = "port") then port_result parse_number c.2
       else if decide (canon c.1 = "latitude")
            then of_numeric (to_numeric parse_number c.2)
       else if decide (canon c.1 = "longitude")
            then of_numeric (to_numeric parse_number c.2)
       else c.2).
Proof.
  unfold finish, stripcol, coordf, portf. cbn [fst snd].
  destruct (decide (canon c.1 = "port")) as [E|E]; cbn [fst snd].
  - rewrite E.
    destruct (decide ("port" = "latitude")) as [H|_]; [discriminate H|].
    cbn [fst snd].
    destruct (decide ("port" = "longitude")) as [H|_]; [discriminate H|].
    reflexivity.
  - destruct (decide (canon c.1 = "latitude")) as [E1|E1]; cbn [fst snd].
    + rewrite E1.
      destruct (decide ("latitude" = "longitude")) as [H|_]; [discriminate H|].
      reflexivity.
    + destruct (decide (canon c.1 = "longitude")); reflexivity.
Qed.

(** The cleaner returns cleaned tables. *)
Lemma clean_cleaned (t t1 : DataFrame) :
  rectangular t -> ip_cells_stable t ->
  clean_dataframe parse_number t = Return t1 ->
  NoDup (labels t1) -> t1.(index) <> [] -> t.(columns) <> [] ->
  cleaned t1.
Proof.
  intros Hrect Hstable Hclean Hnd Hrows Hcols.
  destruct (clean_image parse_number t t1 Hrect Hstable Hclean Hrows Hcols)
    as (tb & -> & Hrb & (vb & Hvb & Hvalid & Hfirst & Hfix) & Hports).
  assert (Hlabels : labels (mkDataFrame (index tb) (map (finish parse_number) (columns tb)))
                    = map (fun c => canon c.1) (columns tb)).
  { unfold labels. cbn [columns]. rewrite map_map. apply map_ext.
    intros c. apply finish_label. }
  rewrite Hlabels in Hnd.
  assert (Hip : forall c, c ∈ columns tb -> canon c.1 = "ip" -> c = ("ip", vb)).
  { intros c Hc Hn.
    apply (NoDup_map_elem_inj (fun c => canon c.1) (columns tb)); try assumption. }
  split.
  - rewrite Hlabels. exact Hnd.
  - unfold rectangular in *. cbn [index columns]. apply Forall_fmap.
    rewrite Forall_forall in Hrb. apply Forall_forall. intros c Hc.
    cbn [compose]. rewrite finish_data, size_stripv, <- (Hrb c Hc).
    destruct (decide (canon c.1 = "port")) as [E|_].
    { destruct (Hports c Hc E) as (ints & -> & Hlen). cbn [size].
      rewrite length_map. exact Hlen. }
    destruct (decide (canon c.1 = "latitude")); [apply size_to_numeric|].
    destruct (decide (canon c.1 = "longitude")); [apply size_to_numeric|].
    reflexivity.
  - exact Hrows.
  - apply has_column_elem. exists (finish parse_number ("ip", vb)).2.
    cbn [columns]. apply list_elem_of_fmap. exists ("ip", vb). split; [|exact Hvb].
    rewrite <- (finish_label parse_number ("ip", vb)) at 1.
    destruct (finish parse_number ("ip", vb)); reflexivity.
  - cbn [columns]. apply Forall_fmap, Forall_forall. intros c Hc. cbn [compose].
    unfold col_fixed. rewrite finish_label, finish_data.
    split; [apply canon_idem|]. split; [|split; [|split]].
    + intros E. rewrite decide_True by exact E.
      destruct (Hports c Hc E) as (ints & -> & _). exists ints. reflexivity.
    + intros [E|E].
      * destruct (decide (canon c.1 = "port")) as [E'|_]; [congruence|].
        rewrite decide_True by exact E.
        rewrite stripv_numeric; apply of_numeric_not_object.
      * destruct (decide (canon c.1 = "port")) as [E'|_]; [congruence|].
        destruct (decide (canon c.1 = "latitude")) as [E'|_]; [congruence|].
        rewrite decide_True by exact E.
        rewrite stripv_numeric; apply of_numeric_not_object.
    + intros cells. apply stripv_object.
    + intros E. rewrite (Hip c Hc E). cbn [fst snd].
      destruct (decide (canon "ip" = "port")) as [E'|_]; [discriminate E'|].
      destruct (decide (canon "ip" = "latitude")) as [E'|_]; [discriminate E'|].
      destruct (decide (canon "ip" = "longitude")) as [E'|_]; [discriminate E'|].
      rewrite Hfix. split; assumption.
Qed.

End established.

(** *** C5 *)

(** C5 (as stated) fails: in a table whose ip column holds the text
    "1.2.3.4" and the int 5 both rows are valid addresses and both survive
    a first cleaning, in which the whitespace strip turns the int into
    NaN; a second cleaning then drops that row. *)
Lemma C5_counterexample :
  exists t1 t2,
    (forall parse_number, clean_dataframe parse_number mixed_ips = Return t1)
    /\ (forall parse_number, clean_dataframe parse_number t1 = Return t2)
    /\ t1.(index) = [0; 1] /\ t2.(index) = [0]
    /\ t1 <> t2.
Proof.
  eexists _, _. split; [intros p; vm_compute; reflexivity|].
  split; [intros p; vm_compute; reflexivity|].
  split; [reflexivity|]. split; [reflexivity|].
  intros H. apply (f_equal (fun df => length df.(index))) in H. discriminate H.
Qed.

(** C5 (amended): on a rectangular raw table, if cleaning returns a table
    that keeps at least one row and whose column labels are distinct, and
    if the valid cells of the raw ['ip'] column are unchanged by the
    whitespace strip, then cleaning the cleaned table returns it
    unchanged. *)
Theorem C5_clean_idempotent (parse_number : string -> option num)
    (t t1 : DataFrame) :
  rectangular t -> ip_cells_stable t ->
  clean_dataframe parse_number t = Return t1 ->
  NoDup (labels t1) -> t1.(index) <> [] ->
  clean_dataframe parse_number t1 = clean_dataframe parse_number t.
Proof.
  intros Hrect Hstable Hclean Hnd Hrows.
  destruct t as [idx [|c cols]].
  - rewrite clean_no_columns in Hclean. injection Hclean as <-. reflexivity.
  - rewrite Hclean. apply cleaned_fixpoint.
    apply (clean_cleaned parse_number _ t1 Hrect Hstable Hclean Hnd Hrows).
    discriminate.
Qed.

(** C5 on the sample table: cleaning its cleaned form changes nothing. *)
Lemma C5_witness :
  clean_dataframe digits_only cleaned_sample = clean_dataframe digits_only raw_sample.
Proof.
  apply (C5_clean_idempotent digits_only raw_sample cleaned_sample).
  - unfold rectangular. cbn [raw_sample columns index].
    repeat constructor.
  - intros cells Hin. cbn [raw_sample columns] in Hin.
    repeat (apply elem_of_cons in Hin as [Heq|Hin];
            [try discriminate Heq; injection Heq as ->|]);
      [|inversion Hin].
    repeat constructor; intros _; vm_compute; reflexivity.
  - vm_compute. reflexivity.
  - apply (bool_decide_unpack _). vm_compute. exact I.
  - discriminate.
Defined.

(** A table with rows and columns but no ['ip'] label is refused. *)
Lemma clean_without_ip (parse_number : string -> option num) (df : DataFrame) :
  has_column "ip" df = false -> empty df = false ->
  clean_dataframe parse_number df = Raise (KeyError "ip").
Proof.
  intros H He. unfold clean_dataframe, drop_duplicates_ip.
  rewrite H, bind_mret, He, (series_missing _ _ _ H). reflexivity.
Qed.

(** C8 at its failing input: a table whose address column is spelled
    ["IP"] is not mapped onto ['ip'] and cleaned; the duplicate drop, which
    runs before the renaming loop, raises [KeyError] on the missing ['ip']
    label.  The same table under the label ['ip'] is cleaned. *)
Theorem C8_alternate_ip_raises :
  (forall parse_number,
     clean_dataframe parse_number upper_ip_table = Raise (KeyError "ip"))
  /\ (forall parse_number,
     clean_dataframe parse_number lower_ip_table = Return lower_ip_table).
Proof. split; intros p; vm_compute; reflexivity. Qed.

(* ================================================================= *)
(** * Further properties of the code

    The rest of the risk engine and of the enrichment, the helpers of
    [utils.py], the validation of an uploaded table, the address check of
    the IP Lookup page, and the two maps. *)

Import text_spec.

(** [lower] is idempotent and keeps a text empty or not. *)
Lemma lower_char_twice (c : ascii) : lower_char (lower_char c) = lower_char c.
Proof. destruct c as [[] [] [] [] [] [] [] []]; reflexivity. Qed.

Lemma lower_twice (s : string) : lower (lower s) = lower s.
Proof.
  induction s as [|c r IH]; [reflexivity|].
  cbn [lower]. rewrite lower_char_twice, IH. reflexivity.
Qed.

Lemma truthy_lower (s : string) : py.truthy_str (lower s) = py.truthy_str s.
Proof. destruct s; reflexivity. Qed.

(* ================================================================= *)
(** * Further properties of the risk engine *)

(** The assessment reads a node through its port, ISP, ASN and country
    only. *)
Lemma firing_of_set_risk (self : RiskEngine) (node : VPNNode)
    (s : float) (l : RiskLevel) (fs : list string) :
  firing_of self (set_risk s l fs node) = firing_of self node.
Proof. destruct node; reflexivity. Qed.

Lemma set_risk_set_risk (node : VPNNode) (s s' : float) (l l' : RiskLevel)
    (fs fs' : list string) :
  set_risk s' l' fs' (set_risk s l fs node) = set_risk s' l' fs' node.
Proof. destruct node; reflexivity. Qed.

(** The sparse-metadata rule needs two of country, ISP and ASN missing; it
    cannot fire together with the ASN rule and a rule on the ISP. *)
Lemma firing_sparse (self : RiskEngine) (node : VPNNode) :
  f_meta (firing_of self node) = true ->
  f_asn (firing_of self node) = true ->
  f_isp (firing_of self node) = false /\ f_vpn (firing_of self node) = false.
Proof.
  unfold firing_of, missing_fields. cbn [f_meta f_asn f_isp f_vpn].
  destruct (asn node) as [a|]; [|discriminate].
  destruct (isp node) as [i|]; [|split; reflexivity].
  cbn [py.truthy_opt].
  destruct (py.truthy_str a); [|discriminate].
  destruct (py.truthy_str i); [|split; reflexivity].
  destruct (py.truthy_opt py.truthy_str (country node)); discriminate.
Qed.


(** Trying the sixteen half-integers in turn. *)
Ltac half_integer k :=
  first [ exists k; split; [lia | vm_compute; reflexivity]
        | let k' := eval vm_compute in (k + 1) in
          lazymatch k' with
          | 16 => fail
          | _ => half_integer k'
          end ].

(** X1: The score [assess_node] stores is one of the sixteen values 0, 0.5,
    1.0, ..., 7.5, whatever the ports, keywords and thresholds of the engine
    are: it never exceeds 7.5. *)
Theorem risk_score_range (self : RiskEngine) (node n' : VPNNode) :
  assess_node self node = py.Return n' ->
  (exists k : Z, 0 <= k <= 15
     /\ n'.(risk_score) = PrimFloat.div (py.float_of_int k) 2)
  /\ PrimFloat.leb 0 n'.(risk_score) = true
  /\ PrimFloat.leb n'.(risk_score) 7.5 = true.
Proof.
  rewrite assess_node_run. intros H.
  destruct (level_of (thresholds self) (fst (run (firing_of self node)))) as [l|e];
    [|discriminate H].
  injection H as <-. cbn [set_risk risk_score].
  pose proof (firing_sparse self node) as Hsparse.
  rewrite run_score_forget.
  destruct (firing_of self node) as [[|p|p] [] [] [] []];
    cbn [f_meta f_asn f_isp f_vpn] in Hsparse;
    try (destruct (Hsparse eq_refl eq_refl) as [H1 H2]; discriminate);
    (split; [half_integer 0 | split; vm_compute; reflexivity]).
Qed.

(** The range on the worked example node. *)
Lemma risk_score_range_witness :
  exists n', assess_node default_engine (example_node "203.0.113.7") = py.Return n'
    /\ PrimFloat.leb n'.(risk_score) 7.5 = true.
Proof.
  eexists. split; [vm_compute; reflexivity|].
  apply (risk_score_range default_engine (example_node "203.0.113.7")).
  vm_compute. reflexivity.
Defined.



(** [level_of] reads the keys ['high'] and ['medium'] only. *)
Lemma level_of_low (t : gmap string float) (x : float) (s : float) :
  level_of (<["low" := x]> t) s = level_of t s
  /\ level_of (delete "low" t) s = level_of t s.
Proof.
  unfold level_of, py.getitem.
  rewrite !lookup_insert_ne by discriminate.
  rewrite !lookup_delete_ne by discriminate.
  split; reflexivity.
Qed.

(** X3: The ['low'] threshold is never consulted: setting it to any value,
    or leaving it out of the thresholds dict, changes no assessment (the Low
    level is decided by [risk_score > 0]). *)
Theorem low_threshold_is_unused (hp mp : gset Z) (kw : list string)
    (t : gmap string float) (x : float) (node : VPNNode) :
  assess_node (mkRiskEngine hp mp kw (<["low" := x]> t)) node
  = assess_node (mkRiskEngine hp mp kw t) node
  /\ assess_node (mkRiskEngine hp mp kw (delete "low" t)) node
     = assess_node (mkRiskEngine hp mp kw t) node.
Proof.
  rewrite !assess_node_run. cbn [thresholds].
  change (firing_of (mkRiskEngine hp mp kw (<["low" := x]> t)) node)
    with (firing_of (mkRiskEngine hp mp kw t) node).
  change (firing_of (mkRiskEngine hp mp kw (delete "low" t)) node)
    with (firing_of (mkRiskEngine hp mp kw t) node).
  destruct (level_of_low t x (fst (run (firing_of (mkRiskEngine hp mp kw t) node))))
    as [-> ->].
  split; reflexivity.
Qed.

(** X4: [RiskEngine.__init__] takes the thresholds dict of the configuration
    as a whole, without completing it from the built-in one. When that dict
    has no ['high'] key every assessment raises [KeyError('high')], alone
    and in a batch; when it has ['high'] but no ['medium'], a node is either
    rated High or its assessment raises [KeyError('medium')]. *)
Theorem partial_thresholds_raise (config : Config) (t : gmap string float)
    (node : VPNNode) :
  config.(cfg_thresholds) = Some t ->
  (t !! "high" = None ->
     assess_node (risk_engine.init config) node = py.Raise (py.KeyError "high")
     /\ forall rest,
          assess_nodes (risk_engine.init config) (node :: rest)
          = py.Raise (py.KeyError "high"))
  /\ (is_Some (t !! "high") -> t !! "medium" = None ->
      assess_node (risk_engine.init config) node = py.Raise (py.KeyError "medium")
      \/ exists n', assess_node (risk_engine.init config) node = py.Return n'
                    /\ n'.(risk_level) = HIGH).
Proof.
  intros Ht.
  assert (Hth : thresholds (risk_engine.init config) = t).
  { unfold risk_engine.init. cbn [thresholds]. rewrite Ht. reflexivity. }
  split.
  - intros Hhigh.
    assert (H : assess_node (risk_engine.init config) node
                = py.Raise (py.KeyError "high")).
    { rewrite assess_node_run, Hth. unfold level_of, py.getitem.
      rewrite Hhigh. reflexivity. }
    split; [exact H|]. intros rest. cbn [assess_nodes]. rewrite H. reflexivity.
  - intros [h Hh] Hmedium. rewrite assess_node_run, Hth.
    unfold level_of, py.getitem. rewrite Hh, Hmedium, bind_Return. cbv beta.
    destruct (py.float_ge (fst (run (firing_of (risk_engine.init config) node))) h).
    + right. eexists. split; reflexivity.
    + left. reflexivity.
Qed.

(** A configuration that overrides the medium threshold alone. *)
Lemma partial_thresholds_raise_witness :
  assess_node
    (risk_engine.init (mkConfig None None None (Some (<["medium" := 5.0%float]> ∅))))
    (example_node "203.0.113.7")
  = py.Raise (py.KeyError "high").
Proof.
  apply (proj1 (partial_thresholds_raise
                  (mkConfig None None None (Some (<["medium" := 5.0%float]> ∅)))
                  (<["medium" := 5.0%float]> ∅) (example_node "203.0.113.7")
                  eq_refl)).
  reflexivity.
Defined.

(** X5: Assessing overwrites the three risk fields and reads none of them:
    the result does not depend on the score, level and factors the node
    carried, and assessing an assessed node again returns it unchanged
    (scores do not accumulate). *)
Theorem assess_node_idempotent (self : RiskEngine) (node : VPNNode) :
  (forall s l fs, assess_node self (set_risk s l fs node) = assess_node self node)
  /\ (forall n', assess_node self node = py.Return n' ->
        assess_node self n' = py.Return n').
Proof.
  assert (H : forall s l fs,
             assess_node self (set_risk s l fs node) = assess_node self node).
  { intros s l fs. rewrite !assess_node_run, firing_of_set_risk.
    destruct (level_of _ _); [|reflexivity].
    cbn. rewrite set_risk_set_risk. reflexivity. }
  split; [exact H|].
  intros n' Hn'. pose proof Hn' as Hn.
  rewrite assess_node_run in Hn.
  destruct (level_of _ _) as [l|e]; [|discriminate Hn].
  injection Hn as <-. rewrite H. exact Hn'.
Qed.

(** Assessing the assessed example node again. *)
Lemma assess_node_idempotent_witness :
  assess_node default_engine
    (set_risk 5.5 MEDIUM
       ["High-risk port (22)"; "Datacenter/hosting provider"; "Insufficient metadata"]
       (example_node "203.0.113.7"))
  = py.Return
      (set_risk 5.5 MEDIUM
         ["High-risk port (22)"; "Datacenter/hosting provider"; "Insufficient metadata"]
         (example_node "203.0.113.7")).
Proof.
  apply (proj2 (assess_node_idempotent default_engine (example_node "203.0.113.7"))).
  vm_compute. reflexivity.
Defined.

(** X6: [assess_nodes] returns one node per input node, in the order of the
    input; each is the assessment of the node at its place and differs from
    it in the three risk fields at most. *)
Theorem assess_nodes_frame (self : RiskEngine) (nodes ns : list VPNNode) :
  assess_nodes self nodes = py.Return ns ->
  Forall2 (fun n n' =>
             assess_node self n = py.Return n'
             /\ n' = set_risk n'.(risk_score) n'.(risk_level) n'.(risk_factors) n)
          nodes ns.
Proof.
  revert ns. induction nodes as [|n nodes IH]; intros ns H.
  - injection H as <-. constructor.
  - cbn [assess_nodes] in H.
    destruct (assess_node self n) as [n'|e] eqn:Hn; [|discriminate H].
    rewrite bind_Return in H.
    destruct (assess_nodes self nodes) as [ns'|e]; [|discriminate H].
    injection H as <-. constructor; [|apply IH; reflexivity].
    split; [exact Hn|].
    rewrite assess_node_run in Hn.
    destruct (level_of _ _) as [l|e]; [|discriminate Hn].
    injection Hn as <-. destruct n; reflexivity.
Qed.

(** The frame on a batch of two nodes. *)
Lemma assess_nodes_frame_witness :
  Forall2 (fun n n' =>
             assess_node default_engine n = py.Return n'
             /\ n' = set_risk n'.(risk_score) n'.(risk_level) n'.(risk_factors) n)
          [example_node "203.0.113.7"; loud_node]
          [ set_risk 5.5 MEDIUM
              ["High-risk port (22)"; "Datacenter/hosting provider";
               "Insufficient metadata"] (example_node "203.0.113.7");
            set_risk 7.5 HIGH
              ["High-risk port (22)"; "Datacenter/hosting provider";
               "Datacenter ASN pattern"; "Known VPN provider"] loud_node ].
Proof.
  apply (assess_nodes_frame default_engine).
  vm_compute. reflexivity.
Defined.

Lemma count_levels_total (nodes : list VPNNode) :
  count_level HIGH nodes + count_level MEDIUM nodes
  + count_level LOW nodes + count_level UNKNOWN nodes
  = Z.of_nat (length nodes)
  /\ 0 <= count_level HIGH nodes /\ 0 <= count_level MEDIUM nodes
  /\ 0 <= count_level LOW nodes /\ 0 <= count_level UNKNOWN nodes.
Proof.
  split; [|unfold count_level; repeat split; lia].
  induction nodes as [|n nodes IH]; [reflexivity|].
  rewrite !count_level_cons. cbn [length].
  destruct (risk_level n);
    repeat match goal with
    | |- context [decide (?a = ?b)] => destruct (decide (a = b)); try discriminate
    end; try congruence; lia.
Qed.

(** X7: [get_statistics] always returns, and the four counts it reports are
    non-negative and add up to the total it reports, which is the number of
    nodes. *)
Theorem statistics_counts_add_up (nodes : list VPNNode) :
  exists (m : gmap string stat) (high medium low unknown : Z),
    get_statistics nodes = py.Return m
    /\ m !! "high_risk" = Some (SInt high)
    /\ m !! "medium_risk" = Some (SInt medium)
    /\ m !! "low_risk" = Some (SInt low)
    /\ m !! "unknown" = Some (SInt unknown)
    /\ m !! "total" = Some (SInt (Z.of_nat (length nodes)))
    /\ high + medium + low + unknown = Z.of_nat (length nodes)
    /\ 0 <= high /\ 0 <= medium /\ 0 <= low /\ 0 <= unknown.
Proof.
  destruct nodes as [|node rest].
  - exists empty_stats, 0, 0, 0, 0. repeat split; reflexivity || lia.
  - set (nodes := node :: rest).
    destruct (count_levels_total nodes) as (Hsum & Hh & Hm & Hl & Hu).
    exists (stats_of nodes), (count_level HIGH nodes), (count_level MEDIUM nodes),
      (count_level LOW nodes), (count_level UNKNOWN nodes).
    split; [|repeat split; try assumption; reflexivity].
    assert (Hpos : 0 < Z.of_nat (length nodes)) by (unfold nodes; simpl length; lia).
    unfold get_statistics.
    destruct (Z.eqb_spec (Z.of_nat (length nodes)) 0) as [H0|_]; [lia|].
    destruct (tally_all_counts nodes risk_counts0 0%float (fun _ => 0) risk_counts0_lookup)
      as (rc' & Hrun & Hrc').
    rewrite Hrun. simpl.
    unfold pct, getcount. rewrite !Hrc'. simpl.
    destruct (Z.ltb_spec 0 (Z.of_nat (length nodes))) as [_|Hle]; [|lia].
    unfold py.float_div_int, py.int_truediv.
    destruct (Z.eqb_spec (Z.of_nat (length nodes)) 0) as [H0|_]; [lia|].
    simpl. reflexivity.
Qed.

(** *** An empty configuration *)

(** X8: An engine built from the empty configuration has no port and no
    keyword to look for: only the "vpn" test on the ISP and the
    sparse-metadata rule can fire, the score is at most 1.5 and no node is
    rated above Low. *)
Theorem empty_config_rates_low (node : VPNNode) :
  exists n',
    assess_node (risk_engine.init empty_config) node = py.Return n'
    /\ (n'.(risk_level) = LOW \/ n'.(risk_level) = UNKNOWN)
    /\ PrimFloat.leb n'.(risk_score) 1.5 = true
    /\ Forall (fun factor => factor = "Known VPN provider"
                            \/ factor = "Insufficient metadata") n'.(risk_factors).
Proof.
  rewrite assess_node_run.
  set (self := risk_engine.init empty_config).
  assert (Hport : f_port (firing_of self node) = PortQuiet).
  { unfold firing_of. cbn [f_port]. destruct (port node) as [p|]; [|reflexivity].
    destruct (py.truthy_int p); [|reflexivity].
    assert (Hno : forall s : gset Z, s = ∅ -> bool_decide (p ∈ s) = false).
    { intros s ->. apply bool_decide_eq_false. apply not_elem_of_empty. }
    rewrite !Hno by reflexivity. reflexivity. }
  assert (Hisp : f_isp (firing_of self node) = false).
  { unfold firing_of. cbn [f_isp]. destruct (isp node); [|reflexivity].
    apply andb_false_r. }
  assert (Hasn : f_asn (firing_of self node) = false).
  { unfold firing_of. cbn [f_asn]. destruct (asn node); [|reflexivity].
    apply andb_false_r. }
  destruct (firing_of self node) as [fp fi fa fv fm].
  cbn [f_port f_isp f_asn] in *. subst fp fi fa.
  destruct fv, fm; eexists; (split; [vm_compute; reflexivity|]);
    cbn [set_risk risk_level risk_score risk_factors];
    (split; [auto|]); (split; [vm_compute; reflexivity|]);
    repeat (constructor; try first [left; reflexivity | right; reflexivity]).
Qed.

(** *** Letter case *)

Lemma set_risk_set_isp (v : option string) (node : VPNNode)
    (s : float) (l : RiskLevel) (fs : list string) :
  set_risk s l fs (set_isp v node) = set_isp v (set_risk s l fs node).
Proof. destruct node; reflexivity. Qed.

Lemma set_risk_set_asn (v : option string) (node : VPNNode)
    (s : float) (l : RiskLevel) (fs : list string) :
  set_risk s l fs (set_asn v node) = set_asn v (set_risk s l fs node).
Proof. destruct node; reflexivity. Qed.

Lemma set_isp_set_isp (v w : option string) (node : VPNNode) :
  set_isp v (set_isp w node) = set_isp v node.
Proof. destruct node; reflexivity. Qed.

Lemma set_asn_set_asn (v w : option string) (node : VPNNode) :
  set_asn v (set_asn w node) = set_asn v node.
Proof. destruct node; reflexivity. Qed.

(** X9: The keyword rules ignore letter case on both sides. The engine keeps
    its keywords in lower case, so a configuration assesses like the one
    with its keywords lower-cased; and two spellings of an ISP, or of an
    ASN, that differ in letter case only get the same score, level and
    factors: the assessments differ in the spelling they carry, and nothing
    else. *)
Theorem keyword_matching_ignores_case (self : RiskEngine) (node : VPNNode)
    (s s' : string) :
  (forall hp mp kw th,
     risk_engine.init (mkConfig hp mp (Some (map lower kw)) th)
     = risk_engine.init (mkConfig hp mp (Some kw) th))
  /\ (lower s = lower s' ->
      assess_node self (set_isp (Some s') node)
      = (n ← assess_node self (set_isp (Some s) node); mret (set_isp (Some s') n)))
  /\ (lower s = lower s' ->
      assess_node self (set_asn (Some s') node)
      = (n ← assess_node self (set_asn (Some s) node); mret (set_asn (Some s') n))).
Proof.
  split; [|split].
  - intros hp mp kw th. unfold risk_engine.init.
    cbn [cfg_high_risk_ports cfg_medium_risk_ports cfg_datacenter_asn_keywords
         cfg_thresholds default from_option id].
    replace (map lower (map lower kw)) with (map lower kw); [reflexivity|].
    rewrite map_map. apply map_ext. intros k. symmetry. apply lower_twice.
  - intros Hcase.
    assert (Ht : py.truthy_str s = py.truthy_str s')
      by (rewrite <- (truthy_lower s), <- (truthy_lower s'), Hcase; reflexivity).
    assert (Hf : firing_of self (set_isp (Some s') node)
                 = firing_of self (set_isp (Some s) node)).
    { destruct node. unfold firing_of, missing_fields, set_isp.
      cbn [port isp asn country py.truthy_opt]. rewrite Hcase, Ht. reflexivity. }
    rewrite !assess_node_run, Hf.
    destruct (level_of _ _); [|reflexivity].
    rewrite bind_Return. cbn [mbind res_bind py.bind mret res_ret].
    rewrite !set_risk_set_isp, set_isp_set_isp. reflexivity.
  - intros Hcase.
    assert (Ht : py.truthy_str s = py.truthy_str s')
      by (rewrite <- (truthy_lower s), <- (truthy_lower s'), Hcase; reflexivity).
    assert (Hf : firing_of self (set_asn (Some s') node)
                 = firing_of self (set_asn (Some s) node)).
    { destruct node. unfold firing_of, missing_fields, set_asn.
      cbn [port isp asn country py.truthy_opt]. rewrite Hcase, Ht. reflexivity. }
    rewrite !assess_node_run, Hf.
    destruct (level_of _ _); [|reflexivity].
    rewrite bind_Return. cbn [mbind res_bind py.bind mret res_ret].
    rewrite !set_risk_set_asn, set_asn_set_asn. reflexivity.
Qed.

(** Two spellings of one ISP. *)
Lemma keyword_matching_ignores_case_witness :
  assess_node default_engine (set_isp (Some "ACME HOSTING") (example_node "203.0.113.7"))
  = (n ← assess_node default_engine
           (set_isp (Some "Acme Hosting") (example_node "203.0.113.7"));
     mret (set_isp (Some "ACME HOSTING") n)).
Proof.
  apply (proj1 (proj2 (keyword_matching_ignores_case default_engine
                         (example_node "203.0.113.7") "Acme Hosting" "ACME HOSTING"))).
  reflexivity.
Defined.

(* ================================================================= *)
(** * Further properties of the enrichment *)

Lemma guess_country_truthy (first_octet : Z) :
  py.truthy_str (guess_country first_octet) = true.
Proof.
  unfold guess_country.
  destruct (first_octet <? 50); [reflexivity|].
  destruct (first_octet <? 100); [reflexivity|].
  destruct (first_octet <? 150); reflexivity.
Qed.

Lemma fallback_unfold (node : VPNNode) :
  _apply_fallback_data node
  = match py.int_of_str (hd "" (py.split "." node.(ip))) with
    | None => node
    | Some first_octet => place_on_map (guess_missing_country first_octet node)
    end.
Proof. reflexivity. Qed.

Lemma guess_missing_country_ip (o : Z) (node : VPNNode) :
  (guess_missing_country o node).(ip) = node.(ip).
Proof. unfold guess_missing_country. destruct (negb _); reflexivity. Qed.

Lemma guess_missing_country_truthy (o : Z) (node : VPNNode) :
  py.truthy_opt py.truthy_str (guess_missing_country o node).(country) = true.
Proof.
  unfold guess_missing_country.
  destruct (py.truthy_opt py.truthy_str (country node)) eqn:Hc; cbn [negb].
  - exact Hc.
  - apply guess_country_truthy.
Qed.

Lemma guess_missing_country_kept (o : Z) (node : VPNNode) :
  py.truthy_opt py.truthy_str node.(country) = true ->
  guess_missing_country o node = node.
Proof. intros H. unfold guess_missing_country. rewrite H. reflexivity. Qed.

Lemma place_on_map_ip (node : VPNNode) : (place_on_map node).(ip) = node.(ip).
Proof. unfold place_on_map. destruct (_ || _); reflexivity. Qed.

Lemma place_on_map_country (node : VPNNode) :
  (place_on_map node).(country) = node.(country).
Proof. unfold place_on_map. destruct (_ || _); reflexivity. Qed.

Lemma set_coordinates_twice (a b : float) (node : VPNNode) :
  set_longitude (Some b) (set_latitude (Some a)
    (set_longitude (Some b) (set_latitude (Some a) node)))
  = set_longitude (Some b) (set_latitude (Some a) node).
Proof. destruct node; reflexivity. Qed.

Lemma place_on_map_twice (node : VPNNode) :
  place_on_map (place_on_map node) = place_on_map node.
Proof.
  unfold place_on_map at 2 3.
  destruct (negb (py.truthy_opt py.truthy_float (latitude node))
            || negb (py.truthy_opt py.truthy_float (longitude node))) eqn:Hl.
  - cbv zeta. set (c := _get_country_coordinates (country node)).
    unfold place_on_map.
    change (country (set_longitude (Some c.2) (set_latitude (Some c.1) node)))
      with (country node).
    fold c. cbv zeta.
    match goal with |- context [if ?b then _ else _] => destruct b end;
      [apply set_coordinates_twice|reflexivity].
  - unfold place_on_map. rewrite Hl. reflexivity.
Qed.

(** The fallback applied twice is the fallback applied once. *)
Lemma fallback_twice (node : VPNNode) :
  _apply_fallback_data (_apply_fallback_data node) = _apply_fallback_data node.
Proof.
  rewrite (fallback_unfold node).
  destruct (py.int_of_str (hd "" (py.split "." (ip node)))) as [o|] eqn:Ho.
  - rewrite fallback_unfold, place_on_map_ip, guess_missing_country_ip, Ho.
    rewrite (guess_missing_country_kept o (place_on_map _)).
    + apply place_on_map_twice.
    + rewrite place_on_map_country. apply guess_missing_country_truthy.
  - rewrite fallback_unfold, Ho. reflexivity.
Qed.

Lemma enrich_offline_twice (node : VPNNode) :
  enrich_offline (enrich_offline node) = enrich_offline node.
Proof.
  unfold enrich_offline. destruct (has_all_fields node) eqn:Hall.
  - rewrite Hall. reflexivity.
  - destruct (has_all_fields (_apply_fallback_data node)); [reflexivity|].
    apply fallback_twice.
Qed.

(** X10: Offline enrichment is idempotent: enriching the result of an
    offline [enrich_nodes] again, offline, changes nothing more, and neither
    pass touches the analyzer. *)
Theorem offline_enrichment_is_idempotent (net : Network) (self : GeoAnalyzer)
    (nodes : list VPNNode) (cap cap' : Z) :
  enrich_nodes net self (fst (enrich_nodes net self nodes false cap)) false cap'
  = enrich_nodes net self nodes false cap.
Proof.
  unfold enrich_nodes. rewrite !enrich_loop_no_api by reflexivity.
  cbn [fst]. f_equal. rewrite map_map. apply map_ext. intros node.
  apply enrich_offline_twice.
Qed.

(** *** What is sent *)

(** What [enrich_node] does to the analyzer: it extends the trace by at
    most two requests, all about the node's address, and counts them. *)
Lemma enrich_node_sends (net : Network) (self : GeoAnalyzer) (node : VPNNode)
    (use_api : bool) :
  exists new,
    (snd (enrich_node net self node use_api)).(sent) = (self.(sent) ++ new)%list
    /\ (snd (enrich_node net self node use_api)).(requests_count)
       = self.(requests_count) + Z.of_nat (length new)
    /\ (snd (enrich_node net self node use_api)).(ipinfo_token) = self.(ipinfo_token)
    /\ (length new <= 2)%nat
    /\ Forall (fun r : request => r.2 = node.(ip)) new
    /\ (self.(ipinfo_token) = "" ->
        Forall (fun r : request => r.1 = FreeAPI) new /\ (length new <= 1)%nat)
    /\ (use_api = false -> new = []).
Proof.
  destruct self as [token count trace].
  unfold enrich_node. cbn [sent requests_count ipinfo_token].
  assert (Hnone : exists new : list request,
            trace = (trace ++ new)%list /\ count = count + Z.of_nat (length new)
            /\ token = token /\ (length new <= 2)%nat
            /\ Forall (fun r : request => r.2 = node.(ip)) new
            /\ (token = "" ->
                Forall (fun r : request => r.1 = FreeAPI) new /\ (length new <= 1)%nat)
            /\ (use_api = false -> new = [])).
  { exists []. rewrite app_nil_r. cbn [length]. repeat split; auto; lia. }
  destruct (has_all_fields node); [exact Hnone|].
  destruct use_api; cbn [negb]; [|exact Hnone].
  unfold api_lookup, lookup_ip_ipinfo, lookup_ip_free_api, http_get,
    _respect_rate_limit.
  cbn [sent requests_count ipinfo_token].
  destruct (py.truthy_str token) eqn:Htok;
    cbn [negb sent requests_count ipinfo_token fst snd].
  - destruct (net trace (IPInfo, ip node)) as [d|];
      cbn [sent requests_count ipinfo_token fst snd].
    + exists [(IPInfo, ip node)]. cbn [length].
      repeat split; try lia;
        try (exfalso; match goal with E : token = _ |- _ =>
                        rewrite E in Htok; discriminate Htok end);
        try discriminate; repeat constructor.
    + match goal with
      | |- context [net ?t (FreeAPI, ?i)] => destruct (net t (FreeAPI, i))
      end;
        cbn [sent requests_count ipinfo_token fst snd];
        (exists [(IPInfo, ip node); (FreeAPI, ip node)];
         rewrite <- app_assoc; cbn [length app];
         repeat split; try lia;
         try (exfalso; match goal with E : token = _ |- _ =>
                         rewrite E in Htok; discriminate Htok end);
         try discriminate; repeat constructor).
  - match goal with
    | |- context [net ?t (FreeAPI, ?i)] => destruct (net t (FreeAPI, i))
    end;
      cbn [sent requests_count ipinfo_token fst snd];
      (exists [(FreeAPI, ip node)]; cbn [length];
       repeat split; try lia; try discriminate; repeat constructor).
Qed.

(** One turn of the loop of [enrich_nodes]. *)
Lemma enrich_loop_cons (net : Network) (self : GeoAnalyzer) (node : VPNNode)
    (rest : list VPNNode) (use_api : bool) (cap made : Z) :
  enrich_loop net self (node :: rest) use_api cap made
  = let should_use_api := use_api && (made <? cap) in
    let r := enrich_node net self node should_use_api in
    let made' :=
      if should_use_api && py.truthy_opt py.truthy_float (fst r).(latitude)
      then made + 1 else made in
    let l := enrich_loop net (snd r) rest use_api cap made' in
    (fst r :: fst (fst l), snd (fst l), snd l).
Proof.
  cbn [enrich_loop]. cbv zeta.
  destruct (enrich_node net self node (use_api && (made <? cap))) as [n' s'].
  cbn [fst snd].
  destruct (enrich_loop net s' rest use_api cap _) as [[ns k] s''].
  reflexivity.
Qed.

Lemma enrich_loop_sends (net : Network) (nodes : list VPNNode) (use_api : bool)
    (cap : Z) :
  forall (self : GeoAnalyzer) (made : Z),
  exists new,
    (snd (enrich_loop net self nodes use_api cap made)).(sent)
    = (self.(sent) ++ new)%list
    /\ (snd (enrich_loop net self nodes use_api cap made)).(requests_count)
       = self.(requests_count) + Z.of_nat (length new)
    /\ (snd (enrich_loop net self nodes use_api cap made)).(ipinfo_token)
       = self.(ipinfo_token)
    /\ (length new <= 2 * length nodes)%nat
    /\ Forall (fun r : request => r.2 ∈ map ip nodes) new
    /\ (self.(ipinfo_token) = "" ->
        Forall (fun r : request => r.1 = FreeAPI) new
        /\ (length new <= length nodes)%nat)
    /\ (use_api = false -> new = []).
Proof.
  induction nodes as [|node rest IH]; intros self made.
  - exists []. cbn [enrich_loop snd length]. rewrite app_nil_r.
    repeat split; auto; lia.
  - rewrite enrich_loop_cons. cbv zeta. cbn [snd].
    set (should := use_api && (made <? cap)).
    destruct (enrich_node_sends net self node should)
      as (new1 & Hs1 & Hc1 & Ht1 & Hl1 & Ha1 & Hf1 & Hoff1).
    set (self1 := snd (enrich_node net self node should)) in *.
    set (made' := if should && _ then made + 1 else made).
    destruct (IH self1 made') as (new2 & Hs2 & Hc2 & Ht2 & Hl2 & Ha2 & Hf2 & Hoff2).
    exists (new1 ++ new2)%list.
    rewrite Hs2, Hc2, Ht2, Hs1, Hc1, Ht1, length_app, <- app_assoc.
    cbn [length map].
    split; [reflexivity|]. split; [lia|]. split; [reflexivity|].
    split; [lia|]. split; [|split].
    + apply Forall_app. split.
      * eapply Forall_impl; [exact Ha1|]. intros r Hr. cbv beta in Hr.
        rewrite Hr. left.
      * eapply Forall_impl; [exact Ha2|]. intros r Hr. right. exact Hr.
    + intros Htok. destruct (Hf1 Htok) as [Hfa Hfl].
      rewrite Ht1 in Hf2. destruct (Hf2 Htok) as [Hfa' Hfl'].
      split; [apply Forall_app; split; assumption|lia].
    + intros Hoff. rewrite (Hoff2 Hoff).
      assert (Hshould : should = false) by (unfold should; rewrite Hoff; reflexivity).
      rewrite (Hoff1 Hshould). reflexivity.
Qed.

(** X11: What [enrich_nodes] sends. The analyzer's trace of requests is only
    extended, and its request counter grows by the number of requests added;
    no more than two requests are added per node, each asks about the
    address of one of the nodes, and the token is left as it was. Without an
    IPInfo token only the free provider is asked, once per node at most;
    with [use_api = False] nothing is sent. *)
Theorem enrich_nodes_requests (net : Network) (self : GeoAnalyzer)
    (nodes : list VPNNode) (use_api : bool) (max_api_calls : Z) :
  exists new,
    (snd (enrich_nodes net self nodes use_api max_api_calls)).(sent)
    = (self.(sent) ++ new)%list
    /\ (snd (enrich_nodes net self nodes use_api max_api_calls)).(requests_count)
       = self.(requests_count) + Z.of_nat (length new)
    /\ (snd (enrich_nodes net self nodes use_api max_api_calls)).(ipinfo_token)
       = self.(ipinfo_token)
    /\ (length new <= 2 * length nodes)%nat
    /\ Forall (fun r : request => r.2 ∈ map ip nodes) new
    /\ (self.(ipinfo_token) = "" ->
        Forall (fun r : request => r.1 = FreeAPI) new
        /\ (length new <= length nodes)%nat)
    /\ (use_api = false -> new = []).
Proof.
  destruct (enrich_loop_sends net nodes use_api max_api_calls self 0) as [new H].
  exists new. unfold enrich_nodes.
  destruct (enrich_loop net self nodes use_api max_api_calls 0) as [[ns k] s].
  exact H.
Qed.

(** *** The budget when lookups succeed *)

(** On a network that always answers with a latitude other than zero, a
    turn of the loop taken with the API on advances the counter, and sends
    one request at most. *)
Lemma enrich_node_located (net : Network) (self : GeoAnalyzer) (node : VPNNode) :
  always_located net ->
  py.truthy_opt py.truthy_float
    (fst (enrich_node net self node true)).(latitude) = true
  /\ (length (snd (enrich_node net self node true)).(sent)
      <= length self.(sent) + 1)%nat.
Proof.
  intros Hnet. destruct self as [token count trace].
  unfold enrich_node. cbn [sent].
  destruct (has_all_fields node) eqn:Hall.
  - cbn [fst snd sent]. split; [|lia].
    unfold has_all_fields in Hall.
    destruct (py.truthy_opt py.truthy_float (latitude node)); [reflexivity|].
    discriminate Hall.
  - cbn [negb].
    unfold api_lookup, lookup_ip_ipinfo, lookup_ip_free_api, http_get,
      _respect_rate_limit.
    cbn [sent requests_count ipinfo_token].
    assert (Hmerge : forall d,
              py.truthy_opt py.truthy_float d.(d_latitude) = true ->
              py.truthy_opt py.truthy_float (latitude (merge_ip_data node d)) = true).
    { intros d Hd. unfold merge_ip_data, py.or_else. cbn [latitude set_isp set_asn
        set_longitude set_latitude set_city set_region set_country].
      destruct (py.truthy_opt py.truthy_float (latitude node)) eqn:Hn; assumption. }
    destruct (py.truthy_str token);
      cbn [negb sent requests_count ipinfo_token fst snd].
    + destruct (Hnet trace (IPInfo, ip node)) as (d & -> & Hd).
      cbn [fst snd sent]. rewrite length_app. cbn [length].
      split; [apply Hmerge, Hd|lia].
    + destruct (Hnet trace (FreeAPI, ip node)) as (d & -> & Hd).
      cbn [fst snd sent]. rewrite length_app. cbn [length].
      split; [apply Hmerge, Hd|lia].
Qed.

Lemma enrich_loop_budget (net : Network) (nodes : list VPNNode) (cap : Z) :
  always_located net ->
  forall (self : GeoAnalyzer) (made : Z),
    Z.of_nat (length (snd (enrich_loop net self nodes true cap made)).(sent))
    <= Z.of_nat (length self.(sent)) + Z.max 0 (cap - made).
Proof.
  intros Hnet. induction nodes as [|node rest IH]; intros self made.
  - cbn [enrich_loop snd]. lia.
  - destruct (Z.ltb_spec made cap) as [Hlt|Hge].
    + rewrite enrich_loop_cons. cbv zeta. cbn [snd andb].
      destruct (Z.ltb_spec made cap) as [_|Hge]; [|lia].
      destruct (enrich_node_located net self node Hnet) as [Hlat Hlen].
      cbn [andb]. rewrite Hlat.
      specialize (IH (snd (enrich_node net self node true)) (made + 1)).
      lia.
    + rewrite enrich_loop_no_api.
      * cbn [snd]. lia.
      * cbn [andb]. apply Z.ltb_ge. exact Hge.
Qed.

(** X12: When every lookup is answered with a latitude other than zero, the
    cap holds: a call of [enrich_nodes] with the API on adds no more than
    [max_api_calls] requests to the trace. *)
Theorem cap_holds_when_lookups_locate (net : Network) (self : GeoAnalyzer)
    (nodes : list VPNNode) (max_api_calls : Z) :
  always_located net -> 0 <= max_api_calls ->
  Z.of_nat (length (snd (enrich_nodes net self nodes true max_api_calls)).(sent))
  <= Z.of_nat (length self.(sent)) + max_api_calls.
Proof.
  intros Hnet Hcap.
  pose proof (enrich_loop_budget net nodes max_api_calls Hnet self 0) as H.
  unfold enrich_nodes.
  destruct (enrich_loop net self nodes true max_api_calls 0) as [[ns k] s].
  cbn [snd] in *. lia.
Qed.

(** The three bare nodes under a cap of one, on a network that answers. *)
Lemma cap_holds_when_lookups_locate_witness :
  Z.of_nat (length (snd (enrich_nodes (net_const answer_de) fresh_analyzer
                           far_nodes true 1)).(sent))
  <= Z.of_nat (length fresh_analyzer.(sent)) + 1.
Proof.
  apply (cap_holds_when_lookups_locate (net_const answer_de) fresh_analyzer far_nodes 1).
  - intros trace r. exists answer_de. split; reflexivity.
  - lia.
Defined.

(** *** The fields enrichment leaves alone *)

Lemma fallback_identity (node : VPNNode) : same_identity node (_apply_fallback_data node).
Proof.
  rewrite fallback_unfold. destruct (py.int_of_str _); [|repeat split].
  unfold place_on_map, guess_missing_country.
  destruct (negb (py.truthy_opt py.truthy_str (country node)));
    match goal with |- context [if ?b then _ else _] => destruct b end;
    repeat split.
Qed.

Lemma merge_identity (node : VPNNode) (d : IpData) :
  same_identity node (merge_ip_data node d).
Proof. repeat split. Qed.

(** X13: [enrich_nodes] returns one node per input node, in the order of the
    input, and each keeps the ip, port, first_seen, last_seen and the three
    risk fields of the node at its place. *)
Theorem enrich_nodes_frame (net : Network) (self : GeoAnalyzer)
    (nodes : list VPNNode) (use_api : bool) (max_api_calls : Z) :
  Forall2 same_identity nodes (fst (enrich_nodes net self nodes use_api max_api_calls)).
Proof.
  assert (H : forall self made,
             Forall2 same_identity nodes
               (fst (fst (enrich_loop net self nodes use_api max_api_calls made)))).
  { induction nodes as [|node rest IH]; intros self' made; [constructor|].
    rewrite enrich_loop_cons. cbv zeta. cbn [fst]. constructor; [|apply IH].
    destruct (enrich_node_cases net self' node (use_api && (made <? max_api_calls)))
      as [[_ ->]|[[_ ->]|(_ & _ & d & _ & ->)]].
    - repeat split.
    - apply fallback_identity.
    - apply merge_identity. }
  specialize (H self 0). unfold enrich_nodes.
  destruct (enrich_loop net self nodes use_api max_api_calls 0) as [[ns k] s].
  exact H.
Qed.

(** *** Nodes that are already complete *)

Lemma enrich_offline_complete (nodes : list VPNNode) :
  Forall (fun n => has_all_fields n = true) nodes -> map enrich_offline nodes = nodes.
Proof.
  induction 1 as [|n nodes Hn _ IH]; [reflexivity|].
  cbn [map]. rewrite IH. unfold enrich_offline. rewrite Hn. reflexivity.
Qed.

Lemma enrich_loop_complete (net : Network) (complete rest : list VPNNode) (cap : Z) :
  Forall (fun n => has_all_fields n = true) complete ->
  forall (self : GeoAnalyzer) (made : Z),
    cap <= made + Z.of_nat (length complete) ->
    exists made',
      enrich_loop net self (complete ++ rest) true cap made
      = ((complete ++ map enrich_offline rest)%list, made', self).
Proof.
  induction 1 as [|n complete Hn Hall IH]; intros self made Hcap.
  - cbn [length] in Hcap. cbn [app]. exists made.
    apply enrich_loop_no_api. cbn [andb]. apply Z.ltb_ge. lia.
  - destruct (Z.ltb_spec made cap) as [Hlt|Hge].
    + cbn [app]. rewrite enrich_loop_cons. cbv zeta. cbn [andb].
      destruct (Z.ltb_spec made cap) as [_|]; [|lia].
      assert (He : enrich_node net self n true = (n, self))
        by (unfold enrich_node; rewrite Hn; reflexivity).
      rewrite He. cbn [fst snd andb].
      assert (Hlat : py.truthy_opt py.truthy_float (latitude n) = true).
      { unfold has_all_fields in Hn.
        destruct (py.truthy_opt py.truthy_float (latitude n)); [reflexivity|].
        discriminate Hn. }
      rewrite Hlat.
      destruct (IH self (made + 1)) as [made' ->]; [cbn [length] in Hcap; lia|].
      exists made'. reflexivity.
    + exists made. rewrite enrich_loop_no_api by (cbn [andb]; apply Z.ltb_ge; lia).
      rewrite map_app, (enrich_offline_complete (n :: complete)); [reflexivity|].
      constructor; assumption.
Qed.

(** X14: The budget of [enrich_nodes] is spent on nodes, not on lookups: a
    node that already has its three geo fields is returned without any
    request and still counts as one API call made. When the list starts with
    at least [max_api_calls] such nodes, nothing is ever sent, and every
    later node is enriched by the offline fallback although the API is on.
    *)
Theorem complete_nodes_use_up_the_budget (net : Network) (self : GeoAnalyzer)
    (complete rest : list VPNNode) (max_api_calls : Z) :
  Forall (fun n => has_all_fields n = true) complete ->
  max_api_calls <= Z.of_nat (length complete) ->
  enrich_nodes net self (complete ++ rest) true max_api_calls
  = ((complete ++ map enrich_offline rest)%list, self).
Proof.
  intros Hall Hcap. unfold enrich_nodes.
  destruct (enrich_loop_complete net complete rest max_api_calls Hall self 0)
    as [made' ->]; [lia|]. reflexivity.
Qed.

(** One located node ahead of the three bare ones, under a cap of one. *)
Lemma complete_nodes_use_up_the_budget_witness :
  enrich_nodes (net_const answer_de) fresh_analyzer ([located] ++ far_nodes) true 1
  = (([located] ++ map enrich_offline far_nodes)%list, fresh_analyzer).
Proof.
  apply (complete_nodes_use_up_the_budget (net_const answer_de) fresh_analyzer
           [located] far_nodes 1).
  - constructor; [vm_compute; reflexivity|constructor].
  - cbn. lia.
Defined.

(** *** The analyzer of the default configuration *)

(** X15: [get_default_config] carries an empty IPInfo token, and an empty
    configuration none: the analyzer built from either has no token and has
    sent nothing. Through such an analyzer [enrich_nodes] only ever asks the
    free provider, about addresses of the given nodes, once per node at
    most, and its request counter ends at the number of requests sent. *)
Theorem default_analyzer_asks_free_provider_only (net : Network)
    (nodes : list VPNNode) (use_api : bool) (max_api_calls : Z) :
  geo_analyzer.init utils.get_default_config = fresh_analyzer
  /\ geo_analyzer.init no_config = fresh_analyzer
  /\ Forall (fun r : request => r.1 = FreeAPI /\ r.2 ∈ map ip nodes)
       (snd (enrich_nodes net fresh_analyzer nodes use_api max_api_calls)).(sent)
  /\ (length (snd (enrich_nodes net fresh_analyzer nodes use_api max_api_calls)).(sent)
      <= length nodes)%nat
  /\ (snd (enrich_nodes net fresh_analyzer nodes use_api max_api_calls)).(requests_count)
     = Z.of_nat
         (length (snd (enrich_nodes net fresh_analyzer nodes use_api max_api_calls)).(sent)).
Proof.
  split; [reflexivity|]. split; [reflexivity|].
  destruct (enrich_loop_sends net nodes use_api max_api_calls fresh_analyzer 0)
    as (new & Hs & Hc & _ & _ & Haddr & Hfree & _).
  destruct (Hfree eq_refl) as [Hf Hlen].
  unfold enrich_nodes.
  destruct (enrich_loop net fresh_analyzer nodes use_api max_api_calls 0) as [[ns k] s].
  cbn [snd] in *. cbn [fresh_analyzer sent requests_count app] in Hs, Hc.
  rewrite Hs, Hc. split; [|split; [exact Hlen|lia]].
  apply Forall_forall. intros r Hr. rewrite Forall_forall in Hf, Haddr.
  split; [apply Hf, Hr|apply Haddr, Hr].
Qed.

(* ================================================================= *)
(** * Addresses and the fallback *)

(** *** Digits, spaces and [int()] *)

Lemma digit_not_space (c : ascii) : utils.is_digit c = true -> is_space c = false.
Proof.
  destruct c as [[] [] [] [] [] [] [] []]; intros H;
    try discriminate H; reflexivity.
Qed.

Lemma digit_value_digit (c : ascii) :
  utils.is_digit c = true -> digit_value c = Some (utils.hex_value c).
Proof.
  destruct c as [[] [] [] [] [] [] [] []]; intros H;
    try discriminate H; reflexivity.
Qed.

Lemma rstrip_visible (s : string) :
  utils.forallb_str (fun c => negb (is_space c)) s = true -> rstrip s = s.
Proof.
  induction s as [|c r IH]; [reflexivity|]. cbn [utils.forallb_str rstrip].
  intros H. apply andb_true_iff in H as [Hc Hr]. rewrite (IH Hr).
  destruct (is_space c); [discriminate Hc|]. destruct r; reflexivity.
Qed.

Lemma forallb_str_impl (p q : ascii -> bool) (s : string) :
  (forall c, p c = true -> q c = true) ->
  utils.forallb_str p s = true -> utils.forallb_str q s = true.
Proof.
  intros Hpq. induction s as [|c r IH]; [reflexivity|]. cbn [utils.forallb_str].
  intros H. apply andb_true_iff in H as [Hc Hr].
  rewrite (Hpq c Hc), (IH Hr). reflexivity.
Qed.

Lemma strip_digits (s : string) :
  utils.forallb_str utils.is_digit s = true -> strip s = s.
Proof.
  intros H. unfold strip.
  assert (Hl : lstrip s = s).
  { destruct s as [|c r]; [reflexivity|]. cbn [utils.forallb_str] in H.
    apply andb_true_iff in H as [Hc _]. cbn [lstrip].
    rewrite (digit_not_space c Hc). reflexivity. }
  rewrite Hl. apply rstrip_visible.
  apply (forallb_str_impl utils.is_digit); [|exact H].
  intros c Hc. rewrite (digit_not_space c Hc). reflexivity.
Qed.

Lemma int_digits_digits (s : string) :
  forall (acc : Z) (after_digit : bool),
    utils.forallb_str utils.is_digit s = true -> s <> "" ->
    int_digits acc after_digit s = Some (utils.number_in_base 10 acc s).
Proof.
  induction s as [|c r IH]; intros acc b H Hne; [contradiction|].
  cbn [utils.forallb_str] in H. apply andb_true_iff in H as [Hc Hr].
  cbn [int_digits utils.number_in_base]. rewrite (digit_value_digit c Hc).
  destruct r as [|c' r'] eqn:Er; [reflexivity|].
  rewrite <- Er in *. apply IH; [exact Hr|]. rewrite Er. discriminate.
Qed.

(** [int()] reads a string of decimal digits as the number it spells. *)
Lemma int_of_str_digits (s : string) :
  utils.forallb_str utils.is_digit s = true -> s <> "" ->
  int_of_str s = Some (utils.number_in_base 10 0 s).
Proof.
  intros H Hne. unfold int_of_str. rewrite (strip_digits s H).
  rewrite <- (int_digits_digits s 0 false H Hne).
  destruct s as [|c r]; [contradiction|].
  cbn [utils.forallb_str] in H. apply andb_true_iff in H as [Hc _].
  destruct c as [[] [] [] [] [] [] [] []]; try discriminate Hc; reflexivity.
Qed.

Lemma number_in_base_digits (s : string) :
  forall acc, 0 <= acc -> utils.forallb_str utils.is_digit s = true ->
    0 <= utils.number_in_base 10 acc s.
Proof.
  induction s as [|c r IH]; intros acc Hacc H; [exact Hacc|].
  cbn [utils.forallb_str] in H. apply andb_true_iff in H as [Hc Hr].
  cbn [utils.number_in_base]. apply IH; [|exact Hr].
  assert (0 <= utils.hex_value c).
  { destruct c as [[] [] [] [] [] [] [] []]; try discriminate Hc; vm_compute; discriminate. }
  lia.
Qed.

(** What [_parse_octet] accepts. *)
Lemma parse_octet_inv (s : string) (v : Z) :
  utils._parse_octet s = Some v ->
  s <> "" /\ utils.forallb_str utils.is_digit s = true
  /\ v = utils.number_in_base 10 0 s /\ 0 <= v <= 255.
Proof.
  unfold utils._parse_octet.
  destruct s as [|c r]; cbn [truthy_str negb]; [discriminate|].
  destruct (utils.forallb_str utils.is_digit (String c r)) eqn:Hd; [|discriminate].
  cbn [negb].
  destruct (3 <? String.length (String c r))%nat; [discriminate|].
  destruct (negb (String c r =? "0")%string && String.prefix "0" (String c r));
    [discriminate|].
  destruct (Z.ltb_spec 255 (utils.number_in_base 10 0 (String c r))) as [|Hle];
    [discriminate|].
  intros H. injection H as <-.
  split; [discriminate|]. split; [reflexivity|]. split; [reflexivity|].
  split; [|exact Hle].
  apply (number_in_base_digits (String c r) 0); [lia|exact Hd].
Qed.

(** What [IPv4Address] accepts: four octets between dots. *)
Lemma IPv4Address_inv (s : string) (n : Z) :
  utils.IPv4Address s = Some n ->
  exists a b c d va vb vc vd,
    split "." s = [a; b; c; d]
    /\ utils._parse_octet a = Some va /\ utils._parse_octet b = Some vb
    /\ utils._parse_octet c = Some vc /\ utils._parse_octet d = Some vd
    /\ n = ((va * 256 + vb) * 256 + vc) * 256 + vd.
Proof.
  unfold utils.IPv4Address, utils.ipv4_int_from_string.
  destruct (contains "/" s); [discriminate|].
  destruct (negb (truthy_str s)); [discriminate|].
  destruct (split "." s) as [|a [|b [|c [|d [|e l]]]]]; try discriminate.
  destruct (utils._parse_octet a) as [va|] eqn:Ha; [|discriminate].
  destruct (utils._parse_octet b) as [vb|] eqn:Hb; [|discriminate].
  destruct (utils._parse_octet c) as [vc|] eqn:Hc; [|discriminate].
  destruct (utils._parse_octet d) as [vd|] eqn:Hd; [|discriminate].
  intros H. injection H as <-.
  exists a, b, c, d, va, vb, vc, vd. repeat split; assumption || reflexivity.
Qed.

(** *** IPv4 addresses are always placed *)

Lemma truthy_is_Some {A} (t : A -> bool) (o : option A) :
  py.truthy_opt t o = true -> is_Some o.
Proof. destruct o; [eexists; reflexivity|discriminate]. Qed.

Lemma place_on_map_placed (node : VPNNode) :
  is_Some (place_on_map node).(latitude) /\ is_Some (place_on_map node).(longitude)
  /\ (py.truthy_opt py.truthy_float node.(latitude) = false
      \/ py.truthy_opt py.truthy_float node.(longitude) = false ->
      (place_on_map node).(latitude)
      = Some (fst (_get_country_coordinates node.(country)))
      /\ (place_on_map node).(longitude)
         = Some (snd (_get_country_coordinates node.(country)))).
Proof.
  unfold place_on_map.
  destruct (py.truthy_opt py.truthy_float (latitude node)) eqn:Hlat;
    [destruct (py.truthy_opt py.truthy_float (longitude node)) eqn:Hlon|];
    cbn [negb orb]; cbv zeta.
  - split; [exact (truthy_is_Some _ _ Hlat)|].
    split; [exact (truthy_is_Some _ _ Hlon)|].
    intros [H|H]; discriminate H.
  - split; [eexists; reflexivity|]. split; [eexists; reflexivity|].
    intros _. split; reflexivity.
  - split; [eexists; reflexivity|]. split; [eexists; reflexivity|].
    intros _. split; reflexivity.
Qed.

(** [int()] reads the text before the first dot of an IPv4 address as its
    top byte. *)
Lemma IPv4_first_octet (s : string) (n : Z) :
  utils.IPv4Address s = Some n ->
  py.int_of_str (hd "" (py.split "." s)) = Some (n / 2 ^ 24)
  /\ 0 <= n / 2 ^ 24 <= 255.
Proof.
  intros H4.
  destruct (IPv4Address_inv _ _ H4)
    as (a & b & c & d & va & vb & vc & vd & Hsplit & Ha & Hb & Hc & Hd & Hn).
  apply parse_octet_inv in Ha as (Hane & Hadig & Hava & Harange).
  apply parse_octet_inv in Hb as (_ & _ & _ & Hbrange).
  apply parse_octet_inv in Hc as (_ & _ & _ & Hcrange).
  apply parse_octet_inv in Hd as (_ & _ & _ & Hdrange).
  assert (Htop : n / 2 ^ 24 = va).
  { subst n. symmetry. apply (Z.div_unique _ _ _ ((vb * 256 + vc) * 256 + vd)); lia. }
  rewrite Htop, Hsplit. cbn [hd]. split; [|exact Harange].
  rewrite Hava. apply int_of_str_digits; assumption.
Qed.

(** X16: For a node whose ip is a valid IPv4 address the fallback always
    runs: the result has a country (the node's own if it had one, else the
    guess from the first octet, the top byte of the address) and both
    coordinates set; when the node lacked a coordinate they are those of the
    table entry of that country. *)
Theorem fallback_places_ipv4 (node : VPNNode) (n : Z) :
  utils.IPv4Address node.(ip) = Some n ->
  py.truthy_opt py.truthy_str (_apply_fallback_data node).(country) = true
  /\ (py.truthy_opt py.truthy_str node.(country) = true ->
      (_apply_fallback_data node).(country) = node.(country))
  /\ (py.truthy_opt py.truthy_str node.(country) = false ->
      (_apply_fallback_data node).(country) = Some (guess_country (n / 2 ^ 24)))
  /\ is_Some (_apply_fallback_data node).(latitude)
  /\ is_Some (_apply_fallback_data node).(longitude)
  /\ (py.truthy_opt py.truthy_float node.(latitude) = false
      \/ py.truthy_opt py.truthy_float node.(longitude) = false ->
      (_apply_fallback_data node).(latitude)
      = Some (fst (_get_country_coordinates (_apply_fallback_data node).(country)))
      /\ (_apply_fallback_data node).(longitude)
         = Some (snd (_get_country_coordinates (_apply_fallback_data node).(country)))).
Proof.
  intros H4. destruct (IPv4_first_octet _ _ H4) as [Hint _].
  rewrite fallback_unfold, Hint.
  set (va := n / 2 ^ 24).
  set (n1 := guess_missing_country va node).
  assert (Hlat1 : latitude n1 = latitude node)
    by (unfold n1, guess_missing_country; destruct (negb _); reflexivity).
  assert (Hlon1 : longitude n1 = longitude node)
    by (unfold n1, guess_missing_country; destruct (negb _); reflexivity).
  destruct (place_on_map_placed n1) as (Hl1 & Hl2 & Hl3).
  rewrite place_on_map_country.
  split; [apply guess_missing_country_truthy|].
  split; [intros Hc; unfold n1; rewrite guess_missing_country_kept by exact Hc;
          reflexivity|].
  split; [intros Hc; unfold n1, guess_missing_country; rewrite Hc; reflexivity|].
  split; [exact Hl1|]. split; [exact Hl2|].
  rewrite <- Hlat1, <- Hlon1. exact Hl3.
Qed.

(** On a bare node at 8.8.8.8. *)
Lemma fallback_places_ipv4_witness :
  py.truthy_opt py.truthy_str
    (_apply_fallback_data (VPNNode_new "8.8.8.8")).(country) = true.
Proof.
  apply (fallback_places_ipv4 (VPNNode_new "8.8.8.8") 134744072).
  vm_compute. reflexivity.
Defined.

(** *** IPv6 addresses are never placed *)

(** The characters of a string. *)
Lemma colon_blocks_digits (s : string) :
  forall (acc : Z) (after_digit : bool),
    In ":"%char (list_ascii_of_string s) -> int_digits acc after_digit s = None.
Proof.
  induction s as [|c r IH]; intros acc b Hin; [destruct Hin|].
  cbn [list_ascii_of_string] in Hin. cbn [int_digits].
  destruct Hin as [->|Hin]; [reflexivity|].
  destruct (digit_value c); [apply IH, Hin|].
  destruct (Ascii.eqb c "_" && b); [|reflexivity].
  destruct r as [|c' r']; [reflexivity|].
  destruct (digit_value c'); [|reflexivity].
  apply IH, Hin.
Qed.

Lemma lstrip_keeps_colon (s : string) :
  In ":"%char (list_ascii_of_string s) ->
  In ":"%char (list_ascii_of_string (lstrip s)).
Proof.
  induction s as [|c r IH]; intros Hin; [destruct Hin|].
  cbn [lstrip]. destruct (is_space c) eqn:Hc; [|exact Hin].
  apply IH. destruct Hin as [->|Hin]; [discriminate Hc|exact Hin].
Qed.

Lemma rstrip_keeps_colon (s : string) :
  In ":"%char (list_ascii_of_string s) ->
  In ":"%char (list_ascii_of_string (rstrip s)).
Proof.
  induction s as [|c r IH]; intros Hin; [destruct Hin|].
  cbn [rstrip]. destruct Hin as [->|Hin].
  - destruct (rstrip r); left; reflexivity.
  - specialize (IH Hin). destruct (rstrip r) as [|c' r']; [destruct IH|].
    right. exact IH.
Qed.

(** [int()] refuses any text that holds a colon. *)
Lemma int_of_str_colon (s : string) :
  In ":"%char (list_ascii_of_string s) -> int_of_str s = None.
Proof.
  intros Hin. apply lstrip_keeps_colon, rstrip_keeps_colon in Hin.
  unfold int_of_str. fold (strip s) in Hin.
  destruct (strip s) as [|c r]; [destruct Hin|].
  destruct Hin as [->|Hin]; [reflexivity|].
  pose proof (colon_blocks_digits r 0 false Hin) as Hr.
  pose proof (colon_blocks_digits (String c r) 0 false (or_intror Hin)) as Hcr.
  destruct c as [[] [] [] [] [] [] [] []]; try exact Hcr; rewrite Hr; reflexivity.
Qed.

(** The text before a separator that [split] found. *)
Lemma split_head (sep : ascii) (s p q : string) (l : list string) :
  split sep s = p :: q :: l -> exists rest, s = p ++ String sep rest.
Proof.
  revert p q l. induction s as [|c r IH]; intros p q l H; [discriminate H|].
  cbn [split] in H. destruct (Ascii.eqb_spec c sep) as [->|Hne].
  - injection H as <- _. exists r. reflexivity.
  - destruct (split sep r) as [|p' ps] eqn:Hs; [discriminate H|].
    injection H as <- ->.
    destruct (IH p' q l eq_refl) as [rest ->]. exists rest. reflexivity.
Qed.

Lemma partition_percent_prefix (s : string) :
  exists tail, s = fst (utils.partition_percent s) ++ tail.
Proof.
  induction s as [|c r IH]; [exists ""; reflexivity|].
  cbn [utils.partition_percent]. destruct (Ascii.eqb c "%").
  - exists (String c r). reflexivity.
  - destruct (utils.partition_percent r) as [a b]. cbn [fst] in *.
    destruct IH as [tail IH]. exists tail.
    change (String c r = String c (a ++ tail)). f_equal. exact IH.
Qed.

Lemma find_skip_from (inner : list utils.part) :
  forall (i k : nat),
    utils.find_skip i inner None = Some (Some k) -> (i <= k)%nat.
Proof.
  assert (Hsome : forall inner i j k,
            utils.find_skip i inner (Some j) = Some (Some k) -> k = j).
  { clear. induction inner as [|p r IH]; intros i j k H.
    - injection H as <-. reflexivity.
    - cbn [utils.find_skip] in H. destruct (utils.part_empty p); [discriminate H|].
      apply (IH _ _ _ H). }
  induction inner as [|p r IH]; intros i k H; [discriminate H|].
  cbn [utils.find_skip] in H. destruct (utils.part_empty p).
  - apply Hsome in H. lia.
  - apply IH in H. lia.
Qed.

Lemma parse_hextet_hex (s : string) (v : Z) :
  utils._parse_hextet s = Some v -> utils.forallb_str utils.is_hex_digit s = true.
Proof.
  unfold utils._parse_hextet.
  destruct (utils.forallb_str utils.is_hex_digit s); [reflexivity|discriminate].
Qed.

Lemma shift_in_head (p : utils.part) (r : list utils.part) (acc v : Z) :
  utils.shift_in acc (p :: r) = Some v -> is_Some (utils.part_value p).
Proof.
  cbn [utils.shift_in]. destruct (utils.part_value p); [eexists; reflexivity|discriminate].
Qed.

(** The text before the first colon of an IPv6 literal is made of
    hexadecimal digits (or empty): it is always parsed as a hextet. *)
Lemma ipv6_first_part (addr : string) (n : Z) :
  utils.ipv6_int_from_string addr = Some n ->
  exists q0 rest,
    addr = q0 ++ String ":" rest
    /\ utils.forallb_str utils.is_hex_digit q0 = true.
Proof.
  unfold utils.ipv6_int_from_string.
  destruct (negb (truthy_str addr)); [discriminate|].
  destruct (split ":" addr) as [|q0 [|q1 [|q2 qs]]] eqn:Hsplit; try discriminate.
  destruct (split_head _ _ _ _ _ Hsplit) as [rest Haddr].
  intros H. exists q0, rest. split; [exact Haddr|].
  destruct q0 as [|c0 r0]; [reflexivity|].
  destruct (length (String c0 r0 :: q1 :: q2 :: qs) <? 3)%nat; [discriminate H|].
  match type of H with
  | (?X ≫= _) = _ => destruct X as [parts|] eqn:HX; [|discriminate H]
  end.
  cbn [mbind option_bind] in H.
  assert (HT : exists T, parts = utils.Text (String c0 r0) :: T).
  { destruct (contains "." _) in HX.
    - destruct (utils.IPv4Address _) in HX; [|discriminate HX].
      cbn [mbind option_bind] in HX. injection HX as <-.
      eexists. cbn [removelast map app]. reflexivity.
    - injection HX as <-. eexists. reflexivity. }
  destruct HT as [T ->]. clear HX.
  destruct (9 <? _)%nat; [discriminate H|].
  destruct (utils.find_skip 1 _ None) as [skip|] eqn:Hskip; [|discriminate H].
  cbn [mbind option_bind hd utils.part_empty truthy_str negb] in H.
  destruct skip as [k|].
  - cbn [mbind option_bind] in H.
    match type of H with
    | (?X ≫= _) = _ => destruct X as [lo|]; [|discriminate H]
    end.
    cbn [mbind option_bind] in H.
    destruct (_ <? 1); [discriminate H|].
    match type of H with
    | (?X ≫= _) = _ => destruct X as [hi|] eqn:Hhi; [|discriminate H]
    end.
    apply find_skip_from in Hskip. rewrite Nat2Z.id in Hhi.
    destruct k as [|k']; [lia|]. cbn [firstn] in Hhi.
    apply shift_in_head in Hhi as [v Hv]. cbn [utils.part_value] in Hv.
    apply (parse_hextet_hex _ _ Hv).
  - destruct (negb _); [discriminate H|].
    destruct (utils.part_empty _); [discriminate H|].
    apply shift_in_head in H as [v Hv]. cbn [utils.part_value] in Hv.
    apply (parse_hextet_hex _ _ Hv).
Qed.

Lemma hex_not_dot (c : ascii) : utils.is_hex_digit c = true -> Ascii.eqb c "." = false.
Proof.
  destruct c as [[] [] [] [] [] [] [] []]; intros H;
    try discriminate H; reflexivity.
Qed.

(** When hexadecimal digits and then a colon open a text, the colon lies
    before its first dot. *)
Lemma colon_before_dot (q0 rest : string) :
  utils.forallb_str utils.is_hex_digit q0 = true ->
  In ":"%char (list_ascii_of_string (hd "" (split "." (q0 ++ String ":" rest)))).
Proof.
  induction q0 as [|c r IH]; intros H.
  - change ("" ++ String ":" rest) with (String ":" rest). cbn [split].
    change (Ascii.eqb ":" ".") with false. cbv iota.
    destruct (split "." rest); left; reflexivity.
  - cbn [utils.forallb_str] in H. apply andb_true_iff in H as [Hc Hr].
    specialize (IH Hr).
    change (String c r ++ String ":" rest) with (String c (r ++ String ":" rest)).
    cbn [split]. rewrite (hex_not_dot c Hc).
    destruct (split "." (r ++ String ":" rest)) as [|p ps]; [destruct IH|].
    right. exact IH.
Qed.

Lemma string_app_assoc (a b c : string) : (a ++ b) ++ c = a ++ (b ++ c).
Proof.
  induction a as [|x a IH]; [reflexivity|].
  change (String x ((a ++ b) ++ c) = String x (a ++ (b ++ c))).
  f_equal. exact IH.
Qed.

Lemma IPv6_first_piece (s : string) (n : Z) :
  utils.IPv6Address s = Some n ->
  py.int_of_str (hd "" (py.split "." s)) = None.
Proof.
  unfold utils.IPv6Address, utils._split_scope_id.
  destruct (contains "/" s); [discriminate|].
  destruct (partition_percent_prefix s) as [tail Hs].
  destruct (utils.partition_percent s) as [addr scope]. cbn [fst] in Hs.
  intros H.
  assert (H6 : utils.ipv6_int_from_string addr = Some n).
  { destruct scope as [scope_id|]; [|exact H].
    destruct (negb (truthy_str scope_id) || contains "%" scope_id);
      [discriminate H|exact H]. }
  destruct (ipv6_first_part addr n H6) as (q0 & rest & -> & Hhex).
  apply int_of_str_colon. rewrite Hs.
  rewrite (string_app_assoc q0 (String ":" rest) tail).
  change (String ":" rest ++ tail) with (String ":" (rest ++ tail)).
  apply colon_before_dot, Hhex.
Qed.

(** X17: A node whose ip is a valid IPv6 address is never placed by the
    fallback: [int()] refuses the text before the first dot, the exception
    is swallowed, and the node comes back as it was, coordinates missing or
    not; offline enrichment therefore returns it untouched. *)
Theorem fallback_skips_ipv6 (node : VPNNode) (n : Z) :
  utils.IPv6Address node.(ip) = Some n ->
  _apply_fallback_data node = node
  /\ forall (net : Network) (self : GeoAnalyzer),
       enrich_node net self node false = (node, self).
Proof.
  intros H6.
  assert (H : _apply_fallback_data node = node).
  { rewrite fallback_unfold, (IPv6_first_piece _ _ H6). reflexivity. }
  split; [exact H|]. intros net self. unfold enrich_node.
  destruct (has_all_fields node); [reflexivity|]. cbn [negb]. rewrite H. reflexivity.
Qed.

(** On a bare node at an IPv4-mapped IPv6 address. *)
Lemma fallback_skips_ipv6_witness :
  _apply_fallback_data (VPNNode_new "::ffff:1.2.3.4") = VPNNode_new "::ffff:1.2.3.4".
Proof.
  apply (fallback_skips_ipv6 (VPNNode_new "::ffff:1.2.3.4") 281470698652420).
  vm_compute. reflexivity.
Defined.

(** *** Which addresses the fallback can complete *)

(** X18: A node with a valid IPv4 address that lacks its country and one of
    its coordinates comes out of the fallback with all three fields exactly
    when the first byte of its address is below 150: from 150 on the guessed
    country is "Unknown", which the table of coordinates does not know, and
    the node is placed at (0, 0), which counts as missing. *)
Theorem fallback_completes_below_150 (node : VPNNode) (n : Z) :
  utils.IPv4Address node.(ip) = Some n ->
  py.truthy_opt py.truthy_str node.(country) = false ->
  py.truthy_opt py.truthy_float node.(latitude) = false
  \/ py.truthy_opt py.truthy_float node.(longitude) = false ->
  has_all_fields (_apply_fallback_data node) = (n / 2 ^ 24 <? 150)
  /\ (150 <= n / 2 ^ 24 ->
      (_apply_fallback_data node).(country) = Some "Unknown"
      /\ (_apply_fallback_data node).(latitude) = Some 0%float
      /\ (_apply_fallback_data node).(longitude) = Some 0%float).
Proof.
  intros H4 Hc Hl. destruct (IPv4_first_octet _ _ H4) as [Hint _].
  rewrite fallback_unfold, Hint. set (o := n / 2 ^ 24).
  assert (Hcond : negb (py.truthy_opt py.truthy_float (latitude node))
                  || negb (py.truthy_opt py.truthy_float (longitude node)) = true).
  { destruct Hl as [-> | ->]; [reflexivity|apply orb_true_r]. }
  unfold place_on_map, guess_missing_country. rewrite Hc. cbn [negb].
  destruct node as [ip0 port0 country0 region0 city0 asn0 isp0 fs0 ls0 lat0 lon0 sc0 lv0 fa0].
  cbn [set_country latitude longitude country ip port region city asn isp
       first_seen last_seen risk_score risk_level risk_factors] in *.
  rewrite Hcond. cbv zeta.
  unfold has_all_fields, set_longitude, set_latitude.
  cbn [latitude longitude country ip port region city asn isp
       first_seen last_seen risk_score risk_level risk_factors].
  unfold guess_country.
  destruct (Z.ltb_spec o 50); [destruct (Z.ltb_spec o 150); [|lia]; split; [vm_compute; reflexivity|lia]|].
  destruct (Z.ltb_spec o 100); [destruct (Z.ltb_spec o 150); [|lia]; split; [vm_compute; reflexivity|lia]|].
  destruct (Z.ltb_spec o 150); (split; [vm_compute; reflexivity|]); [lia|].
  intros _. repeat split; vm_compute; reflexivity.
Qed.

(** Bare nodes on either side of the line. *)
Lemma fallback_completes_below_150_witness :
  has_all_fields (_apply_fallback_data (VPNNode_new "149.0.0.1")) = (2499805185 / 2 ^ 24 <? 150)
  /\ (150 <= 2499805185 / 2 ^ 24 ->
      (_apply_fallback_data (VPNNode_new "149.0.0.1")).(country) = Some "Unknown"
      /\ (_apply_fallback_data (VPNNode_new "149.0.0.1")).(latitude) = Some 0%float
      /\ (_apply_fallback_data (VPNNode_new "149.0.0.1")).(longitude) = Some 0%float).
Proof.
  apply (fallback_completes_below_150 (VPNNode_new "149.0.0.1") 2499805185).
  - vm_compute. reflexivity.
  - reflexivity.
  - left. reflexivity.
Defined.

(* ================================================================= *)
(** * The helpers of [utils.py] *)

(** *** [format_number] *)

Lemma string_of_uint_digits (d : Decimal.uint) :
  utils.forallb_str utils.is_digit (NilEmpty.string_of_uint d) = true.
Proof. induction d; cbn [NilEmpty.string_of_uint utils.forallb_str]; auto. Qed.

Lemma string_of_uint_pos (p : positive) :
  NilEmpty.string_of_uint (Pos.to_uint p) <> "".
Proof.
  pose proof (Unsigned.to_uint_nonnil p) as Hp.
  destruct (Pos.to_uint p); [contradiction|..]; discriminate.
Qed.

(** The decimal digits of a number that is not negative. *)
Lemma str_of_int_digits (n : Z) :
  0 <= n ->
  utils.forallb_str utils.is_digit (py.str_of_int n) = true
  /\ py.str_of_int n <> "".
Proof.
  intros Hn. unfold py.str_of_int.
  destruct n as [|p|p]; [split; [reflexivity|discriminate]| |lia].
  cbn [Z.to_int NilEmpty.string_of_int].
  split; [apply string_of_uint_digits|apply string_of_uint_pos].
Qed.

Lemma str_of_int_negative (n : Z) :
  n < 0 -> py.str_of_int n = String "-" (py.str_of_int (- n)).
Proof. intros Hn. destruct n as [|p|p]; [lia|lia|reflexivity]. Qed.

Lemma digit_not_comma (c : ascii) : utils.is_digit c = true -> Ascii.eqb c "," = false.
Proof.
  destruct c as [[] [] [] [] [] [] [] []]; intros H;
    try discriminate H; reflexivity.
Qed.

Lemma without_commas_group (s : string) :
  utils.forallb_str utils.is_digit s = true ->
  without_commas (utils.group_thousands s) = s.
Proof.
  induction s as [|c r IH]; [reflexivity|]. cbn [utils.forallb_str].
  intros H. apply andb_true_iff in H as [Hc Hr].
  cbn [utils.group_thousands]. cbv zeta.
  destruct ((0 <? String.length r)%nat && (String.length r mod 3 =? 0)%nat);
    cbn [without_commas]; rewrite (digit_not_comma c Hc);
    change (Ascii.eqb "," ",") with true; cbv iota;
    rewrite (IH Hr); reflexivity.
Qed.

(** X19: [format_number] only inserts commas: with the commas taken out, its
    result is [str(num)], sign included. *)
Theorem format_number_keeps_digits (num : Z) :
  without_commas (utils.format_number num) = py.str_of_int num.
Proof.
  unfold utils.format_number.
  destruct (Z.ltb_spec num 0) as [Hneg|Hpos].
  - rewrite (str_of_int_negative num Hneg). cbn [without_commas].
    change (Ascii.eqb "-" ",") with false. cbv iota. f_equal.
    apply without_commas_group, str_of_int_digits. lia.
  - apply without_commas_group, str_of_int_digits. exact Hpos.
Qed.

Lemma mod3_step (n : nat) :
  (0 < n)%nat ->
  ((n - 1) mod 3 + 1 = if (n mod 3 =? 0)%nat then 3 else n mod 3)%nat.
Proof.
  intros Hn.
  pose proof (Nat.div_mod_eq n 3). pose proof (Nat.mod_upper_bound n 3).
  pose proof (Nat.div_mod_eq (n - 1) 3). pose proof (Nat.mod_upper_bound (n - 1) 3).
  destruct (Nat.eqb_spec (n mod 3) 0); lia.
Qed.

(** The pieces of a grouped string of digits: the first has the length
    that is left over, one to three digits, and the others have three. *)
Lemma group_thousands_pieces (s : string) :
  utils.forallb_str utils.is_digit s = true -> s <> "" ->
  exists g gs,
    py.split "," (utils.group_thousands s) = g :: gs
    /\ String.length g = ((String.length s - 1) mod 3 + 1)%nat
    /\ utils.forallb_str utils.is_digit g = true
    /\ Forall (fun x => String.length x = 3%nat
                        /\ utils.forallb_str utils.is_digit x = true) gs.
Proof.
  induction s as [|c r IH]; intros H Hne; [contradiction|].
  cbn [utils.forallb_str] in H. apply andb_true_iff in H as [Hc Hr].
  replace (String.length (String c r) - 1)%nat with (String.length r)
    by (cbn [String.length]; lia).
  cbn [utils.group_thousands]. cbv zeta.
  destruct r as [|c' r'] eqn:Er.
  - cbn [String.length Nat.ltb Nat.leb andb utils.group_thousands py.split].
    rewrite (digit_not_comma c Hc). cbn [py.split].
    exists (String c ""), []. cbn [String.length utils.forallb_str].
    rewrite Hc. repeat split; constructor.
  - rewrite <- Er in *.
    assert (Hr0 : r <> "") by (rewrite Er; discriminate).
    assert (Hlen : (0 < String.length r)%nat) by (rewrite Er; cbn [String.length]; lia).
    destruct (IH Hr Hr0) as (g & gs & Hsplit & Hg & Hgd & Hgs).
    rewrite (mod3_step _ Hlen) in Hg.
    destruct (Nat.ltb_spec 0 (String.length r)) as [_|Hle]; [|lia].
    cbn [andb].
    pose proof (Nat.mod_upper_bound (String.length r) 3) as Hup.
    destruct (Nat.eqb_spec (String.length r mod 3) 0) as [Hmod|Hmod].
    + cbn [py.split]. rewrite (digit_not_comma c Hc).
      change (Ascii.eqb "," ",") with true. cbv iota. rewrite Hsplit.
      exists (String c ""), (g :: gs). cbn [String.length utils.forallb_str].
      rewrite Hc, Hmod. split; [reflexivity|]. split; [reflexivity|].
      split; [reflexivity|]. constructor; [|exact Hgs].
      split; [exact Hg|exact Hgd].
    + cbn [py.split]. rewrite (digit_not_comma c Hc), Hsplit.
      exists (String c g), gs. cbn [String.length utils.forallb_str].
      rewrite Hc, Hgd, Hg. split; [reflexivity|].
      split; [lia|split; [reflexivity|exact Hgs]].
Qed.

(** X20: [format_number] groups by thousands: between the commas of its
    result stand groups of exactly three digits, after a first group of one
    to three digits that carries the sign. *)
Theorem format_number_groups (num : Z) :
  exists g gs,
    py.split "," (utils.format_number num) = (sign_of num ++ g) :: gs
    /\ (1 <= String.length g <= 3)%nat
    /\ utils.forallb_str utils.is_digit g = true
    /\ Forall (fun x => String.length x = 3%nat
                        /\ utils.forallb_str utils.is_digit x = true) gs.
Proof.
  unfold utils.format_number, sign_of.
  destruct (Z.ltb_spec num 0) as [Hneg|Hpos].
  - destruct (str_of_int_digits (- num)) as [Hd Hne]; [lia|].
    destruct (group_thousands_pieces _ Hd Hne) as (g & gs & Hsplit & Hg & Hgd & Hgs).
    exists g, gs. cbn [py.split]. change (Ascii.eqb "-" ",") with false. cbv iota.
    rewrite Hsplit. split; [reflexivity|]. split; [|split; assumption].
    pose proof (Nat.mod_upper_bound (String.length (py.str_of_int (- num)) - 1) 3).
    lia.
  - destruct (str_of_int_digits num Hpos) as [Hd Hne].
    destruct (group_thousands_pieces _ Hd Hne) as (g & gs & Hsplit & Hg & Hgd & Hgs).
    exists g, gs. split; [exact Hsplit|]. split; [|split; assumption].
    pose proof (Nat.mod_upper_bound (String.length (py.str_of_int num) - 1) 3).
    lia.
Qed.

(** *** [truncate_text] *)

Lemma length_string_app (a b : string) :
  String.length (a ++ b) = (String.length a + String.length b)%nat.
Proof.
  induction a as [|c a IH]; [reflexivity|].
  change (S (String.length (a ++ b)) = S (String.length a + String.length b)).
  f_equal. exact IH.
Qed.

Lemma length_prefix (k : nat) (s : string) :
  String.length (String.substring 0 k s) = Nat.min k (String.length s).
Proof.
  revert k. induction s as [|c r IH]; intros [|k]; try reflexivity.
  cbn [String.substring String.length Nat.min]. f_equal. apply IH.
Qed.

Lemma length_slice_to (stop : Z) (text : string) :
  Z.of_nat (String.length (utils.slice_to stop text))
  = if stop <? 0 then Z.max 0 (Z.of_nat (String.length text) + stop)
    else Z.min stop (Z.of_nat (String.length text)).
Proof.
  unfold utils.slice_to. rewrite length_prefix.
  destruct (Z.ltb_spec stop 0); lia.
Qed.

(** X21: With room for the ellipsis, [truncate_text] keeps its promise: for
    [max_length >= 3] the result is never longer than [max_length]; it is
    the text itself when that fits, and otherwise the first [max_length - 3]
    characters followed by three dots, [max_length] characters in all. *)
Theorem truncate_text_fits (text : string) (max_length : Z) :
  3 <= max_length ->
  Z.of_nat (String.length (utils.truncate_text text max_length)) <= max_length
  /\ (Z.of_nat (String.length text) <= max_length ->
      utils.truncate_text text max_length = text)
  /\ (max_length < Z.of_nat (String.length text) ->
      utils.truncate_text text max_length
      = String.substring 0 (Z.to_nat (max_length - 3)) text ++ "..."
      /\ Z.of_nat (String.length (utils.truncate_text text max_length)) = max_length).
Proof.
  intros Hmax. unfold utils.truncate_text.
  destruct text as [|c r]; cbn [py.truthy_str negb].
  - cbn [String.length]. split; [lia|]. split; [reflexivity|]. lia.
  - set (text := String c r).
    destruct (Z.leb_spec (Z.of_nat (String.length text)) max_length) as [Hfit|Hlong].
    + split; [exact Hfit|]. split; [reflexivity|]. lia.
    + assert (Hlen : Z.of_nat (String.length (utils.slice_to (max_length - 3) text ++ "..."))
                     = max_length).
      { rewrite length_string_app, Nat2Z.inj_add, length_slice_to.
        destruct (Z.ltb_spec (max_length - 3) 0); cbn [String.length]; lia. }
      split; [lia|]. split; [lia|]. intros _. split; [|exact Hlen].
      unfold utils.slice_to.
      destruct (Z.ltb_spec (max_length - 3) 0); [lia|].
      rewrite Z.min_l by lia. reflexivity.
Qed.

(** A text of eleven characters cut to ten. *)
Lemma truncate_text_fits_witness :
  Z.of_nat (String.length (utils.truncate_text "hello world" 10)) <= 10.
Proof. apply (truncate_text_fits "hello world" 10). lia. Defined.

(** X22: Without room for the ellipsis the promise is broken: for
    [max_length < 3] every text longer than [max_length] comes back longer
    than [max_length] (a text that is not empty comes back with its three
    dots); when [max_length] is 0, 1 or 2 the slice [text[:max_length-3]]
    counts from the end, and the result is the text without its last [3 -
    max_length] characters followed by the three dots, which is longer than
    the text itself whenever [0 < max_length]. *)
Theorem truncate_text_overflows (text : string) (max_length : Z) :
  max_length < 3 -> max_length < Z.of_nat (String.length text) ->
  max_length < Z.of_nat (String.length (utils.truncate_text text max_length))
  /\ (text <> "" ->
      Z.of_nat (String.length (utils.truncate_text text max_length))
      = Z.max 0 (Z.of_nat (String.length text) + max_length - 3) + 3)
  /\ (0 <= max_length ->
      utils.truncate_text text max_length
      = String.substring 0 (String.length text - Z.to_nat (3 - max_length)) text
        ++ "...").
Proof.
  intros Hmax Hlong. unfold utils.truncate_text.
  destruct text as [|c r]; cbn [py.truthy_str negb].
  - cbn [String.length] in *. split; [lia|]. split; [contradiction|lia].
  - set (text := String c r) in *.
    destruct (Z.leb_spec (Z.of_nat (String.length text)) max_length) as [Hfit|_];
      [lia|].
    assert (Hlen : Z.of_nat (String.length (utils.slice_to (max_length - 3) text ++ "..."))
                   = Z.max 0 (Z.of_nat (String.length text) + max_length - 3) + 3).
    { rewrite length_string_app, Nat2Z.inj_add, length_slice_to.
      destruct (Z.ltb_spec (max_length - 3) 0); cbn [String.length]; lia. }
    split; [lia|]. split; [intros _; exact Hlen|]. intros H0.
    unfold utils.slice_to.
    destruct (Z.ltb_spec (max_length - 3) 0); [|lia].
    f_equal. f_equal. lia.
Qed.

(** "abc" cut to two characters is "ab...". *)
Lemma truncate_text_overflows_witness :
  2 < Z.of_nat (String.length (utils.truncate_text "abc" 2)).
Proof. apply (truncate_text_overflows "abc" 2); cbn; lia. Defined.

(** *** [get_risk_color] *)

(** X23: [get_risk_color] gives each of the four level names its own colour:
    the value of the level's key in the colours of the configuration, or the
    built-in colour of that level when the key (or the whole colour section)
    is missing; no level name is caught by the substring test of another
    level. The built-in colours are those of [get_default_config], so the
    default configuration and an empty one colour every text alike; and the
    letter case of the text does not matter. *)
Theorem risk_colors (config : utils.AppConfig) (text : string) :
  (forall l : RiskLevel,
     utils.get_risk_color (RiskLevel_value l) config
     = default (builtin_color l) (colors_of config !! color_key l))
  /\ (forall l : RiskLevel,
        utils.get_risk_color (RiskLevel_value l) utils.get_default_config
        = builtin_color l)
  /\ utils.get_risk_color text utils.get_default_config
     = utils.get_risk_color text no_config
  /\ utils.get_risk_color (lower text) config = utils.get_risk_color text config.
Proof.
  split; [intros []; reflexivity|].
  split; [intros []; reflexivity|].
  split.
  - unfold utils.get_risk_color.
    destruct (contains "high" (lower text)); [reflexivity|].
    destruct (contains "medium" (lower text)); [reflexivity|].
    destruct (contains "low" (lower text)); reflexivity.
  - unfold utils.get_risk_color. rewrite lower_twice. reflexivity.
Qed.

(** *** [validate_ip] *)

(** Every number from 0 to 255, printed by [str], is an octet
    [_parse_octet] reads back. *)
Lemma octets_print_and_parse (a : Z) :
  0 <= a <= 255 ->
  utils._parse_octet (py.str_of_int a) = Some a
  /\ utils.forallb_str utils.is_digit (py.str_of_int a) = true.
Proof.
  intros Ha.
  assert (Hall : forallb (fun n : nat =>
                    match utils._parse_octet (py.str_of_int (Z.of_nat n)) with
                    | Some v => v =? Z.of_nat n
                    | None => false
                    end) (seq 0 256) = true) by (vm_compute; reflexivity).
  rewrite forallb_forall in Hall.
  specialize (Hall (Z.to_nat a)). rewrite Z2Nat.id in Hall by lia.
  split; [|apply str_of_int_digits; lia].
  destruct (utils._parse_octet (py.str_of_int a)) as [v|].
  - f_equal. apply Z.eqb_eq, Hall, in_seq. lia.
  - assert (false = true) as H; [|discriminate H].
    apply Hall, in_seq. lia.
Qed.

Lemma digit_not_dot (c : ascii) : utils.is_digit c = true -> Ascii.eqb c "." = false.
Proof.
  destruct c as [[] [] [] [] [] [] [] []]; intros H;
    try discriminate H; reflexivity.
Qed.

Lemma split_digits (x : string) :
  utils.forallb_str utils.is_digit x = true -> split "." x = [x].
Proof.
  induction x as [|c r IH]; [reflexivity|]. cbn [utils.forallb_str].
  intros H. apply andb_true_iff in H as [Hc Hr].
  cbn [split]. rewrite (digit_not_dot c Hc), (IH Hr). reflexivity.
Qed.

Lemma split_digits_dot (x rest : string) :
  utils.forallb_str utils.is_digit x = true ->
  split "." (x ++ String "." rest) = x :: split "." rest.
Proof.
  induction x as [|c r IH]; intros H.
  - change ("" ++ String "." rest) with (String "." rest). reflexivity.
  - cbn [utils.forallb_str] in H. apply andb_true_iff in H as [Hc Hr].
    change (String c r ++ String "." rest) with (String c (r ++ String "." rest)).
    cbn [split]. rewrite (digit_not_dot c Hc), (IH Hr). reflexivity.
Qed.

Lemma split_digits_dots (x rest : string) :
  utils.forallb_str utils.is_digit x = true ->
  split "." (x ++ "." ++ rest) = x :: split "." rest.
Proof. apply split_digits_dot. Qed.

Lemma no_slash (s : string) :
  utils.forallb_str (fun c => utils.is_digit c || Ascii.eqb c ".") s = true ->
  contains "/" s = false.
Proof.
  induction s as [|c r IH]; [reflexivity|]. cbn [utils.forallb_str].
  intros H. apply andb_true_iff in H as [Hc Hr].
  cbn [contains]. rewrite (IH Hr).
  destruct c as [[] [] [] [] [] [] [] []]; try discriminate Hc; reflexivity.
Qed.

Lemma forallb_str_app (p : ascii -> bool) (a b : string) :
  utils.forallb_str p a = true -> utils.forallb_str p b = true ->
  utils.forallb_str p (a ++ b) = true.
Proof.
  intros Ha Hb. induction a as [|c r IH]; [exact Hb|].
  cbn [utils.forallb_str] in Ha. apply andb_true_iff in Ha as [Hc Hr].
  change (String c r ++ b) with (String c (r ++ b)). cbn [utils.forallb_str].
  rewrite Hc, (IH Hr). reflexivity.
Qed.

(** X24: Every dotted quad of four numbers from 0 to 255, each written in
    decimal as [str] writes it, is a valid address, and it is read as the
    IPv4 address with those four bytes. *)
Theorem dotted_quads_are_valid (a b c d : Z) :
  0 <= a <= 255 -> 0 <= b <= 255 -> 0 <= c <= 255 -> 0 <= d <= 255 ->
  utils.validate_ip (py.OStr (dotted_quad a b c d)) = true
  /\ utils.ip_address (dotted_quad a b c d)
     = Some (((a * 256 + b) * 256 + c) * 256 + d).
Proof.
  intros Ha Hb Hc Hd.
  destruct (octets_print_and_parse a Ha) as [Pa Da].
  destruct (octets_print_and_parse b Hb) as [Pb Db].
  destruct (octets_print_and_parse c Hc) as [Pc Dc].
  destruct (octets_print_and_parse d Hd) as [Pd Dd].
  assert (H4 : utils.IPv4Address (dotted_quad a b c d)
               = Some (((a * 256 + b) * 256 + c) * 256 + d)).
  { unfold utils.IPv4Address, utils.ipv4_int_from_string, dotted_quad.
    rewrite no_slash.
    2:{ pose proof (forallb_str_impl utils.is_digit
                      (fun c => utils.is_digit c || Ascii.eqb c ".")) as Hw.
        assert (Hdig : forall x, utils.forallb_str utils.is_digit x = true ->
                  utils.forallb_str (fun c => utils.is_digit c || Ascii.eqb c ".") x = true).
        { intros x. apply Hw. intros ch ->. reflexivity. }
        repeat (apply forallb_str_app; [apply Hdig; assumption|];
                change ("." ++ ?x) with (String "." x);
                cbn [utils.forallb_str]; rewrite orb_true_r; cbn [andb]).
        apply Hdig. assumption. }
    assert (Htruthy : forall x, truthy_str (py.str_of_int a ++ x) = true).
    { intros x. destruct (str_of_int_digits a) as [_ Hne]; [lia|].
      destruct (py.str_of_int a); [contradiction|reflexivity]. }
    rewrite Htruthy. cbn [negb].
    rewrite !split_digits_dots by assumption.
    rewrite (split_digits _ Dd).
    rewrite Pa, Pb, Pc, Pd. reflexivity. }
  unfold utils.validate_ip, utils.ip_address. rewrite H4. split; reflexivity.
Qed.

(** The address 192.168.0.1. *)
Lemma dotted_quads_are_valid_witness :
  utils.validate_ip (py.OStr (dotted_quad 192 168 0 1)) = true
  /\ utils.ip_address (dotted_quad 192 168 0 1)
     = Some (((192 * 256 + 168) * 256 + 0) * 256 + 1).
Proof. apply (dotted_quads_are_valid 192 168 0 1); lia. Defined.

(* ================================================================= *)
(** * Validation and the shape of a cleaned table *)

Lemma mask_nil {A} (m : list bool) (l : list A) :
  length m = length l -> mask m l = [] -> Forall (fun b => b = false) m.
Proof.
  revert l. induction m as [|b m IH]; intros [|x l] Hlen H; try discriminate Hlen;
    [constructor|].
  cbn [mask] in H. destruct b; [discriminate H|].
  constructor; [reflexivity|]. apply (IH l); [|exact H].
  cbn [length] in Hlen. lia.
Qed.

Lemma mask_all_false {A} (m : list bool) (l : list A) :
  Forall (fun b => b = false) m -> mask m l = [].
Proof.
  revert l. induction m as [|b m IH]; intros l H; [destruct l; reflexivity|].
  destruct l as [|x l]; [reflexivity|].
  inversion H as [|? ? Hb Hm]; subst. cbn [mask]. apply IH, Hm.
Qed.

(** The rows [validate_dataframe] counts as invalid, on a table with rows. *)
Lemma drop_valid_empty (ips : values) (df : DataFrame) :
  size ips = length df.(index) -> df.(index) <> [] -> df.(columns) <> [] ->
  (data_processor.empty (drop_valid ips df) = true
   <-> Forall (fun o => utils.validate_ip o = true) (as_objects ips)).
Proof.
  intros Hsize Hrows Hcols.
  assert (Hk : drop_valid ips df
               = filter_rows (map (fun o => negb (utils.validate_ip o)) (as_objects ips)) df).
  { destruct ips as [[|o l]|[|c l]|l]; try reflexivity;
      cbn [size length] in Hsize; symmetry in Hsize;
      apply length_zero_iff_nil in Hsize; contradiction. }
  rewrite Hk. set (m := map _ (as_objects ips)).
  assert (Hm : length m = length df.(index)).
  { unfold m. rewrite length_map, size_as_objects. exact Hsize. }
  unfold data_processor.empty, filter_rows. cbn [index columns].
  destruct (columns df) as [|c cols]; [contradiction|]. cbn [map].
  split.
  - intros H. destruct (mask m (index df)) eqn:Hmask; [|discriminate H].
    apply mask_nil in Hmask; [|exact Hm].
    unfold m in Hmask. rewrite Forall_fmap in Hmask.
    eapply Forall_impl; [exact Hmask|]. intros o Ho. cbn in Ho.
    destruct (utils.validate_ip o); [reflexivity|discriminate Ho].
  - intros H. rewrite mask_all_false; [reflexivity|].
    unfold m. rewrite Forall_fmap.
    eapply Forall_impl; [exact H|]. intros o Ho. cbn. rewrite Ho. reflexivity.
Qed.

Lemma validate_dataframe_cases (max : Z) (df : DataFrame) :
  NoDup (labels df) -> rectangular df ->
  (exists is_valid errors,
     validate_dataframe (mkDataProcessor max ["ip"]) df = Return (is_valid, errors)
     /\ (is_valid = true <-> errors = []))
  /\ (validate_dataframe (mkDataProcessor max ["ip"]) df = Return (true, [])
      <-> exists ips,
            ("ip", ips) ∈ df.(columns) /\ df.(index) <> []
            /\ Forall (fun o => utils.validate_ip o = true) (as_objects ips)).
Proof.
  intros Hnd Hrect. unfold validate_dataframe.
  cbn [required_columns List.filter].
  destruct (has_column "ip" df) eqn:Hip; cbn [negb].
  - apply has_column_elem in Hip as [ips Hin].
    rewrite (series_NoDup "ip" _ df ips Hnd Hin), bind_Return. cbv zeta.
    assert (Hsize : size ips = length df.(index)).
    { unfold rectangular in Hrect. rewrite Forall_forall in Hrect. exact (Hrect _ Hin). }
    assert (Hcols : df.(columns) <> []) by (intros E; rewrite E in Hin; inversion Hin).
    destruct (data_processor.empty df) eqn:Hempty.
    + assert (Hrows : df.(index) = []).
      { apply empty_cases in Hempty as [H|H]; [exact H|contradiction]. }
      cbn [app]. split.
      * destruct (negb _); eexists _, _; (split; [reflexivity|]);
          split; intros H; discriminate H.
      * split.
        -- intros H. destruct (negb _); discriminate H.
        -- intros (ips' & _ & Hne & _). contradiction.
    + assert (Hrows : df.(index) <> []).
      { intros E. unfold data_processor.empty in Hempty. rewrite E in Hempty.
        discriminate Hempty. }
      pose proof (drop_valid_empty ips df Hsize Hrows Hcols) as Hvalid.
      destruct (data_processor.empty (drop_valid ips df)) eqn:Hinv; cbn [negb app].
      * split; [eexists _, _; split; [reflexivity|]; split; reflexivity|].
        split; [|reflexivity]. intros _. exists ips.
        split; [exact Hin|]. split; [exact Hrows|]. apply Hvalid. reflexivity.
      * split; [eexists _, _; split; [reflexivity|]; split; intros H; discriminate H|].
        split; [intros H; discriminate H|].
        intros (ips' & Hin' & _ & Hall). exfalso.
        assert (ips' = ips).
        { pose proof (series_NoDup "ip" (KeyError "") df ips Hnd Hin) as Hs.
          apply series_elem in Hs as [_ Huniq]. apply Huniq, Hin'. }
        subst ips'. apply Hvalid in Hall. discriminate Hall.
  - rewrite bind_mret. cbn [app].
    split.
    + destruct (data_processor.empty df); eexists _, _; (split; [reflexivity|]);
        split; intros H; discriminate H.
    + split.
      * destruct (data_processor.empty df); intros H; discriminate H.
      * intros (ips & Hin & _). exfalso.
        assert (has_column "ip" df = true) as H by (apply has_column_elem; eauto).
        congruence.
Qed.

(** X25: On a table with distinct column labels, [validate_dataframe] with
    ['ip'] as the one required column (the setting of the default
    configuration) never raises, and reports the table valid exactly when it
    reports no error; it does so exactly when the table has an ['ip'] column
    and at least one row and every cell of that column is a valid address.
    *)
Theorem validate_dataframe_accepts (self : DataProcessor) (df : DataFrame) :
  self.(required_columns) = ["ip"] ->
  NoDup (labels df) -> rectangular df ->
  (exists is_valid errors,
     validate_dataframe self df = Return (is_valid, errors)
     /\ (is_valid = true <-> errors = []))
  /\ (validate_dataframe self df = Return (true, [])
      <-> exists ips,
            ("ip", ips) ∈ df.(columns) /\ df.(index) <> []
            /\ Forall (fun o => utils.validate_ip o = true) (as_objects ips)).
Proof.
  destruct self as [max req]. cbn [required_columns]. intros ->.
  exact (validate_dataframe_cases max df).
Qed.

(** The cleaned sample table under the default configuration. *)
Lemma validate_dataframe_accepts_witness :
  validate_dataframe (data_processor.init utils.get_default_config) cleaned_sample
  = Return (true, [])
  <-> exists ips,
        ("ip", ips) ∈ cleaned_sample.(columns) /\ cleaned_sample.(index) <> []
        /\ Forall (fun o => utils.validate_ip o = true) (as_objects ips).
Proof.
  apply (validate_dataframe_accepts (data_processor.init utils.get_default_config)
           cleaned_sample).
  - reflexivity.
  - apply (bool_decide_unpack _). vm_compute. exact I.
  - unfold rectangular. cbn [cleaned_sample columns index]. repeat constructor.
Defined.

Lemma mask_sublist {A} (m : list bool) (l : list A) : sublist (mask m l) l.
Proof.
  revert l. induction m as [|b m IH]; intros [|x l]; cbn [mask];
    try apply sublist_nil_l.
  destruct b; [apply sublist_skip, IH|apply sublist_cons, IH].
Qed.

Lemma labels_filter_rows (m : list bool) (df : DataFrame) :
  labels (filter_rows m df) = labels df.
Proof.
  unfold labels, filter_rows. cbn [columns]. rewrite map_map. reflexivity.
Qed.

(** What the two drops at the head of the cleaner leave: rows of the
    table, in their order, under the labels of the table. *)
Lemma front_shape (t ta tb : DataFrame) :
  rectangular t ->
  (if has_column "ip" t then
     ips ← series "ip" (IndexingError "Unalignable boolean Series provided as indexer") t;
     mret (keep_valid ips t)
   else mret t) = Return ta ->
  drop_duplicates_ip ta = Return tb ->
  tb.(index) <> [] ->
  sublist tb.(index) t.(index) /\ labels tb = labels t.
Proof.
  intros Hrect Ha Hb Hrows.
  assert (Hta : sublist ta.(index) t.(index)
                /\ (ta.(index) <> [] -> labels ta = labels t)).
  { destruct (has_column "ip" t).
    - destruct (series "ip" _ t) as [ips|] eqn:Hs; [|discriminate Ha].
      rewrite bind_Return in Ha. injection Ha as <-.
      destruct (keep_valid_cases ips t) as [->|[Hz ->]].
      + split; [apply mask_sublist|intros _; apply labels_filter_rows].
      + cbn [index]. split; [reflexivity|]. intros Hne. exfalso.
        apply series_elem in Hs as [Hin _].
        unfold rectangular in Hrect. rewrite Forall_forall in Hrect.
        specialize (Hrect _ Hin). cbn [snd] in Hrect. rewrite Hz in Hrect.
        symmetry in Hrect. apply length_zero_iff_nil in Hrect. contradiction.
    - injection Ha as <-. split; [reflexivity|intros _; reflexivity]. }
  destruct Hta as [Hsub Hlab]. unfold drop_duplicates_ip in Hb.
  destruct (data_processor.empty ta).
  - injection Hb as <-. split; [exact Hsub|apply Hlab, Hrows].
  - destruct (series "ip" _ ta) as [ips|]; [|discriminate Hb].
    rewrite bind_Return in Hb. injection Hb as <-.
    cbn [filter_rows index] in *. split.
    + etrans; [apply mask_sublist|exact Hsub].
    + rewrite labels_filter_rows. apply Hlab. intros E. rewrite E in Hrows.
      destruct (first_mask _ _); contradiction.
Qed.

(** X26: The shape of a cleaned table. When [clean_dataframe] returns a
    table with rows, these rows are rows of the input, in the order of the
    input (no row is added or moved), and the columns are those of the input
    in the same order, each under the canonical spelling of its label. *)
Theorem clean_dataframe_shape (parse_number : string -> option num)
    (t t1 : DataFrame) :
  rectangular t ->
  clean_dataframe parse_number t = Return t1 ->
  t1.(index) <> [] ->
  sublist t1.(index) t.(index)
  /\ labels t1 = map canon (labels t).
Proof.
  intros Hrect H Hrows. rewrite clean_dataframe_split in H.
  match type of H with
  | (?step ≫= _) = _ => destruct step as [ta|] eqn:Ha; [|discriminate H]
  end.
  rewrite bind_Return in H.
  destruct (drop_duplicates_ip ta) as [tb|] eqn:Hb; [|discriminate H].
  rewrite bind_Return in H.
  apply finish_table_image in H as [-> _]. cbn [index] in *.
  destruct (front_shape t ta tb Hrect Ha Hb Hrows) as [Hsub Hlab].
  split; [exact Hsub|].
  unfold labels in *. cbn [columns]. rewrite <- Hlab, !map_map.
  apply map_ext. intros c. apply finish_label.
Qed.

(** The shape of the cleaned sample. *)
Lemma clean_dataframe_shape_witness :
  sublist cleaned_sample.(index) raw_sample.(index)
  /\ labels cleaned_sample = map canon (labels raw_sample).
Proof.
  apply (clean_dataframe_shape digits_only raw_sample cleaned_sample).
  - unfold rectangular. cbn [raw_sample columns index]. repeat constructor.
  - vm_compute. reflexivity.
  - discriminate.
Defined.

(** X27: Validation, then cleaning, as the upload page runs them. On a table
    that [validate_dataframe] accepts (with ['ip'] the one required column),
    the invalid-address filter of the cleaner drops nothing: when
    [clean_dataframe] returns, the rows it kept are exactly the first
    occurrences of each address, in the order of the input, and the first
    row of the table is always among them. *)
Theorem clean_after_validate (parse_number : string -> option num)
    (self : DataProcessor) (t t1 : DataFrame) :
  self.(required_columns) = ["ip"] ->
  NoDup (labels t) -> rectangular t ->
  validate_dataframe self t = Return (true, []) ->
  clean_dataframe parse_number t = Return t1 ->
  exists ips,
    ("ip", ips) ∈ t.(columns)
    /\ t1.(index) = mask (first_mask [] (map dup_key (as_objects ips))) t.(index)
    /\ hd_error t1.(index) = hd_error t.(index)
    /\ t1.(index) <> [].
Proof.
  destruct self as [max req]. cbn [required_columns]. intros -> Hnd Hrect Hv H.
  apply (proj2 (validate_dataframe_cases max t Hnd Hrect)) in Hv
    as (ips & Hin & Hrows & Hvalid).
  pose proof (series_NoDup "ip" (IndexingError "Unalignable boolean Series provided as indexer")
                t ips Hnd Hin) as Hs.
  pose proof (series_NoDup "ip" (IndexingError "ip") t ips Hnd Hin) as Hs'.
  assert (Hsize : size ips = length t.(index)).
  { unfold rectangular in Hrect. rewrite Forall_forall in Hrect. exact (Hrect _ Hin). }
  assert (Hip : has_column "ip" t = true) by (apply has_column_elem; eauto).
  assert (Hkeep : keep_valid ips t = t).
  { destruct (keep_valid_cases ips t) as [->|[Hz _]].
    - apply filter_rows_all; [exact Hrect| |apply all_true_map, Hvalid].
      rewrite length_map, size_as_objects, Hsize. lia.
    - exfalso. rewrite Hz in Hsize. symmetry in Hsize.
      apply length_zero_iff_nil in Hsize. contradiction. }
  assert (Hempty : data_processor.empty t = false).
  { unfold data_processor.empty. destruct (index t); [contradiction|].
    destruct (columns t); [inversion Hin|reflexivity]. }
  rewrite clean_dataframe_split, Hip, Hs, bind_Return, bind_mret, Hkeep in H.
  unfold drop_duplicates_ip in H. rewrite Hempty, Hs', bind_Return in H.
  rewrite ?bind_mret, ?bind_Return in H.
  apply finish_table_image in H as [-> _]. cbn [index filter_rows].
  exists ips. split; [exact Hin|]. split; [reflexivity|].
  pose proof (size_as_objects ips) as Hlen. rewrite Hsize in Hlen.
  destruct (index t) as [|x idx]; [contradiction|].
  destruct (as_objects ips) as [|o os]; [discriminate Hlen|].
  cbn [map first_mask existsb mask hd_error]. split; [reflexivity|discriminate].
Qed.

(** On the cleaned sample, which is valid. *)
Lemma clean_after_validate_witness :
  exists ips,
    ("ip", ips) ∈ cleaned_sample.(columns)
    /\ cleaned_sample.(index)
       = mask (first_mask [] (map dup_key (as_objects ips))) cleaned_sample.(index)
    /\ hd_error cleaned_sample.(index) = hd_error cleaned_sample.(index)
    /\ cleaned_sample.(index) <> [].
Proof.
  apply (clean_after_validate digits_only
           (data_processor.init utils.get_default_config)
           cleaned_sample cleaned_sample).
  - reflexivity.
  - apply (bool_decide_unpack _). vm_compute. exact I.
  - unfold rectangular. cbn [cleaned_sample columns index]. repeat constructor.
  - vm_compute. reflexivity.
  - vm_compute. reflexivity.
Defined.

(* ================================================================= *)
(** * The address check of the IP Lookup page *)

(** *** What the pattern matches *)

Lemma leftovers_class (f : ascii -> bool) (s r : string) :
  r ∈ re.leftovers (re.Class f) s <-> exists c, s = String c r /\ f c = true.
Proof.
  cbn [re.leftovers]. destruct s as [|c s'].
  - split; [intros H; inversion H|intros (c & H & _); discriminate H].
  - destruct (f c) eqn:Hc; split.
    + intros H. apply list_elem_of_singleton in H as ->. exists c. split; [reflexivity|exact Hc].
    + intros (c' & H & _). injection H as _ ->. apply list_elem_of_singleton. reflexivity.
    + intros H. inversion H.
    + intros (c' & H & Hc'). injection H as <- _. congruence.
Qed.

Lemma digits_upto (k : nat) :
  forall s r,
    r ∈ re.upto (re.leftovers (re.Class utils.is_digit)) k s
    <-> exists w, s = w ++ r /\ utils.forallb_str utils.is_digit w = true
                  /\ (String.length w <= k)%nat.
Proof.
  induction k as [|k IH]; intros s r; cbn [re.upto].
  - rewrite list_elem_of_singleton. split.
    + intros ->. exists "". repeat split. cbn. lia.
    + intros (w & -> & _ & Hlen). destruct w; [reflexivity|cbn in Hlen; lia].
  - rewrite elem_of_app, list_elem_of_bind, list_elem_of_singleton. split.
    + intros [(y & Hr & Hy) | -> ].
      * apply leftovers_class in Hy as (c & -> & Hc).
        apply IH in Hr as (w & -> & Hw & Hlen).
        exists (String c w). cbn [utils.forallb_str String.length].
        rewrite Hc, Hw. repeat split. lia.
      * exists "". repeat split. cbn. lia.
    + intros (w & -> & Hw & Hlen). destruct w as [|c w]; [right; reflexivity|].
      left. cbn [utils.forallb_str String.length] in *.
      apply andb_true_iff in Hw as [Hc Hw].
      exists (w ++ r). split.
      * apply IH. exists w. repeat split; [exact Hw|lia].
      * apply leftovers_class. exists c. split; [reflexivity|exact Hc].
Qed.

Lemma octet_leftovers (s r : string) :
  r ∈ re.leftovers app.octet_pattern s <-> exists w, s = w ++ r /\ octet_text w.
Proof.
  unfold app.octet_pattern. cbn [re.leftovers re.exactly].
  rewrite list_elem_of_bind. split.
  - intros (y & Hr & Hy).
    apply leftovers_class in Hy as (c & -> & Hc).
    apply digits_upto in Hr as (w & -> & Hw & Hlen).
    exists (String c w). split; [reflexivity|]. unfold octet_text.
    cbn [utils.forallb_str String.length]. rewrite Hc, Hw. split; [reflexivity|lia].
  - intros (w & -> & Hw & Hlen). destruct w as [|c w]; [cbn in Hlen; lia|].
    cbn [utils.forallb_str String.length] in *.
    apply andb_true_iff in Hw as [Hc Hw].
    exists (w ++ r). split.
    + apply digits_upto. exists w. repeat split; [exact Hw|lia].
    + apply leftovers_class. exists c. split; [reflexivity|exact Hc].
Qed.

Lemma group_leftovers (s r : string) :
  r ∈ re.leftovers (re.Seq app.octet_pattern (re.Class (Ascii.eqb "."))) s
  <-> exists w, s = w ++ "." ++ r /\ octet_text w.
Proof.
  cbn [re.leftovers]. rewrite list_elem_of_bind. split.
  - intros (y & Hr & Hy). apply octet_leftovers in Hy as (w & -> & Hw).
    apply leftovers_class in Hr as (c & -> & Hc).
    apply Ascii.eqb_eq in Hc as <-. exists w. split; [reflexivity|exact Hw].
  - intros (w & -> & Hw). exists ("." ++ r). split.
    + apply leftovers_class. exists "."%char. split; reflexivity.
    + apply octet_leftovers. exists w. split; [reflexivity|exact Hw].
Qed.

(** The pattern matches four groups of one to three digits between dots,
    at the end of the text or before a newline that ends it. *)
Lemma ip_pattern_matches (s : string) :
  re.match_ app.ip_pattern s = true
  <-> exists w1 w2 w3 w4 r,
        s = w1 ++ "." ++ w2 ++ "." ++ w3 ++ "." ++ w4 ++ r
        /\ octet_text w1 /\ octet_text w2 /\ octet_text w3 /\ octet_text w4
        /\ (r = "" \/ r = newline).
Proof.
  assert (Hin : re.match_ app.ip_pattern s = true
                <-> exists r, r ∈ re.leftovers app.ip_pattern s).
  { unfold re.match_. destruct (re.leftovers app.ip_pattern s) as [|x l]; split.
    - discriminate.
    - intros [r H]. inversion H.
    - intros _. exists x. left.
    - reflexivity. }
  rewrite Hin. clear Hin. unfold app.ip_pattern.
  set (group := re.Seq app.octet_pattern (re.Class (Ascii.eqb "."))).
  assert (Hthree : forall s r,
            r ∈ re.leftovers (re.Repeat group 3 0) s
            <-> exists w1 w2 w3,
                  s = w1 ++ "." ++ w2 ++ "." ++ w3 ++ "." ++ r
                  /\ octet_text w1 /\ octet_text w2 /\ octet_text w3).
  { clear s. intros s r. cbn [re.leftovers re.exactly re.upto]. fold (re.leftovers group).
    rewrite list_elem_of_bind. split.
    - intros (y1 & H & H1). apply list_elem_of_bind in H as (y2 & H & H2).
      apply list_elem_of_bind in H as (y3 & H & H3).
      apply list_elem_of_singleton in H as ->.
      apply group_leftovers in H1 as (w1 & -> & Hw1).
      apply group_leftovers in H2 as (w2 & -> & Hw2).
      apply group_leftovers in H3 as (w3 & -> & Hw3).
      exists w1, w2, w3. repeat first [assumption | reflexivity | split].
    - intros (w1 & w2 & w3 & -> & Hw1 & Hw2 & Hw3).
      exists (w2 ++ "." ++ w3 ++ "." ++ r). split.
      + apply list_elem_of_bind. exists (w3 ++ "." ++ r). split.
        * apply list_elem_of_bind. exists r. split.
          -- apply list_elem_of_singleton. reflexivity.
          -- apply group_leftovers. exists w3. split; [reflexivity|exact Hw3].
        * apply group_leftovers. exists w2. split; [reflexivity|exact Hw2].
      + apply group_leftovers. exists w1. split; [reflexivity|exact Hw1]. }
  assert (Hdollar : forall s r, r ∈ re.leftovers re.Dollar s
                                <-> r = s /\ (s = "" \/ s = newline)).
  { clear. intros s r. cbn [re.leftovers]. fold newline.
    destruct (String.eqb_spec s "") as [->|Hne]; cbn [orb].
    - rewrite list_elem_of_singleton. split; [intros ->; auto|intros [-> _]; reflexivity].
    - destruct (String.eqb_spec s newline) as [->|Hnl].
      + rewrite list_elem_of_singleton. split; [intros ->; auto|intros [-> _]; reflexivity].
      + split; [intros H; inversion H|intros [_ [H|H]]; contradiction]. }
  split.
  - intros [r H]. cbn [re.leftovers] in H. fold (re.leftovers (re.Repeat group 3 0)) in H.
    apply list_elem_of_bind in H as (y & H & H3).
    apply list_elem_of_bind in H as (y4 & H & H4).
    apply Hthree in H3 as (w1 & w2 & w3 & -> & Hw1 & Hw2 & Hw3).
    apply octet_leftovers in H4 as (w4 & -> & Hw4).
    apply Hdollar in H as [-> Hr].
    exists w1, w2, w3, w4, y4. repeat first [assumption | reflexivity | split].
  - intros (w1 & w2 & w3 & w4 & r & -> & Hw1 & Hw2 & Hw3 & Hw4 & Hr).
    exists r. cbn [re.leftovers]. fold (re.leftovers (re.Repeat group 3 0)).
    apply list_elem_of_bind. exists (w4 ++ r). split.
    + apply list_elem_of_bind. exists r. split.
      * apply Hdollar. split; [reflexivity|exact Hr].
      * apply octet_leftovers. exists w4. split; [reflexivity|exact Hw4].
    + apply Hthree. exists w1, w2, w3. repeat first [assumption | reflexivity | split].
Qed.

(** *** What the check accepts *)

Lemma string_app_nil (s : string) : s ++ "" = s.
Proof.
  induction s as [|c r IH]; [reflexivity|].
  change (String c (r ++ "") = String c r). f_equal. exact IH.
Qed.

Lemma rstrip_digits_newline (w : string) :
  utils.forallb_str utils.is_digit w = true -> w <> "" ->
  rstrip (w ++ newline) = w.
Proof.
  induction w as [|c r IH]; intros H Hne; [contradiction|].
  cbn [utils.forallb_str] in H. apply andb_true_iff in H as [Hc Hr].
  change (String c r ++ newline) with (String c (r ++ newline)). cbn [rstrip].
  destruct r as [|c' r'].
  - change ("" ++ newline) with newline. unfold newline. cbn [rstrip].
    change (is_space (ascii_of_nat 10)) with true. cbv iota.
    rewrite (digit_not_space c Hc). reflexivity.
  - rewrite IH by (assumption || discriminate). reflexivity.
Qed.

(** [int()] on one to three digits, alone or before a final newline. *)
Lemma int_of_octet_text (w r : string) :
  octet_text w -> r = "" \/ r = newline ->
  int_of_str (w ++ r) = Some (utils.number_in_base 10 0 w).
Proof.
  intros [Hw Hlen] Hr.
  assert (Hne : w <> "") by (intros ->; cbn in Hlen; lia).
  destruct Hr as [->| ->].
  - rewrite string_app_nil. apply int_of_str_digits; assumption.
  - rewrite <- (int_of_str_digits w Hw Hne). unfold int_of_str.
    assert (Hstrip : strip (w ++ newline) = w).
    { unfold strip.
      assert (Hl : lstrip (w ++ newline) = w ++ newline).
      { destruct w as [|c w']; [contradiction|].
        cbn [utils.forallb_str] in Hw. apply andb_true_iff in Hw as [Hc _].
        change (String c w' ++ newline) with (String c (w' ++ newline)).
        cbn [lstrip]. rewrite (digit_not_space c Hc). reflexivity. }
      rewrite Hl. apply rstrip_digits_newline; assumption. }
    rewrite Hstrip, (strip_digits w Hw). reflexivity.
Qed.

Lemma split_last_octet (w r : string) :
  octet_text w -> r = "" \/ r = newline -> split "." (w ++ r) = [w ++ r].
Proof.
  intros [Hw _] Hr.
  assert (H : forall x, split "." x = [x] -> forall c, Ascii.eqb c "." = false ->
                        split "." (String c x) = [String c x]).
  { intros x Hx c Hc. cbn [split]. rewrite Hc, Hx. reflexivity. }
  induction w as [|c w' IH].
  - destruct Hr as [->| ->]; reflexivity.
  - cbn [utils.forallb_str] in Hw. apply andb_true_iff in Hw as [Hc Hw'].
    change (String c w' ++ r) with (String c (w' ++ r)).
    apply H; [apply IH, Hw'|apply digit_not_dot, Hc].
Qed.

(** The verdict on a text the pattern matches. *)
Lemma lookup_check_of_groups (w1 w2 w3 w4 r : string) :
  octet_text w1 -> octet_text w2 -> octet_text w3 -> octet_text w4 ->
  r = "" \/ r = newline ->
  app.validate_ip (w1 ++ "." ++ w2 ++ "." ++ w3 ++ "." ++ w4 ++ r)
  = Return ((utils.number_in_base 10 0 w1 <=? 255)
            && (utils.number_in_base 10 0 w2 <=? 255)
            && (utils.number_in_base 10 0 w3 <=? 255)
            && (utils.number_in_base 10 0 w4 <=? 255)).
Proof.
  intros H1 H2 H3 H4 Hr. unfold app.validate_ip.
  assert (Hm : re.match_ app.ip_pattern
                 (w1 ++ "." ++ w2 ++ "." ++ w3 ++ "." ++ w4 ++ r) = true).
  { apply ip_pattern_matches. exists w1, w2, w3, w4, r.
    repeat first [assumption | reflexivity | split]. }
  rewrite Hm. cbn [negb].
  rewrite !split_digits_dots by (apply H1 || apply H2 || apply H3).
  rewrite (split_last_octet w4 r H4 Hr). cbn [app.octets_in_range].
  pose proof (int_of_octet_text w1 "" H1 (or_introl eq_refl)) as E1.
  pose proof (int_of_octet_text w2 "" H2 (or_introl eq_refl)) as E2.
  pose proof (int_of_octet_text w3 "" H3 (or_introl eq_refl)) as E3.
  rewrite string_app_nil in E1, E2, E3.
  rewrite E1, E2, E3, (int_of_octet_text w4 r H4 Hr).
  repeat match goal with
  | |- context [255 <? ?n] => destruct (Z.ltb_spec 255 n)
  end;
  repeat match goal with
  | |- context [?n <=? 255] => destruct (Z.leb_spec n 255)
  end; try lia; reflexivity.
Qed.

(** X28: The check of the IP Lookup page never raises ([int()] is only run
    on text the pattern has matched), and it accepts exactly the texts made
    of four groups of one to three ASCII digits between dots, each spelling
    a number up to 255, possibly followed by one final newline. Leading
    zeros are accepted. *)
Theorem lookup_check_accepts (ip : string) :
  (exists verdict, app.validate_ip ip = Return verdict)
  /\ (app.validate_ip ip = Return true
      <-> exists w1 w2 w3 w4 r,
            ip = w1 ++ "." ++ w2 ++ "." ++ w3 ++ "." ++ w4 ++ r
            /\ octet_text w1 /\ octet_text w2 /\ octet_text w3 /\ octet_text w4
            /\ (r = "" \/ r = newline)
            /\ utils.number_in_base 10 0 w1 <= 255
            /\ utils.number_in_base 10 0 w2 <= 255
            /\ utils.number_in_base 10 0 w3 <= 255
            /\ utils.number_in_base 10 0 w4 <= 255).
Proof.
  destruct (re.match_ app.ip_pattern ip) eqn:Hm.
  - apply ip_pattern_matches in Hm
      as (w1 & w2 & w3 & w4 & r & -> & H1 & H2 & H3 & H4 & Hr).
    pose proof (lookup_check_of_groups w1 w2 w3 w4 r H1 H2 H3 H4 Hr) as Hv.
    split; [eexists; exact Hv|]. split.
    + intros Ht. rewrite Hv in Ht. injection Ht as Ht.
      apply andb_true_iff in Ht as [Ht Hd]. apply andb_true_iff in Ht as [Ht Hc].
      apply andb_true_iff in Ht as [Ha Hb].
      apply Z.leb_le in Ha, Hb, Hc, Hd.
      exists w1, w2, w3, w4, r. repeat first [assumption | reflexivity | split].
    + intros (v1 & v2 & v3 & v4 & r' & E & G1 & G2 & G3 & G4 & Gr & La & Lb & Lc & Ld).
      rewrite E, (lookup_check_of_groups v1 v2 v3 v4 r' G1 G2 G3 G4 Gr).
      apply Z.leb_le in La, Lb, Lc, Ld. rewrite La, Lb, Lc, Ld. reflexivity.
  - assert (Hv : app.validate_ip ip = Return false).
    { unfold app.validate_ip. rewrite Hm. reflexivity. }
    split; [eexists; exact Hv|]. split.
    + intros Ht. rewrite Hv in Ht. discriminate Ht.
    + intros (v1 & v2 & v3 & v4 & r' & E & G1 & G2 & G3 & G4 & Gr & _).
      exfalso. assert (re.match_ app.ip_pattern ip = true) as Hm'.
      { apply ip_pattern_matches. exists v1, v2, v3, v4, r'.
        repeat first [assumption | reflexivity | split]. }
      congruence.
Qed.

(** *** The two address checks side by side *)

Lemma parse_octet_text (s : string) (v : Z) :
  utils._parse_octet s = Some v -> octet_text s.
Proof.
  intros H. pose proof (parse_octet_inv s v H) as (Hne & Hd & _ & _).
  split; [exact Hd|]. unfold utils._parse_octet in H.
  destruct (negb (truthy_str s)); [discriminate H|]. rewrite Hd in H. cbn [negb] in H.
  destruct (Nat.ltb_spec 3 (String.length s)) as [|Hle]; [discriminate H|].
  destruct s; [contradiction|]. cbn [String.length] in *. lia.
Qed.

(** A text is its pieces with the separator put back. *)
Lemma split_cons (sep : ascii) (s p q : string) (l : list string) :
  split sep s = p :: q :: l ->
  exists rest, s = p ++ String sep rest /\ split sep rest = q :: l.
Proof.
  revert p q l. induction s as [|c r IH]; intros p q l H; [discriminate H|].
  cbn [split] in H. destruct (Ascii.eqb_spec c sep) as [->|Hne].
  - injection H as <- H. exists r. split; [reflexivity|exact H].
  - destruct (split sep r) as [|p' ps] eqn:Hs; [discriminate H|].
    injection H as <- ->.
    destruct (IH p' q l eq_refl) as (rest & -> & Hrest).
    exists rest. split; [reflexivity|exact Hrest].
Qed.

Lemma split_one (sep : ascii) (s p : string) : split sep s = [p] -> s = p.
Proof.
  revert p. induction s as [|c r IH]; intros p H.
  - injection H as <-. reflexivity.
  - cbn [split] in H. destruct (Ascii.eqb c sep).
    + injection H as _ H. destruct r; cbn [split] in H; [discriminate H|].
      destruct (Ascii.eqb a sep); [discriminate H|].
      destruct (split sep r); discriminate H.
    + destruct (split sep r) as [|p' ps] eqn:Hs; [injection H as <-|].
      * destruct r; cbn [split] in Hs; [discriminate Hs|].
        destruct (Ascii.eqb a sep); [discriminate Hs|].
        destruct (split sep r); discriminate Hs.
      * injection H as <- ->. rewrite (IH p' eq_refl). reflexivity.
Qed.

(** X29: The upload path and the IP Lookup page check addresses differently.
    Every text the upload check reads as an IPv4 address passes the lookup
    check, and every text it reads as an IPv6 address fails it. The converse
    does not hold: the lookup check passes a dotted quad with leading zeros
    and one followed by a newline, which the upload check refuses. *)
Theorem lookup_check_versus_upload_check :
  (forall ip n, utils.IPv4Address ip = Some n -> app.validate_ip ip = Return true)
  /\ (forall ip n, utils.IPv6Address ip = Some n -> app.validate_ip ip = Return false)
  /\ app.validate_ip "01.02.03.04" = Return true
  /\ utils.validate_ip (OStr "01.02.03.04") = false
  /\ app.validate_ip ("1.2.3.4" ++ newline) = Return true
  /\ utils.validate_ip (OStr ("1.2.3.4" ++ newline)) = false.
Proof.
  split; [|split; [|repeat split; vm_compute; reflexivity]].
  - intros ip n H4.
    destruct (IPv4Address_inv _ _ H4)
      as (a & b & c & d & va & vb & vc & vd & Hsplit & Ha & Hb & Hc & Hd & _).
    apply split_cons in Hsplit as (r1 & -> & Hsplit).
    apply split_cons in Hsplit as (r2 & -> & Hsplit).
    apply split_cons in Hsplit as (r3 & -> & Hsplit).
    apply split_one in Hsplit as ->.
    pose proof (parse_octet_text _ _ Ha) as Ta.
    pose proof (parse_octet_text _ _ Hb) as Tb.
    pose proof (parse_octet_text _ _ Hc) as Tc.
    pose proof (parse_octet_text _ _ Hd) as Td.
    apply parse_octet_inv in Ha as (_ & _ & -> & Ra).
    apply parse_octet_inv in Hb as (_ & _ & -> & Rb).
    apply parse_octet_inv in Hc as (_ & _ & -> & Rc).
    apply parse_octet_inv in Hd as (_ & _ & -> & Rd).
    pose proof (lookup_check_of_groups a b c d "" Ta Tb Tc Td (or_introl eq_refl)) as Hv.
    rewrite string_app_nil in Hv.
    change (a ++ String "." (b ++ String "." (c ++ String "." d)))
      with (a ++ "." ++ b ++ "." ++ c ++ "." ++ d).
    rewrite Hv.
    destruct Ra as [_ Ra], Rb as [_ Rb], Rc as [_ Rc], Rd as [_ Rd].
    apply Z.leb_le in Ra, Rb, Rc, Rd. rewrite Ra, Rb, Rc, Rd. reflexivity.
  - intros ip n H6. unfold app.validate_ip.
    destruct (re.match_ app.ip_pattern ip) eqn:Hm; [|reflexivity].
    exfalso. apply ip_pattern_matches in Hm
      as (w1 & w2 & w3 & w4 & r & -> & H1 & _).
    pose proof (IPv6_first_piece _ _ H6) as Hnone.
    rewrite split_digits_dots in Hnone by apply H1. cbn [hd] in Hnone.
    pose proof (int_of_octet_text w1 "" H1 (or_introl eq_refl)) as Hsome.
    rewrite string_app_nil in Hsome. congruence.
Qed.

(* ================================================================= *)
(** * The two maps *)

Lemma heat_data_cons (node : VPNNode) (rest : list VPNNode) :
  visualizations.heat_data (node :: rest)
  = match node.(latitude), node.(longitude) with
    | Some lat, Some lon =>
        if py.truthy_float lat && py.truthy_float lon then
          (lat, lon,
           if py.float_gt node.(risk_score) 0 then node.(risk_score) else 1.0%float)
          :: visualizations.heat_data rest
        else visualizations.heat_data rest
    | _, _ => visualizations.heat_data rest
    end.
Proof. reflexivity. Qed.

Lemma world_map_markers_cons (node : VPNNode) (rest : list VPNNode) :
  visualizations.world_map_markers (node :: rest)
  = match node.(latitude), node.(longitude) with
    | Some lat, Some lon =>
        if PrimFloat.is_nan lat || PrimFloat.is_nan lon
        then Raise nan_location_error
        else
          match visualizations.world_map_markers rest with
          | Raise e => Raise e
          | Return markers =>
              Return
                (visualizations.mkMarker (lat, lon)
                   (fst (visualizations.marker_style node.(risk_level)))
                   (snd (visualizations.marker_style node.(risk_level)))
                   (node.(ip) ++ " ("
                    ++ visualizations.str_of_opt node.(country) ++ ")")
                 :: markers)
          end
    | _, _ => visualizations.world_map_markers rest
    end.
Proof.
  cbn [visualizations.world_map_markers].
  destruct (latitude node) as [lat|]; [|reflexivity].
  destruct (longitude node) as [lon|]; [|reflexivity].
  destruct (visualizations.marker_style _) as [c i].
  unfold visualizations.validate_location.
  destruct (PrimFloat.is_nan lat || PrimFloat.is_nan lon); reflexivity.
Qed.

Lemma heat_layer_cons (lat lon weight : float) (rest : list (float * float * float)) :
  visualizations.heat_layer ((lat, lon, weight) :: rest)
  = if PrimFloat.is_nan lat || PrimFloat.is_nan lon
    then Raise nan_location_error
    else match visualizations.heat_layer rest with
         | Raise e => Raise e
         | Return points => Return ((lat, lon, weight) :: points)
         end.
Proof.
  cbn [visualizations.heat_layer]. unfold visualizations.validate_location.
  destruct (PrimFloat.is_nan lat || PrimFloat.is_nan lon); reflexivity.
Qed.

(** The two outcomes of the marker map, and what a built marker map says
    of the heat map. *)
Lemma world_map_cases (nodes : list VPNNode) :
  if existsb nan_located nodes
  then visualizations.world_map_markers nodes = Raise nan_location_error
  else exists markers,
         visualizations.world_map_markers nodes = Return markers
         /\ visualizations.create_heatmap nodes
            = Return (visualizations.heat_data nodes)
         /\ Forall (fun p : float * float * float =>
                      (exists m, m ∈ markers /\ visualizations.location m = p.1)
                      /\ PrimFloat.ltb 0 p.2 = true)
                   (visualizations.heat_data nodes)
         /\ (length (visualizations.heat_data nodes) <= length markers
             <= length nodes)%nat.
Proof.
  unfold visualizations.create_heatmap.
  induction nodes as [|node rest IH].
  - cbn. exists []. repeat split; try constructor; lia.
  - cbn [existsb]. rewrite world_map_markers_cons, heat_data_cons.
    unfold nan_located at 1.
    destruct (latitude node) as [lat|]; [destruct (longitude node) as [lon|]|].
    + destruct (PrimFloat.is_nan lat || PrimFloat.is_nan lon) eqn:Hnan;
        cbn [orb]; [reflexivity|].
      destruct (existsb nan_located rest); [rewrite IH; reflexivity|].
      destruct IH as (markers & -> & Hheat & Hall & Hlen).
      eexists. split; [reflexivity|].
      assert (Hrest : Forall (fun p : float * float * float =>
                  (exists m, m ∈ visualizations.mkMarker (lat, lon)
                                   (fst (visualizations.marker_style (risk_level node)))
                                   (snd (visualizations.marker_style (risk_level node)))
                                   (ip node ++ " ("
                                    ++ visualizations.str_of_opt (country node) ++ ")")
                                 :: markers
                             /\ visualizations.location m = p.1)
                  /\ PrimFloat.ltb 0 p.2 = true)
                (visualizations.heat_data rest)).
      { eapply Forall_impl; [exact Hall|]. intros p [(m & Hm & Hloc) Hw].
        split; [|exact Hw]. exists m. split; [right; exact Hm|exact Hloc]. }
      destruct (py.truthy_float lat && py.truthy_float lon).
      * rewrite heat_layer_cons, Hnan, Hheat. split; [reflexivity|]. split.
        -- constructor; [|exact Hrest]. cbn [fst snd]. split.
           ++ eexists. split; [left|reflexivity].
           ++ unfold py.float_gt.
              destruct (PrimFloat.ltb 0 (risk_score node)) eqn:Hs;
                [exact Hs|reflexivity].
        -- cbn [length]. lia.
      * split; [exact Hheat|]. split; [exact Hrest|]. cbn [length]. lia.
    + cbn [orb]. destruct (existsb nan_located rest); [exact IH|].
      destruct IH as (markers & -> & Hheat & Hall & Hlen).
      exists markers. repeat split; try assumption; cbn [length]; lia.
    + cbn [orb]. destruct (existsb nan_located rest); [exact IH|].
      destruct IH as (markers & -> & Hheat & Hall & Hlen).
      exists markers. repeat split; try assumption; cbn [length]; lia.
Qed.

(** X30: The marker map and the heat map do not show the same nodes, and
    do not fail on the same lists. [create_world_map] draws every node
    whose coordinates are both set, and raises [ValueError] (from
    [folium.Marker]) exactly when one of these is NaN. When it does
    not raise, [create_heatmap] does not raise either, every point of the
    heat map has a marker at the same place and a weight above zero, and
    there are at most as many heat points as markers and as many markers
    as nodes. The heat map leaves out the nodes with a coordinate equal to
    zero: a node at latitude or longitude 0.0 (where the fallback puts the
    countries it does not know) has no heat point, while the marker map
    gives it a marker, or raises when its other coordinate is NaN. *)
Theorem heat_points_have_markers (nodes : list VPNNode) :
  (existsb nan_located nodes = true ->
   visualizations.world_map_markers nodes = Raise nan_location_error)
  /\ (existsb nan_located nodes = false ->
      exists markers,
        visualizations.world_map_markers nodes = Return markers
        /\ visualizations.create_heatmap nodes
           = Return (visualizations.heat_data nodes)
        /\ Forall (fun p : float * float * float =>
                     (exists m, m ∈ markers /\ visualizations.location m = p.1)
                     /\ PrimFloat.ltb 0 p.2 = true)
                  (visualizations.heat_data nodes)
        /\ (length (visualizations.heat_data nodes) <= length markers
            <= length nodes)%nat)
  /\ (forall node lat lon,
        node.(latitude) = Some lat -> node.(longitude) = Some lon ->
        PrimFloat.eqb lat 0 = true \/ PrimFloat.eqb lon 0 = true ->
        visualizations.create_heatmap [node] = Return []
        /\ (PrimFloat.is_nan lat || PrimFloat.is_nan lon = false ->
            exists m, visualizations.world_map_markers [node] = Return [m]
                      /\ visualizations.location m = (lat, lon))
        /\ (PrimFloat.is_nan lat || PrimFloat.is_nan lon = true ->
            visualizations.world_map_markers [node] = Raise nan_location_error)).
Proof.
  pose proof (world_map_cases nodes) as H.
  split; [|split].
  - intros E. rewrite E in H. exact H.
  - intros E. rewrite E in H. exact H.
  - intros node lat lon Hlat Hlon Hzero.
    unfold visualizations.create_heatmap.
    rewrite world_map_markers_cons, heat_data_cons, Hlat, Hlon.
    split; [|split].
    + unfold py.truthy_float.
      destruct Hzero as [-> | ->]; [reflexivity|].
      rewrite andb_false_r. reflexivity.
    + intros ->. eexists. split; reflexivity.
    + intros ->. reflexivity.
Qed.

(** On two nodes, one of them at (0, 0): two markers, one heat point. *)
Lemma heat_points_have_markers_witness :
  exists markers,
    visualizations.world_map_markers [located; null_island] = Return markers
    /\ visualizations.create_heatmap [located; null_island]
       = Return (visualizations.heat_data [located; null_island])
    /\ Forall (fun p : float * float * float =>
                 (exists m, m ∈ markers /\ visualizations.location m = p.1)
                 /\ PrimFloat.ltb 0 p.2 = true)
              (visualizations.heat_data [located; null_island])
    /\ (length (visualizations.heat_data [located; null_island]) <= length markers
        <= length [located; null_island])%nat.
Proof.
  apply (proj1 (proj2 (heat_points_have_markers [located; null_island]))).
  vm_compute. reflexivity.
Defined.
